(** * AI Recruitment App: a shallow embedding of [scripts/app.js] and of the
    proxy server, with the properties of its storage, authentication,
    routing, questionnaire and rate-limiting code.

    Conventions of the embedding:
    - JSON documents (what [localStorage] and [sessionStorage] hold once
      parsed, and what the views pass around) are values of type [json];
      a JavaScript object is a finite map from property names to values
      ([gmap string json]), the JavaScript [undefined] of a missing property
      is [None];
    - a function that can throw returns [res A]: [Ok a] or [Throw msg];
    - the functions of the JavaScript platform that the application calls
      but does not define ([JSON.parse], [JSON.stringify],
      [String.prototype.toLowerCase], the Web Crypto PBKDF2 pipeline, the
      numeric value of a string that is not a plain decimal numeral) are the
      fields of the class [Platform]; [Ref.platform] is an executable
      instance of it used to run the definitions on concrete inputs;
    - [console.log] / [console.error] calls have no effect on the state the
      properties are about and are left out. *)

From Stdlib Require Import ZArith NArith Ascii String DecimalString.
From stdpp Require Import gmap strings list fin_maps.

Set Warnings "-register-all".
Local Open Scope string_scope.

(* ====================================================================== *)
(** * JavaScript values and the string primitives the application uses *)
(* ====================================================================== *)

Module JS.

(** JSON values. Numbers are the integer-valued ones, printed in plain
    decimal as JavaScript prints them below [10^21]: the documents of the
    application hold strings, arrays of strings and nested objects. *)
Inductive json : Type :=
| JNull
| JBool (b : bool)
| JNum (n : Z)
| JStr (s : string)
| JArr (xs : list json)
| JObj (fields : gmap string json).

(** The outcome of code that may throw. *)
Inductive res (A : Type) : Type :=
| Ok (a : A)
| Throw (msg : string).
Global Arguments Ok {A} a.
Global Arguments Throw {A} msg.

Global Instance res_ret : MRet res := λ A, Ok.
Global Instance res_bind : MBind res :=
  λ A B f m, match m with Ok a => f a | Throw e => Throw e end.

(** [ToBoolean]: [null], [false], [0] and the empty string are falsy. *)
Definition truthy (v : json) : bool :=
  match v with
  | JNull => false
  | JBool b => b
  | JNum n => negb (n =? 0)%Z
  | JStr s => negb (String.eqb s EmptyString)
  | JArr _ | JObj _ => true
  end.

(** The same on a value that may be [undefined]. *)
Definition truthy_opt (v : option json) : bool := from_option truthy false v.

Definition isArray (v : option json) : bool :=
  match v with Some (JArr _) => true | _ => false end.

(** [v.k] for a property [k] that no built-in prototype defines: a
    [TypeError] on [null], [undefined] on the other primitives and on
    arrays, the stored property on an object. *)
Definition member (v : json) (k : string) : res (option json) :=
  match v with
  | JNull => Throw "TypeError: Cannot read properties of null"
  | JObj o => Ok (o !! k)
  | _ => Ok None
  end.

(** [s === v] for a string [s] and a value [v] that may be [undefined]. *)
Definition strict_eq_string (s : string) (v : option json) : bool :=
  match v with
  | Some (JStr t) => String.eqb s t
  | _ => false
  end.

(** [a || b] on strings that may be [null] (the result of [getItem]). *)
Definition or_string (a : option string) (b : string) : string :=
  match a with
  | Some s => if String.eqb s EmptyString then b else s
  | None => b
  end.

(** ** Decimal numerals *)

Definition N_to_string (n : N) : string := NilZero.string_of_uint (N.to_uint n).

Definition Z_to_string (z : Z) : string :=
  match z with
  | Z0 => "0"
  | Zpos p => N_to_string (Npos p)
  | Zneg p => "-" +:+ N_to_string (Npos p)
  end.

(** ** [Array.prototype.join] *)

Definition join_strings (sep : string) (l : list string) : string :=
  match l with
  | [] => EmptyString
  | x :: r => foldl (λ acc y, acc +:+ sep +:+ y) x r
  end.

(** [ToString] of a value, as [join] applies it to the elements of an
    array: a nested array is joined with [","], an object prints as
    ["[object Object]"]. *)
Fixpoint to_string (v : json) : string :=
  match v with
  | JNull => "null"
  | JBool true => "true"
  | JBool false => "false"
  | JNum n => Z_to_string n
  | JStr s => s
  | JArr xs =>
      join_strings ","
        (map (λ x, match x with JNull => EmptyString | _ => to_string x end) xs)
  | JObj _ => "[object Object]"
  end.

(** [xs.join(sep)]: [null] (and [undefined]) elements print as the empty
    string. *)
Definition join (sep : string) (xs : list json) : string :=
  join_strings sep
    (map (λ x, match x with JNull => EmptyString | _ => to_string x end) xs).

(** ** [String.prototype.split] on a one-character separator *)

Fixpoint split (sep : ascii) (s : string) : list string :=
  match s with
  | EmptyString => [EmptyString]
  | String c r =>
      if Ascii.eqb c sep then EmptyString :: split sep r
      else match split sep r with
           | x :: xs => String c x :: xs
           | [] => [String c EmptyString]
           end
  end.

(** Whether a character occurs in a string. *)
Fixpoint occurs (c : ascii) (s : string) : bool :=
  match s with
  | EmptyString => false
  | String d r => Ascii.eqb d c || occurs c r
  end.

(** ** [indexOf], [lastIndexOf] of a character and [substring];
    positions are [Z] so that [-1] is "not found" as in the source *)

Fixpoint indexOf_from (c : ascii) (s : string) (i : Z) : Z :=
  match s with
  | EmptyString => (-1)%Z
  | String d r => if Ascii.eqb d c then i else indexOf_from c r (i + 1)%Z
  end.

Definition indexOf (c : ascii) (s : string) : Z := indexOf_from c s 0.

Fixpoint lastIndexOf_from (c : ascii) (s : string) (i : Z) (found : Z) : Z :=
  match s with
  | EmptyString => found
  | String d r =>
      lastIndexOf_from c r (i + 1)%Z (if Ascii.eqb d c then i else found)
  end.

Definition lastIndexOf (c : ascii) (s : string) : Z :=
  lastIndexOf_from c s 0 (-1).

(** [s.substring(a, b)] for [0 <= a <= b]. *)
Definition substring (a b : Z) (s : string) : string :=
  String.substring (Z.to_nat a) (Z.to_nat (b - a)) s.

(** ** [String.prototype.trim]

    Strings are sequences of UTF-8 bytes; the code points that [trim]
    removes (ECMAScript WhiteSpace and LineTerminator) are listed by
    their encodings. *)

Definition white_space : list (list N) :=
  [ [9]; [10]; [11]; [12]; [13]; [32];
    [194; 160];                         (* U+00A0 *)
    [225; 154; 128];                    (* U+1680 *)
    [226; 128; 128]; [226; 128; 129]; [226; 128; 130]; [226; 128; 131];
    [226; 128; 132]; [226; 128; 133]; [226; 128; 134]; [226; 128; 135];
    [226; 128; 136]; [226; 128; 137]; [226; 128; 138];   (* U+2000-200A *)
    [226; 128; 168]; [226; 128; 169];   (* U+2028, U+2029 *)
    [226; 128; 175];                    (* U+202F *)
    [226; 129; 159];                    (* U+205F *)
    [227; 128; 128];                    (* U+3000 *)
    [239; 187; 191] ]%N.                (* U+FEFF *)

Fixpoint starts_with (p : list N) (s : list N) : bool :=
  match p, s with
  | [], _ => true
  | a :: p', b :: s' => (a =? b)%N && starts_with p' s'
  | _ :: _, [] => false
  end.

Fixpoint strip (pats : list (list N)) (fuel : nat) (s : list N) : list N :=
  match fuel with
  | O => s
  | S fuel' =>
      match List.find (λ p, starts_with p s) pats with
      | Some p => strip pats fuel' (drop (length p) s)
      | None => s
      end
  end.

Definition bytes_of_string (s : string) : list N :=
  map N_of_ascii (list_ascii_of_string s).
Definition string_of_bytes (l : list N) : string :=
  string_of_list_ascii (map ascii_of_N l).

Definition trim (s : string) : string :=
  let b := bytes_of_string s in
  let b1 := strip white_space (length b) b in
  let b2 := strip (map (@rev N) white_space) (length b1) (rev b1) in
  string_of_bytes (rev b2).

(** Text with double quotes is written with single quotes in their
    place: [dq] puts the double quotes back. *)
Definition dquote : ascii := ascii_of_N 34.

Definition dq (s : string) : string :=
  string_of_list_ascii
    (map (λ c, if Ascii.eqb c "'" then dquote else c) (list_ascii_of_string s)).

(** The line feed of a template string. *)
Definition nl : string := String (ascii_of_N 10) EmptyString.

(** A value inside a template string. *)
Definition template (v : option json) : string :=
  match v with
  | Some x => to_string x
  | None => "undefined"
  end.

(** ASCII lower-casing, the action of [toLowerCase] on ASCII text. *)
Definition lower_ascii (c : ascii) : ascii :=
  let n := N_of_ascii c in
  if ((65 <=? n) && (n <=? 90))%N then ascii_of_N (n + 32) else c.

Fixpoint lower (s : string) : string :=
  match s with
  | EmptyString => EmptyString
  | String c r => String (lower_ascii c) (lower r)
  end.

End JS.
Import JS.

(* ====================================================================== *)
(** * The platform interface *)
(* ====================================================================== *)

(** What the application calls but does not define. No property of these
    functions is assumed here; a theorem that needs one states it as a
    hypothesis. *)
Class Platform : Type := {
  (** [JSON.parse]; [None] is a [SyntaxError]. *)
  JSON_parse : string → option json;
  (** [JSON.stringify] on a JSON value. *)
  JSON_stringify : json → string;
  (** [String.prototype.toLowerCase]. *)
  toLowerCase : string → string;
  (** [TextEncoder.encode], [crypto.subtle.importKey] and
      [crypto.subtle.deriveBits] with PBKDF2, SHA-256, 100000 iterations and
      256 bits, on a password and a salt; [None] when a promise rejects. *)
  pbkdf2_sha256 : string → list Byte.byte → option (list Byte.byte);
  (** [ToUint8(Number(s))] for a string [s] that is not a plain decimal
      numeral (signs, white space, hexadecimal, fractions, exponents). *)
  other_numeral_uint8 : string → Byte.byte;
}.

(* ====================================================================== *)
(** * An executable reference platform *)
(* ====================================================================== *)

Module Ref.

(** A recursive-descent reader of JSON text for the values of [json]:
    literals, integer numerals, strings with the two-character escapes and
    [\u00XX], arrays and objects. Text outside this fragment (fractions,
    exponents, other [\u] escapes) is rejected. *)

Definition is_ws (c : ascii) : bool :=
  let n := N_of_ascii c in
  ((n =? 32) || (n =? 9) || (n =? 10) || (n =? 13))%N.

Fixpoint skip_ws (s : list ascii) : list ascii :=
  match s with
  | c :: r => if is_ws c then skip_ws r else s
  | [] => []
  end.

Definition digit_val (c : ascii) : option N :=
  let n := N_of_ascii c in
  if ((48 <=? n) && (n <=? 57))%N then Some (n - 48)%N else None.

Definition hex_val (c : ascii) : option N :=
  let n := N_of_ascii c in
  if ((48 <=? n) && (n <=? 57))%N then Some (n - 48)%N
  else if ((97 <=? n) && (n <=? 102))%N then Some (n - 87)%N
  else if ((65 <=? n) && (n <=? 70))%N then Some (n - 55)%N
  else None.

Fixpoint read_digits (s : list ascii) (acc : N) : N * list ascii :=
  match s with
  | c :: r =>
      match digit_val c with
      | Some d => read_digits r (10 * acc + d)%N
      | None => (acc, s)
      end
  | [] => (acc, [])
  end.

(** After the digits of a numeral: a fraction or an exponent is outside
    the fragment. *)
Definition number_ends (s : list ascii) : bool :=
  match s with
  | c :: _ =>
      negb (Ascii.eqb c "." || Ascii.eqb c "e" || Ascii.eqb c "E")
  | [] => true
  end.

Definition read_nat (s : list ascii) : option (N * list ascii) :=
  match s with
  | c :: r =>
      match digit_val c with
      | Some 0%N =>
          match r with
          | d :: _ =>
              match digit_val d with
              | Some _ => None
              | None => if number_ends r then Some (0%N, r) else None
              end
          | [] => Some (0%N, [])
          end
      | Some d =>
          let '(n, r') := read_digits r d in
          if number_ends r' then Some (n, r') else None
      | None => None
      end
  | [] => None
  end.

Definition read_number (s : list ascii) : option (json * list ascii) :=
  match s with
  | "-"%char :: r =>
      '(n, r') ← read_nat r; Some (JNum (- Z.of_N n), r')
  | _ => '(n, r') ← read_nat s; Some (JNum (Z.of_N n), r')
  end.

Definition unescape (c : ascii) : option ascii :=
  if Ascii.eqb c dquote then Some dquote
  else if Ascii.eqb c "\" then Some "\"%char
  else if Ascii.eqb c "/" then Some "/"%char
  else if Ascii.eqb c "b" then Some (ascii_of_N 8)
  else if Ascii.eqb c "f" then Some (ascii_of_N 12)
  else if Ascii.eqb c "n" then Some (ascii_of_N 10)
  else if Ascii.eqb c "r" then Some (ascii_of_N 13)
  else if Ascii.eqb c "t" then Some (ascii_of_N 9)
  else None.

(** The characters of a string literal, after its opening quote. *)
Fixpoint read_chars (s : list ascii) (acc : list ascii)
  : option (string * list ascii) :=
  match s with
  | [] => None
  | c :: r =>
      if Ascii.eqb c dquote then Some (string_of_list_ascii (rev acc), r)
      else if Ascii.eqb c "\" then
        match r with
        | "u"%char :: "0"%char :: "0"%char :: h :: l :: r' =>
            match hex_val h, hex_val l with
            | Some a, Some b =>
                if (a <? 8)%N then read_chars r' (ascii_of_N (16 * a + b) :: acc)
                else None
            | _, _ => None
            end
        | e :: r' =>
            match unescape e with
            | Some ch => read_chars r' (ch :: acc)
            | None => None
            end
        | [] => None
        end
      else if (N_of_ascii c <? 32)%N then None
      else read_chars r (c :: acc)
  end.

Fixpoint read_value (fuel : nat) (s : list ascii) : option (json * list ascii) :=
  match fuel with
  | O => None
  | S fuel' =>
      match skip_ws s with
      | "n"%char :: "u"%char :: "l"%char :: "l"%char :: r => Some (JNull, r)
      | "t"%char :: "r"%char :: "u"%char :: "e"%char :: r => Some (JBool true, r)
      | "f"%char :: "a"%char :: "l"%char :: "s"%char :: "e"%char :: r =>
          Some (JBool false, r)
      | "["%char :: r =>
          match skip_ws r with
          | "]"%char :: r' => Some (JArr [], r')
          | _ => '(xs, r') ← read_elements fuel' r; Some (JArr xs, r')
          end
      | "{"%char :: r =>
          match skip_ws r with
          | "}"%char :: r' => Some (JObj ∅, r')
          | _ => '(m, r') ← read_members fuel' r ∅; Some (JObj m, r')
          end
      | c :: r =>
          if Ascii.eqb c dquote
          then '(str, r') ← read_chars r []; Some (JStr str, r')
          else read_number (c :: r)
      | [] => None
      end
  end
with read_elements (fuel : nat) (s : list ascii) : option (list json * list ascii) :=
  match fuel with
  | O => None
  | S fuel' =>
      '(v, r) ← read_value fuel' s;
      match skip_ws r with
      | ","%char :: r' => '(vs, r'') ← read_elements fuel' r'; Some (v :: vs, r'')
      | "]"%char :: r' => Some ([v], r')
      | _ => None
      end
  end
with read_members (fuel : nat) (s : list ascii) (acc : gmap string json)
  : option (gmap string json * list ascii) :=
  match fuel with
  | O => None
  | S fuel' =>
      match skip_ws s with
      | c :: r =>
          if Ascii.eqb c dquote then
            '(k, r1) ← read_chars r [];
            match skip_ws r1 with
            | ":"%char :: r2 =>
                '(v, r3) ← read_value fuel' r2;
                match skip_ws r3 with
                | ","%char :: r4 => read_members fuel' r4 (<[k:=v]> acc)
                | "}"%char :: r4 => Some (<[k:=v]> acc, r4)
                | _ => None
                end
            | _ => None
            end
          else None
      | [] => None
      end
  end.

Definition parse (s : string) : option json :=
  let l := list_ascii_of_string s in
  '(v, r) ← read_value (S (length l)) l;
  match skip_ws r with [] => Some v | _ => None end.

(** The printer: compact JSON text, properties in the order of
    [map_to_list], where JavaScript keeps the order of insertion: the
    literal texts of the examples show the difference, the values read
    back do not. *)

Definition hex_digit (n : N) : ascii :=
  if (n <? 10)%N then ascii_of_N (48 + n) else ascii_of_N (87 + n).

Definition escape (c : ascii) : list ascii :=
  let n := N_of_ascii c in
  if Ascii.eqb c dquote then ["\"%char; dquote]
  else if Ascii.eqb c "\" then ["\"%char; "\"%char]
  else if (n =? 8)%N then ["\"%char; "b"%char]
  else if (n =? 12)%N then ["\"%char; "f"%char]
  else if (n =? 10)%N then ["\"%char; "n"%char]
  else if (n =? 13)%N then ["\"%char; "r"%char]
  else if (n =? 9)%N then ["\"%char; "t"%char]
  else if (n <? 32)%N then
    ["\"%char; "u"%char; "0"%char; "0"%char;
     hex_digit (n / 16); hex_digit (n mod 16)]
  else [c].

Definition quote (s : string) : string :=
  string_of_list_ascii
    (dquote :: concat (map escape (list_ascii_of_string s)) ++ [dquote]).

Fixpoint stringify (v : json) : string :=
  match v with
  | JNull => "null"
  | JBool true => "true"
  | JBool false => "false"
  | JNum n => Z_to_string n
  | JStr s => quote s
  | JArr xs => "[" +:+ join_strings "," (map stringify xs) +:+ "]"
  | JObj m =>
      "{" +:+
      join_strings ","
        (map (λ kv, quote kv.1 +:+ ":" +:+ kv.2)
             (map_to_list (stringify <$> m)))
      +:+ "}"
  end.

(** A stand-in for the key derivation, good enough to run the
    definitions: 32 bytes that depend on the password and on the salt. *)
Definition mix (password : string) (salt : list Byte.byte) : list Byte.byte :=
  let seed :=
    foldl (λ h b, (h * 31 + b) mod 65521)%N 7%N
          (bytes_of_string password ++ map Byte.to_N salt) in
  map (λ i, default Byte.x00 (Byte.of_N ((seed * (2 * N.of_nat i + 1) + N.of_nat i) mod 256)))
      (seq 0 32).

Definition platform : Platform := {|
  JSON_parse := parse;
  JSON_stringify := stringify;
  toLowerCase := lower;
  pbkdf2_sha256 := λ password salt, Some (mix password salt);
  other_numeral_uint8 := λ _, Byte.x00;
|}.

(** The same platform in a page where the key derivation is not available
    and every call of it rejects. *)
Definition no_crypto : Platform := {|
  JSON_parse := parse;
  JSON_stringify := stringify;
  toLowerCase := lower;
  pbkdf2_sha256 := λ _ _, None;
  other_numeral_uint8 := λ _, Byte.x00;
|}.

End Ref.

(* ====================================================================== *)
(** * The browser: Web Storage, the location hash, the notifications *)
(* ====================================================================== *)

Module Web.

(** A storage area ([localStorage] or [sessionStorage]): its items and the
    quota policy of the user agent, which decides whether the area may
    take a given content. *)
Record Storage : Type := mkStorage {
  items : gmap string string;
  admits : gmap string string → bool;
}.

Definition getItem (st : Storage) (k : string) : option string :=
  items st !! k.

(** [setItem] throws a [QuotaExceededError] when the user agent refuses the
    new content. *)
Definition setItem (st : Storage) (k v : string) : res Storage :=
  let m := <[k:=v]> (items st) in
  if admits st m then Ok (mkStorage m (admits st))
  else Throw "QuotaExceededError".

Definition removeItem (st : Storage) (k : string) : Storage :=
  mkStorage (delete k (items st)) (admits st).

(** An area with no quota. *)
Definition unbounded (m : gmap string string) : Storage := mkStorage m (λ _, true).

(** The state of the page that the application reads and writes. *)
Record Browser : Type := mkBrowser {
  localStorage : Storage;
  sessionStorage : Storage;
  (** the fragment of the URL, without its ["#"] *)
  fragment : string;
  (** the toasts shown so far, oldest first: message and type *)
  notifications : list (string * string);
}.

Definition with_localStorage (b : Browser) (s : Storage) : Browser :=
  mkBrowser s (sessionStorage b) (fragment b) (notifications b).
Definition with_sessionStorage (b : Browser) (s : Storage) : Browser :=
  mkBrowser (localStorage b) s (fragment b) (notifications b).

(** The getter of [location.hash]: empty for an empty fragment, else
    ["#"] followed by the fragment. *)
Definition location_hash (b : Browser) : string :=
  match fragment b with
  | EmptyString => EmptyString
  | f => "#" +:+ f
  end.

(** The setter of [location.hash]: one leading ["#"] is dropped. *)
Definition set_location_hash (b : Browser) (h : string) : Browser :=
  let f := match h with
           | String "#" r => r
           | _ => h
           end in
  mkBrowser (localStorage b) (sessionStorage b) f (notifications b).

(** [showNotification(message, type)]. *)
Definition showNotification (b : Browser) (message type : string) : Browser :=
  mkBrowser (localStorage b) (sessionStorage b) (fragment b)
            (notifications b ++ [(message, type)]).

End Web.
Import Web.

(* ====================================================================== *)
(** * PasswordSecurity *)
(* ====================================================================== *)

Module PasswordSecurity.
Section WithPlatform.
Context `{Platform}.

Definition Uint8Array : Type := list Byte.byte.

(** The bytes with which [crypto.getRandomValues] fills an array of [n]
    bytes, for [n] up to the 65536 that one call may ask for (the salt of
    [hashPassword] has 16): they come from the entropy source of the user
    agent. *)
Definition getRandomValues (entropy : nat → Byte.byte) (n : nat) : Uint8Array :=
  map entropy (seq 0 n).

(** [crypto.getRandomValues(new Uint8Array(n))] for every [n]: the call
    throws for an array of more than 65536 bytes. *)
Definition fill_random (entropy : nat → Byte.byte) (n : nat) : res Uint8Array :=
  if (65536 <? N.of_nat n)%N then Throw "QuotaExceededError"
  else Ok (getRandomValues entropy n).

(** [ToUint8] of a non-negative integer. *)
Definition ToUint8 (n : N) : Byte.byte :=
  default Byte.x00 (Byte.of_N (n mod 256)).

(** The double nearest to a non-negative integer (ties to even); past the
    largest double the value is [Infinity], whose [ToUint8] is [0] like
    that of every double from [2^61] on, so the overflow needs no case of
    its own under [ToUint8]. *)
Definition round53 (n : N) : N :=
  if (n <? 2 ^ 53)%N then n
  else
    let k := (N.log2 n - 52)%N in
    let q := N.shiftr n k in
    let r := (n mod 2 ^ k)%N in
    let half := (2 ^ (k - 1))%N in
    let q' := if ((half <? r) || ((r =? half) && N.odd q))%N
              then (q + 1)%N else q in
    N.shiftl q' k.

Fixpoint all_digits (s : string) : bool :=
  match s with
  | EmptyString => true
  | String c r =>
      let n := N_of_ascii c in
      ((48 <=? n) && (n <=? 57))%N && all_digits r
  end.

Fixpoint decimal_value (s : string) (acc : N) : N :=
  match s with
  | EmptyString => acc
  | String c r => decimal_value r (10 * acc + (N_of_ascii c - 48))%N
  end.

(** One element of [new Uint8Array(parts.map(Number))]: [Number("")] is
    [0], a decimal numeral has its value, rounded to a double. *)
Definition Number_uint8 (s : string) : Byte.byte :=
  match s with
  | EmptyString => Byte.x00
  | _ => if all_digits s then ToUint8 (round53 (decimal_value s 0))
         else other_numeral_uint8 s
  end.

(** [new Uint8Array(salt.split(",").map(Number))]. *)
Definition parse_salt (salt : string) : Uint8Array :=
  map Number_uint8 (split "," salt).

(** [Array.from(salt).join(",")]. *)
Definition serialize_salt (salt : Uint8Array) : string :=
  join_strings "," (map (λ b, N_to_string (Byte.to_N b)) salt).

Definition hex_digit (n : N) : ascii :=
  if (n <? 10)%N then ascii_of_N (48 + n) else ascii_of_N (87 + n).

(** [b.toString(16).padStart(2, "0")]. *)
Definition hex2 (b : Byte.byte) : string :=
  let n := Byte.to_N b in
  String (hex_digit (n / 16)) (String (hex_digit (n mod 16)) EmptyString).

(** [Array.from(new Uint8Array(derivedBits)).map(...).join("")]. *)
Definition to_hex (bits : list Byte.byte) : string :=
  join_strings EmptyString (map hex2 bits).

Definition hashing_failed : string :=
  "Password hashing failed. Please try again.".

(** [hashPassword(password, salt = null)]. A salt that is given and is
    neither falsy nor a string reaches [deriveBits] as it is; it is not a
    buffer there, the promise rejects and the [catch] rethrows. The result
    is the pair [{hashedPassword, salt}]. *)
Definition hashPassword (password : string) (salt : option json)
    (entropy : nat → Byte.byte) : res (string * string) :=
  let salt_bytes : option Uint8Array :=
    if negb (truthy_opt salt) then Some (getRandomValues entropy 16)
    else match salt with
         | Some (JStr s) => Some (parse_salt s)
         | _ => None
         end in
  match salt_bytes with
  | Some bytes =>
      match pbkdf2_sha256 password bytes with
      | Some derivedBits => Ok (to_hex derivedBits, serialize_salt bytes)
      | None => Throw hashing_failed
      end
  | None => Throw hashing_failed
  end.

(** [verifyPassword(password, hashedPassword, salt)]. *)
Definition verifyPassword (password : string) (hashedPassword salt : option json)
    (entropy : nat → Byte.byte) : bool :=
  match hashPassword password salt entropy with
  | Ok (newHash, _) => strict_eq_string newHash hashedPassword
  | Throw _ => false
  end.

End WithPlatform.
End PasswordSecurity.

(** Hexadecimal digests read back: a decoder written apart from [to_hex],
    to say what a digest text stands for. *)
Module Hex.

Definition digit_value (c : ascii) : N :=
  let n := N_of_ascii c in
  if (n <? 58)%N then (n - 48)%N else (n - 87)%N.

(** The bytes of a text of two-digit hexadecimal numerals. *)
Fixpoint of_hex (s : string) : list Byte.byte :=
  match s with
  | String c1 (String c2 rest) =>
      default Byte.x00 (Byte.of_N (16 * digit_value c1 + digit_value c2))
      :: of_hex rest
  | _ => []
  end.

Definition is_hex_digit (c : ascii) : bool :=
  let n := N_of_ascii c in
  (((48 <=? n) && (n <=? 57)) || ((97 <=? n) && (n <=? 102)))%N.

End Hex.

(* ====================================================================== *)
(** * StorageManager *)
(* ====================================================================== *)

Module StorageManager.
Section WithPlatform.
Context `{Platform}.

Definition USERS : string := "users".
Definition CURRENT_USER : string := "currentUser".
Definition JOB_DESCRIPTIONS : string := "jobDescriptions".
Definition DEFAULT_MODEL : string := "gpt-4o-mini".
Definition DEFAULT_PROXY_BASE : string := "http://localhost:8787".
Definition PROXY_BASE : string := "proxy_base".

(** [try { return JSON.parse(getItem(key) || fallback_text) }
     catch { return fallback }]. *)
Definition load (st : Storage) (key fallback_text : string) (fallback : json) : json :=
  match JSON_parse (or_string (getItem st key) fallback_text) with
  | Some v => v
  | None => fallback
  end.

(** [try { setItem(key, JSON.stringify(v)) } catch { console.error }]. *)
Definition save (st : Storage) (key : string) (v : json) : Storage :=
  match setItem st key (JSON_stringify v) with
  | Ok st' => st'
  | Throw _ => st
  end.

Definition loadUsers (b : Browser) : json :=
  load (localStorage b) USERS "[]" (JArr []).

Definition saveUsers (b : Browser) (users : json) : Browser :=
  with_localStorage b (save (localStorage b) USERS users).

Definition getCurrentUser (b : Browser) : json :=
  load (sessionStorage b) CURRENT_USER "null" JNull.

Definition setCurrentUser (b : Browser) (user : json) : Browser :=
  with_sessionStorage b (save (sessionStorage b) CURRENT_USER user).

Definition clearCurrentUser (b : Browser) : Browser :=
  with_sessionStorage b (removeItem (sessionStorage b) CURRENT_USER).

Definition loadJobDescriptions (b : Browser) : json :=
  load (localStorage b) JOB_DESCRIPTIONS "[]" (JArr []).

Definition saveJobDescriptions (b : Browser) (jobDescriptions : json) : Browser :=
  with_localStorage b (save (localStorage b) JOB_DESCRIPTIONS jobDescriptions).

(** [jobDescriptions.unshift(jobDescription)] is a [TypeError] unless the
    loaded value is an array; the function has no [try] of its own. *)
Definition saveJobDescription (b : Browser) (jobDescription : json) : res Browser :=
  match loadJobDescriptions b with
  | JArr l => Ok (saveJobDescriptions b (JArr (jobDescription :: l)))
  | _ => Throw "TypeError: jobDescriptions.unshift is not a function"
  end.

Definition getModel : string := DEFAULT_MODEL.

Definition getProxyBase (b : Browser) : string :=
  or_string (getItem (localStorage b) PROXY_BASE) DEFAULT_PROXY_BASE.

End WithPlatform.
End StorageManager.

(* ====================================================================== *)
(** * AIService *)
(* ====================================================================== *)

Module AIService.
Section WithPlatform.
Context `{Platform}.

(** The answers objects live in the JavaScript heap and are passed by
    reference: the heap maps the address of an object to its properties. *)
Abbreviation Heap := (gmap nat (gmap string json)).

Definition heap_get (h : Heap) (l : nat) (k : string) : option json :=
  h !! l ≫= λ o, o !! k.
Definition heap_set (h : Heap) (l : nat) (k : string) (v : json) : Heap :=
  alter (λ o, <[k:=v]> o) l h.
Definition heap_delete (h : Heap) (l : nat) (k : string) : Heap :=
  alter (λ o, delete k o) l h.

(** [{ ...o }]: a new object with the properties of [o]. *)
Definition heap_spread (h : Heap) (o : gmap string json) : nat * Heap :=
  let l := fresh (dom h) in (l, <[l:=o]> h).

Record Request : Type := mkRequest {
  url : string;
  method : string;
  content_type : string;
  body : string;
}.

Record Response : Type := mkResponse {
  ok : bool;
  status : Z;
  text : string;
}.

(** [if (o.k && Array.isArray(o.k)) o.k = o.k.join(", ")]. *)
Definition join_if_array (h : Heap) (l : nat) (k : string) : Heap :=
  match heap_get h l k with
  | Some (JArr xs) =>
      if truthy (JArr xs) then heap_set h l k (JStr (join ", " xs)) else h
  | _ => h
  end.

(** [generateViaProxy(answers)], with the answers object at address
    [answers] of the heap [h] and the network as the function [fetch].
    The result is the heap afterwards, the request sent and what the
    function returns or throws; [None] only for an address that holds no
    object. *)
Definition generateViaProxy (h : Heap) (answers : nat) (b : Browser)
    (fetch : Request → Response)
  : option (Heap * Request * res (option json)) :=
  o ← h !! answers;
  let '(answersForAPI, h1) := heap_spread h o in
  let h2 := heap_delete h1 answersForAPI "company" in
  let h3 := join_if_array h2 answersForAPI "skills" in
  let h4 := join_if_array h3 answersForAPI "benefits" in
  let request :=
    mkRequest (StorageManager.getProxyBase b +:+ "/api/generate") "POST"
      "application/json"
      (JSON_stringify
         (JObj (<["answers" := JObj (default ∅ (h4 !! answersForAPI))]>
               (<["model" := JStr StorageManager.getModel]> ∅)))) in
  let response := fetch request in
  let result : res (option json) :=
    if negb (ok response) then
      Throw ("HTTP " +:+ Z_to_string (status response) +:+ ": " +:+ text response)
    else
      match JSON_parse (text response) with
      | Some data => member data "text"
      | None => Throw "SyntaxError"
      end in
  Some (h4, request, result).

(** The text between the first ["{"] and the last ["}"] of the trimmed
    response, or the trimmed response when there is no such pair. *)
Definition extract_json (response : string) : string :=
  let jsonStr := trim response in
  let jsonStart := indexOf "{" jsonStr in
  let jsonEnd := (lastIndexOf "}" jsonStr + 1)%Z in
  if (negb (jsonStart =? -1)%Z && (jsonStart <? jsonEnd)%Z)
  then substring jsonStart jsonEnd jsonStr
  else jsonStr.

(** [v || d] on a property that may be missing. *)
Definition or_value (v : option json) (d : json) : json :=
  match v with
  | Some x => if truthy x then x else d
  | None => d
  end.

(** The object returned by the [catch] branch of
    [parseSourcingResponse]. *)
Definition fallback_strategy (location : string) : json :=
  JObj (<["companies" :=
            JArr [JObj (<["name" := JStr "Sample Company"]>
                       (<["linkedinSearch" :=
                            JStr (dq "site:linkedin.com/in/ 'Sample Company' AND 'software developer' AND '"
                                  +:+ location +:+ dq "'")]>
                       (<["reason" := JStr "Sample company with relevant talent"]> ∅)))]]>
       (<["diceSearch" :=
            JStr (dq "'" +:+ location +:+ dq "' AND 'software developer' AND 'full time'")]>
       (<["summary" :=
            JStr "Fallback sourcing strategy generated. Please check your AI settings."]> ∅))).

(** The [try] block of [parseSourcingResponse]. *)
Definition parse_strategy (response : string) : res json :=
  match JSON_parse (extract_json response) with
  | None => Throw "SyntaxError"
  | Some parsed =>
      companies ← member parsed "companies";
      diceSearch ← member parsed "diceSearch";
      summary ← member parsed "summary";
      Ok (JObj (<["companies" :=
                    match companies with
                    | Some (JArr xs) => JArr xs
                    | _ => JArr []
                    end]>
               (<["diceSearch" := or_value diceSearch (JStr EmptyString)]>
               (<["summary" :=
                    or_value summary (JStr "Sourcing strategy generated successfully.")]> ∅))))
  end.

(** [parseSourcingResponse(response, location)]: what the [try] block
    throws is caught and replaced by the fallback data. *)
Definition parseSourcingResponse (response location : string) : res json :=
  match parse_strategy response with
  | Ok strategy => Ok strategy
  | Throw _ => Ok (fallback_strategy location)
  end.

(** [chat(messages)]: [getApiKey()] is the empty string, so the call
    throws before any request. *)
Definition chat (messages : list (string * string)) : res string :=
  Throw "Missing OpenAI API key. Go to Settings and save your key.".

(** [generateSourcingStrategy(jobDescription, location)], for a system
    prompt built from the location. *)
Definition generateSourcingStrategy (systemPrompt : string → string)
    (jobDescription location : string) : res json :=
  response ← chat [("system", systemPrompt location);
                   ("user", "Job Description:" +:+ nl +:+ nl +:+ jobDescription)];
  parseSourcingResponse response location.

(** [sourcingViaProxy(jobDescription, location)]. *)
Definition sourcingViaProxy (b : Browser) (fetch : Request → Response)
    (jobDescription location : string) : res json :=
  let response :=
    fetch (mkRequest (StorageManager.getProxyBase b +:+ "/api/sourcing") "POST"
             "application/json"
             (JSON_stringify
                (JObj (<["jd" := JStr jobDescription]>
                      (<["location" := JStr location]>
                      (<["model" := JStr StorageManager.getModel]> ∅)))))) in
  if negb (ok response) then Throw (text response)
  else match JSON_parse (text response) with
       | Some data => Ok data
       | None => Throw "SyntaxError"
       end.

End WithPlatform.
End AIService.

(* ====================================================================== *)
(** * The proxy server ([server.js]) *)
(* ====================================================================== *)

Module Server.

(** A request as the chain of middleware sees it: who sent it, its method
    (in upper case, as Node hands it over) and its path, and what
    [express.json({limit: "1mb"})] makes of its body: the status of the
    error it raises (400 for a JSON body that does not parse, 413 for one
    over the limit, ...), or [None] when it passes the request on. *)
Record Request : Type := mkRequest {
  client : string;
  method : string;
  path : string;
  body_error : option Z;
}.

(** How the chain answers a request. *)
Inductive verdict : Type :=
| BodyError (status : Z)  (** [express.json()] raised: Express answers with
                              the status of the error, no later middleware
                              runs *)
| Preflight               (** [cors()] answers an [OPTIONS] request itself,
                              with 204 *)
| Next                    (** [next()]: the request goes on to its handler *)
| TooManyRequests.        (** [res.status(429).json({error: ...})] *)

(** [let last = 0]: the only state of the limiter. *)
Definition initial_last : Z := 0.

(** The limiter, run on a request when the clock ([Date.now()]) reads
    [now]: the verdict and the value of [last] afterwards. *)
Definition rate_limit (last : Z) (now : Z) (req : Request) : verdict * Z :=
  if (now - last <? 750)%Z then (TooManyRequests, last)
  else (Next, now).

(** The middleware registered before the limiter, in its order:
    [express.json], whose error ends the chain, then [cors], which (its
    [origin] option being [true] or a non-empty string) ends an [OPTIONS]
    request; [morgan] only logs. [None]: the request reaches the limiter. *)
Definition before_limiter (req : Request) : option verdict :=
  match body_error req with
  | Some status => Some (BodyError status)
  | None => if String.eqb (method req) "OPTIONS" then Some Preflight else None
  end.

(** The chain on one request: a request answered before the limiter does
    not run it, so [Date.now()] is not read and [last] stays. *)
Definition middleware (last : Z) (now : Z) (req : Request) : verdict * Z :=
  match before_limiter req with
  | Some answered => (answered, last)
  | None => rate_limit last now req
  end.

(** The server handling a sequence of requests, each with the clock
    reading at its arrival. *)
Fixpoint serve (last : Z) (arrivals : list (Z * Request)) : list verdict * Z :=
  match arrivals with
  | [] => ([], last)
  | (now, req) :: rest =>
      let '(v, last') := middleware last now req in
      let '(vs, final) := serve last' rest in
      (v :: vs, final)
  end.

Section Sourcing.
Context `{Platform}.

(** The fallback of the [/api/sourcing] handler. *)
Definition fallback_strategy (location : string) : json :=
  JObj (<["companies" :=
            JArr [JObj (<["name" := JStr "Sample Company"]>
                       (<["linkedinSearch" :=
                            JStr (dq "site:linkedin.com/in/ '" +:+ location
                                  +:+ dq "' AND 'software developer'")]>
                       (<["reason" := JStr "Sample company with relevant talent"]> ∅)))]]>
       (<["diceSearch" :=
            JStr (dq "'" +:+ location +:+ dq "' AND 'software developer' AND 'full time'")]>
       (<["summary" :=
            JStr "Fallback sourcing strategy generated. Please check your AI settings."]> ∅))).

(** [if (!o.k || ...) o.k = d] on the properties of an object. *)
Definition fill (k : string) (keep : json → bool) (d : json)
    (o : gmap string json) : gmap string json :=
  match o !! k with
  | Some v => if truthy v && keep v then o else <[k:=d]> o
  | None => <[k:=d]> o
  end.

(** The inner [try] of the handler on the text the model answered: the
    module is strict code, so setting a property on a parsed number,
    string or boolean throws, as reading one from [null] does; on an
    array the properties set are not among what [res.json] sends. *)
Definition sourcing_reply (response location : string) : json :=
  match JSON_parse (AIService.extract_json response) with
  | Some (JObj parsed) =>
      JObj (fill "summary" (λ _, true)
                 (JStr "Sourcing strategy generated successfully.")
           (fill "diceSearch" (λ _, true) (JStr EmptyString)
           (fill "companies" (λ v, isArray (Some v)) (JArr []) parsed)))
  | Some (JArr xs) => JArr xs
  | _ => fallback_strategy location
  end.
End Sourcing.

End Server.

(* ====================================================================== *)
(** * Views: the handlers of the login and signup forms, the debug
      helper, the questionnaire, the route guard *)
(* ====================================================================== *)

Module Views.
Section WithPlatform.
Context `{Platform}.

(** The array behind [users.find], [users.push], ...: calling an array
    method on anything else is a [TypeError]. *)
Definition as_array (v : json) : res (list json) :=
  match v with
  | JArr l => Ok l
  | _ => Throw "TypeError: not a function"
  end.

(** [u.username.toLowerCase()] on an element of the users array, with the
    properties of the element: a [TypeError] unless the element is an
    object whose [username] is a string. *)
Definition username_lower (u : json) : res (gmap string json * string) :=
  match u with
  | JObj o =>
      match o !! "username" with
      | Some (JStr s) => Ok (o, toLowerCase s)
      | _ => Throw "TypeError: u.username.toLowerCase is not a function"
      end
  | _ => Throw "TypeError: Cannot read properties of undefined"
  end.

(** [users.find(u => u.username.toLowerCase() === name)]. *)
Fixpoint find_user (users : list json) (name : string)
  : res (option (gmap string json)) :=
  match users with
  | [] => Ok None
  | u :: rest =>
      '(o, n) ← username_lower u;
      if String.eqb n name then Ok (Some o) else find_user rest name
  end.

(** [users.findIndex(u => u.username.toLowerCase() === name)]; [None] is
    the [-1] of the source. *)
Fixpoint findIndex_user (users : list json) (name : string) : res (option nat) :=
  match users with
  | [] => Ok None
  | u :: rest =>
      '(_, n) ← username_lower u;
      if String.eqb n name then Ok (Some 0)
      else i ← findIndex_user rest name; Ok (option_map S i)
  end.

(** [users.filter(u => u.username.toLowerCase() !== name)]. *)
Fixpoint reject_user (users : list json) (name : string) : res (list json) :=
  match users with
  | [] => Ok []
  | u :: rest =>
      '(_, n) ← username_lower u;
      kept ← reject_user rest name;
      Ok (if String.eqb n name then kept else u :: kept)
  end.

(** The defined properties among [keys] of an object. *)
Definition pick (keys : list string) (o : gmap string json) : gmap string json :=
  foldr (λ k acc, match o !! k with Some v => <[k:=v]> acc | None => acc end)
        ∅ keys.

(** ** Login *)

(** [ValidationUtils.validateLogin]: the messages, in the order of the
    properties of [errors]. *)
Definition validateLogin (username password : string) : list string :=
  (if String.eqb username EmptyString then ["Username is required."] else [])
  ++ (if String.eqb password EmptyString then ["Password is required."] else []).

(** The upgrade of a legacy record after a successful plain-text
    comparison: the inner [try] of the handler, whose [catch] lets the
    login go on. *)
Definition upgrade_legacy (b : Browser) (user : gmap string json)
    (password : string) (entropy : nat → Byte.byte) : Browser :=
  let attempt : res Browser :=
    '(hashedPassword, salt) ← PasswordSecurity.hashPassword password None entropy;
    let user' :=
      delete "password"
        (<["salt" := JStr salt]> (<["hashedPassword" := JStr hashedPassword]> user)) in
    users ← as_array (StorageManager.loadUsers b);
    '(_, name) ← username_lower (JObj user');
    userIndex ← findIndex_user users name;
    match userIndex with
    | Some i => Ok (StorageManager.saveUsers b (JArr (<[i := JObj user']> users)))
    | None => Ok b
    end in
  match attempt with
  | Ok b' => b'
  | Throw _ => b
  end.

(** The end of the handler, once the password has been checked. *)
Definition finish_login (b : Browser) (user : gmap string json) (isValidPassword : bool)
  : Browser :=
  if negb isValidPassword then
    showNotification b "Invalid username or password." "error"
  else
    let b1 :=
      StorageManager.setCurrentUser b
        (JObj (pick ["username"; "first"; "last"; "email"] user)) in
    let name := if truthy_opt (user !! "first") then user !! "first"
                else user !! "username" in
    let b2 := showNotification b1 ("Welcome back, " +:+ template name +:+ "!") "success" in
    set_location_hash b2 "#/".

(** The [try] block of the handler. *)
Definition Login_attempt (username password : string) (entropy : nat → Byte.byte)
    (b : Browser) : res Browser :=
  users ← as_array (StorageManager.loadUsers b);
  found ← find_user users (toLowerCase username);
  match found with
  | None => Ok (showNotification b "Invalid username or password." "error")
  | Some user =>
      if truthy_opt (user !! "hashedPassword") && truthy_opt (user !! "salt") then
        Ok (finish_login b user
              (PasswordSecurity.verifyPassword password
                 (user !! "hashedPassword") (user !! "salt") entropy))
      else if truthy_opt (user !! "password") then
        let isValidPassword :=
          strict_eq_string password (user !! "password") in
        let b1 := if isValidPassword then upgrade_legacy b user password entropy
                  else b in
        Ok (finish_login b1 user isValidPassword)
      else
        Ok (showNotification b
              "Account data is corrupted. Please contact support." "error")
  end.

(** [Views.Login]'s [handleSubmit], on the values of the two inputs. *)
Definition Login_handleSubmit (username_input password_input : string)
    (entropy : nat → Byte.byte) (b : Browser) : Browser :=
  let username := trim username_input in
  let password := password_input in
  match validateLogin username password with
  | (_ :: _) as errors => showNotification b (join_strings ". " errors) "error"
  | [] =>
      match Login_attempt username password entropy b with
      | Ok b' => b'
      | Throw _ => showNotification b "Login failed. Please try again." "error"
      end
  end.

(** ** Signup *)

Record SignupFields : Type := mkFields {
  first : string;
  last : string;
  username : string;
  email : string;
  password : string;
}.

(** The record that the handler builds. *)
Definition newUser (fields : SignupFields) (hashedPassword salt createdAt : string)
  : gmap string json :=
  <["username" := JStr (username fields)]>
  (<["email" := JStr (email fields)]>
  (<["first" := JStr (first fields)]>
  (<["last" := JStr (last fields)]>
  (<["hashedPassword" := JStr hashedPassword]>
  (<["salt" := JStr salt]>
  (<["createdAt" := JStr createdAt]> ∅)))))).

(** The [try] block of the handler; [now] is [new Date().toISOString()].
    The change of hash that the handler schedules 1.5 s later is applied
    here. *)
Definition Signup_attempt (fields : SignupFields) (now : string)
    (entropy : nat → Byte.byte) (b : Browser) : res Browser :=
  '(hashedPassword, salt) ←
      PasswordSecurity.hashPassword (password fields) None entropy;
  users ← as_array (StorageManager.loadUsers b);
  let b1 :=
    StorageManager.saveUsers b
      (JArr (users ++ [JObj (newUser fields hashedPassword salt now)])) in
  let b2 := showNotification b1
              "Account created successfully! You can now login." "success" in
  Ok (set_location_hash b2 "#/login").

(** [Views.Signup]'s [handleSubmit] on the values of the inputs.
    [validateSignup] (regular expressions over the fields and the
    uniqueness checks) is a parameter: its messages, or what it throws. *)
Definition Signup_handleSubmit
    (validateSignup : Browser → SignupFields → res (list string))
    (raw : SignupFields) (now : string) (entropy : nat → Byte.byte)
    (b : Browser) : res Browser :=
  let fields :=
    mkFields (trim (first raw)) (trim (last raw)) (trim (username raw))
             (trim (email raw)) (password raw) in
  errors ← validateSignup b fields;
  match errors with
  | _ :: _ =>
      Ok (showNotification b
            (join_strings "<br>" (map (λ e, "- " +:+ e) errors)) "error")
  | [] =>
      match Signup_attempt fields now entropy b with
      | Ok b' => Ok b'
      | Throw _ =>
          Ok (showNotification b "Account creation failed. Please try again." "error")
      end
  end.

(** ** The debug helper [window.createTestUser] *)

Definition testUser (now : string) : gmap string json :=
  <["username" := JStr "dheerajkukkadapu"]>
  (<["email" := JStr "test@example.com"]>
  (<["first" := JStr "Dheeraj"]>
  (<["last" := JStr "Kukkadapu"]>
  (<["password" := JStr "password123"]>
  (<["createdAt" := JStr now]> ∅))))).

Definition createTestUser (now : string) (b : Browser) : res Browser :=
  users ← as_array (StorageManager.loadUsers b);
  filteredUsers ← reject_user users (toLowerCase "dheerajkukkadapu");
  Ok (StorageManager.saveUsers b (JArr (filteredUsers ++ [JObj (testUser now)]))).

(** ** The job description screen: the entry shown as "Latest" *)

(** [DOMUtils.createElement(tag, attributes, children)] on a parsed value
    as [children]: [appendChildren] makes a text node of a string and skips
    a child without a truthy [nodeType]; a child with one goes to
    [appendChild], which throws for what is no [Node]. *)
Definition appendChildren (children : option json) : res unit :=
  let node_like child :=
    match child with
    | JObj o => truthy_opt (o !! "nodeType")
    | _ => false
    end in
  let childrenArray :=
    match children with
    | Some (JArr cs) => cs
    | Some child => [child]
    | None => []
    end in
  if existsb node_like childrenArray
  then Throw "TypeError: Failed to execute 'appendChild' on 'Node'"
  else Ok tt.

(** Whether the conversion of a parsed value to a primitive throws: an
    object with a [toString] property of its own has no callable
    [toString] (and the inherited [valueOf] returns the object); an array
    is joined, which converts its elements. *)
Fixpoint ToPrimitive_throws (v : json) : bool :=
  match v with
  | JObj o => bool_decide (is_Some (o !! "toString"))
  | JArr xs => existsb ToPrimitive_throws xs
  | _ => false
  end.

(** [formatDate(dateString)], that is [new Date(dateString)
    .toLocaleString()]: the text is not modelled, only whether the call
    returns. *)
Definition formatDate (dateString : option json) : res unit :=
  if from_option ToPrimitive_throws false dateString
  then Throw "TypeError: Cannot convert object to primitive value"
  else Ok tt.

(** [v.k] for a value [v] that is not [null] and a property [k] that no
    built-in prototype defines. *)
Definition field (v : json) (k : string) : option json :=
  match v with
  | JObj o => o !! k
  | _ => None
  end.

(** The callback of [jobDescriptions.map]: the item built for one entry,
    from its [title] and its [createdAt]. *)
Definition JDView_item (jd : json) : res unit :=
  match jd with
  | JNull => Throw "TypeError: Cannot read properties of null (reading 'title')"
  | _ =>
      appendChildren (field jd "title");;
      formatDate (field jd "createdAt")
  end.

Fixpoint JDView_items (jobDescriptions : list json) : res unit :=
  match jobDescriptions with
  | [] => Ok tt
  | jd :: rest => JDView_item jd;; JDView_items rest
  end.

(** [Views.JDView()]: the entry whose [content] is shown under "Latest",
    [None] for the screen "No saved items yet.", or what the view throws.
    The test [!jobDescriptions.length] sends an empty array, an empty
    string and every value without a truthy [length] to the empty screen;
    past it, [jobDescriptions.map] is a function for an array only. *)
Definition JDView_latest (b : Browser) : res (option json) :=
  match StorageManager.loadJobDescriptions b with
  | JNull => Throw "TypeError: Cannot read properties of null (reading 'length')"
  | JArr [] => Ok None
  | JArr (latest :: rest) =>
      JDView_items (latest :: rest);;
      appendChildren (field latest "content");;
      Ok (Some latest)
  | JStr EmptyString => Ok None
  | JStr _ => Throw "TypeError: jobDescriptions.map is not a function"
  | JObj o =>
      if truthy_opt (o !! "length")
      then Throw "TypeError: jobDescriptions.map is not a function"
      else Ok None
  | JNum _ | JBool _ => Ok None
  end.

(** An entry as the application writes them: an object whose [title],
    [content] and [createdAt] are strings, where it has them. *)
Definition is_entry (jd : json) : bool :=
  let text v := match v with
                | None | Some (JStr _) => true
                | _ => false
                end in
  match jd with
  | JObj o => text (o !! "title") && text (o !! "content") && text (o !! "createdAt")
  | _ => false
  end.

(** ** The questionnaire of [JDQuestions] *)

(** A question; its placeholder and its suggestions, which only the
    rendering reads, are left out. *)
Record Question : Type := mkQuestion {
  key : string;
  q : string;
  type : string;
  options : list string;
  condition : option (gmap string json → bool);
}.

Definition plain (key q type : string) : Question :=
  mkQuestion key q type [] None.

Definition questions : list Question :=
  [ plain "role" "What is the job role?" "text";
    plain "location" "Where is the job located?" "text";
    plain "timezone" "What time zone should they work in?" "text";
    mkQuestion "hireType" "What type of employment?" "select"
      ["Full-time"; "Part-time"; "Contract"; "Freelance"] None;
    mkQuestion "duration" "If contract, what's the duration?" "text" []
      (Some (λ answers,
         strict_eq_string "Contract" (answers !! "hireType")));
    plain "domain" "What industry or domain?" "text";
    plain "skills" "What are the key skills required?" "textarea";
    plain "goals" "What are the 1-year success goals?" "textarea";
    plain "kpi" "What are the key performance indicators?" "text";
    plain "superstar" "What would make this person a superstar?" "textarea";
    plain "ninety" "What should they achieve in the first 90 days?" "textarea";
    plain "benefits" "What benefits and perks are offered?" "multi-select";
    plain "applicationProcess" "What's the application process?" "text" ].

Definition getFilteredQuestions (answers : gmap string json) : list Question :=
  List.filter
    (λ question,
       match condition question with
       | None => true
       | Some c => c answers
       end)
    questions.

(** ** The route guard *)

Section Guard.
Variable Element : Type.

(** A view function: what it returns or throws, and the state of the
    page afterwards. *)
Definition ViewFn : Type := Browser → res Element * Browser.

(** [createRouteGuard(viewFunction)]; [Login] is [Views.Login]. *)
Definition createRouteGuard (Login : ViewFn) (viewFunction : ViewFn) : ViewFn :=
  λ b,
    if negb (truthy (StorageManager.getCurrentUser b)) then
      let b1 := showNotification b "Please login to access this page." "error" in
      let b2 := set_location_hash b1 "#/login" in
      Login b2
    else viewFunction b.
End Guard.

End WithPlatform.
End Views.

(* ====================================================================== *)
(** * Router *)
(* ====================================================================== *)

Module Router.
Section WithPlatform.
Context `{Platform}.
Variable Element : Type.

Abbreviation ViewFn := (Views.ViewFn Element).

(** The [Views] object: the screens are DOM constructions and stay
    abstract. *)
Record ViewTable : Type := mkViews {
  Home : ViewFn;
  Login : ViewFn;
  Signup : ViewFn;
  Sales : ViewFn;
  JDBuilder : ViewFn;
  JDQuestions : ViewFn;
  JDView : ViewFn;
  Sourcing : ViewFn;
  Recruitment : ViewFn;
  Settings : ViewFn;
}.

Variable V : ViewTable.

(** The object literal of [Router.routes]. *)
Definition initial_routes : gmap string ViewFn :=
  <[EmptyString := Home V]>
  (<["#/" := Home V]>
  (<["#/login" := Login V]>
  (<["#/signup" := Signup V]> ∅))).

Definition guard : ViewFn → ViewFn := Views.createRouteGuard Element (Login V).

(** The routes added at the end of the script. *)
Definition workspace_routes : gmap string ViewFn :=
  <["#/sales" := guard (Sales V)]>
  (<["#/jd-builder" := guard (JDBuilder V)]>
  (<["#/jd-builder/questions" := guard (JDQuestions V)]>
  (<["#/jd-view" := guard (JDView V)]>
  (<["#/sourcing" := guard (Sourcing V)]>
  (<["#/recruitment" := guard (Recruitment V)]>
  (<["#/settings" := guard (Settings V)]> ∅)))))).

(** [Object.assign(Router.routes, {...})]. *)
Definition routes : gmap string ViewFn := workspace_routes ∪ initial_routes.

(** The properties that [routes] inherits from [Object.prototype]. *)
Definition Object_prototype : list string :=
  [ "constructor"; "__proto__"; "hasOwnProperty"; "isPrototypeOf";
    "propertyIsEnumerable"; "toLocaleString"; "toString"; "valueOf";
    "__defineGetter__"; "__defineSetter__"; "__lookupGetter__";
    "__lookupSetter__" ].

(** [this.routes[currentHash] || Views.Home]: an inherited property is
    truthy and is no view; calling it throws or returns no DOM node. *)
Definition Router_view (currentHash : string) : ViewFn :=
  match routes !! currentHash with
  | Some view => view
  | None =>
      if bool_decide (currentHash ∈ Object_prototype)
      then λ b, (Throw "View function returned invalid content", b)
      else Home V
  end.

(** What [render] leaves in the root element. *)
Inductive Page : Type :=
| NoRoot                          (** no [#app] element: nothing is done *)
| Content (content : Element)     (** [root.appendChild(content)] *)
| ErrorPage (message : string).   (** the error card *)

(** The [try] / [catch] of [render] around the call of the view. *)
Definition shown (view : ViewFn) (b : Browser) : Page * Browser :=
  match view b with
  | (Ok content, b') => (Content content, b')
  | (Throw message, b') => (ErrorPage message, b')
  end.

(** [Router.render()]; [root] tells whether the page has its [#app]
    element. *)
Definition render (root : bool) (b : Browser) : Page * Browser :=
  if negb root then (NoRoot, b)
  else
    let currentHash := location_hash b in
    let view := Router_view currentHash in
    shown view b.

End WithPlatform.
End Router.

(** The state in which the guard calls [Views.Login]: the toast is shown
    and the hash is ["#/login"]. *)
Definition redirected (b : Browser) : Browser :=
  set_location_hash
    (showNotification b "Please login to access this page." "error") "#/login".

(* ====================================================================== *)
(** * Concrete inputs, for running the definitions *)
(* ====================================================================== *)

(** A page whose storage holds a users list, a broken job descriptions item
    and no current user. *)
Definition sample_browser : Browser :=
  mkBrowser
    (unbounded (<["users" := dq "[{'username':'ann','password':'pw'}]"]>
               (<["jobDescriptions" := "{oops"]> ∅)))
    (unbounded ∅) EmptyString [].

(** A page whose [localStorage] is full: every write is refused. *)
Definition full_browser : Browser :=
  mkBrowser (mkStorage ∅ (λ _, false)) (unbounded ∅) EmptyString [].

Definition sample_jd : json :=
  JObj (<["id" := JStr "1700000000000"]> (<["title" := JStr "Data Analyst"]> ∅)).

(** The job descriptions of earlier sessions, the newest first, and a page
    whose storage holds them. *)
Definition stored_list : list json :=
  [ JObj (<["id" := JStr "1650000000000"]>
         (<["title" := JStr "Accountant"]>
         (<["content" := JStr "Job Title: Accountant"]> ∅)));
    JObj (<["id" := JStr "1600000000000"]>
         (<["title" := JStr "Welder"]>
         (<["content" := JStr "Job Title: Welder"]> ∅))) ].

(** A page whose storage holds the given text as its job descriptions. *)
Definition holding (jobDescriptions : string) : Browser :=
  mkBrowser (unbounded (<["jobDescriptions" := dq jobDescriptions]> ∅))
    (unbounded ∅) "/jd-view" [].

Definition stored_browser : Browser :=
  mkBrowser
    (unbounded
       (<["jobDescriptions" :=
            dq ("[{'id':'1650000000000','title':'Accountant',"
                +:+ "'content':'Job Title: Accountant'},"
                +:+ "{'id':'1600000000000','title':'Welder',"
                +:+ "'content':'Job Title: Welder'}]")]> ∅))
    (unbounded ∅) "/jd-view" [].

(** An entropy source, for running the definitions. *)
Definition sample_entropy (i : nat) : Byte.byte :=
  default Byte.x00 (Byte.of_N ((37 * N.of_nat i + 200) mod 256)).

(** The answers of a filled questionnaire, at address 3 of a heap that
    holds another object at address 0. *)
Definition sample_answers : gmap string json :=
  <["role" := JStr "Data Analyst"]>
  (<["company" := JStr "Initech"]>
  (<["skills" := JArr [JStr "SQL"; JStr "Python"]]>
  (<["benefits" := JArr [JStr "Flexible PTO"]]>
  (<["hireType" := JStr "Contract"]> ∅)))).

Definition sample_heap : gmap nat (gmap string json) :=
  <[3 := sample_answers]> (<[0 := ∅]> ∅).

Definition sample_fetch (r : AIService.Request) : AIService.Response :=
  AIService.mkResponse true 200 (dq "{'text': 'Job Title: Data Analyst'}").

(** Views that return their own name, for running the router. *)
Definition named (name : string) : Views.ViewFn string := λ b, (Ok name, b).

Definition sample_views : Router.ViewTable string :=
  Router.mkViews string (named "Home") (named "Login") (named "Signup")
    (named "Sales") (named "JDBuilder") (named "JDQuestions") (named "JDView")
    (named "Sourcing") (named "Recruitment") (named "Settings").

(** The same views, with a signup screen that throws. *)
Definition failing_views : Router.ViewTable string :=
  Router.mkViews string (named "Home") (named "Login")
    (λ b, (Throw "Signup is broken", b))
    (named "Sales") (named "JDBuilder") (named "JDQuestions") (named "JDView")
    (named "Sourcing") (named "Recruitment") (named "Settings").

Definition at_fragment (f : string) (session : gmap string string) : Browser :=
  mkBrowser (unbounded ∅) (unbounded session) f [].

(** A page whose users list holds one legacy record. *)
Definition legacy_browser : Browser :=
  mkBrowser
    (unbounded (<["users" := dq "[{'username':'Ann','first':'Ann','password':'pw'}]"]> ∅))
    (unbounded ∅) "/login" [].

Definition legacy_user : gmap string json :=
  <["username" := JStr "Ann"]> (<["first" := JStr "Ann"]> (<["password" := JStr "pw"]> ∅)).

Definition sample_fields : Views.SignupFields :=
  Views.mkFields " Bea " "Stone" "bea" "bea@example.com" "S3cure!pass".

Definition sample_now : string := "2024-05-01T10:00:00.000Z".

(* ====================================================================== *)
(** * Text as JavaScript sees it: UTF-16 code units, regular expressions *)
(* ====================================================================== *)

Module Text.

(** A continuation byte of UTF-8. *)
Definition is_cont (b : N) : bool := ((128 <=? b) && (b <? 192))%N.

(** The UTF-16 code units of a text given by its UTF-8 bytes: what
    [length], [substring] and the regular expressions of JavaScript count
    and see. A byte that starts no well-formed sequence (overlong forms and
    surrogates included) reads as U+FFFD. *)
Fixpoint units_of_bytes (l : list N) : list N :=
  match l with
  | [] => []
  | b :: r =>
      if (b <? 128)%N then b :: units_of_bytes r
      else if ((194 <=? b) && (b <? 224))%N then
        match r with
        | c1 :: r1 =>
            if is_cont c1
            then ((b - 192) * 64 + (c1 - 128))%N :: units_of_bytes r1
            else 65533%N :: units_of_bytes r
        | [] => [65533%N]
        end
      else if ((224 <=? b) && (b <? 240))%N then
        match r with
        | c1 :: c2 :: r2 =>
            let cp := ((b - 224) * 4096 + (c1 - 128) * 64 + (c2 - 128))%N in
            if is_cont c1 && is_cont c2 && (2048 <=? cp)%N
               && negb ((55296 <=? cp) && (cp <=? 57343))%N
            then cp :: units_of_bytes r2
            else 65533%N :: units_of_bytes r
        | _ => 65533%N :: units_of_bytes r
        end
      else if ((240 <=? b) && (b <? 245))%N then
        match r with
        | c1 :: c2 :: c3 :: r3 =>
            let cp := ((b - 240) * 262144 + (c1 - 128) * 4096
                       + (c2 - 128) * 64 + (c3 - 128))%N in
            if is_cont c1 && is_cont c2 && is_cont c3
               && (65536 <=? cp)%N && (cp <=? 1114111)%N
            then
              let v := (cp - 65536)%N in
              (55296 + v / 1024)%N :: (56320 + v mod 1024)%N :: units_of_bytes r3
            else 65533%N :: units_of_bytes r
        | _ => 65533%N :: units_of_bytes r
        end
      else 65533%N :: units_of_bytes r
  end.

Definition code_units (s : string) : list N := units_of_bytes (bytes_of_string s).

(** [s.length]. *)
Definition js_length (s : string) : nat := length (code_units s).

(** The code units that [\s] matches: WhiteSpace and LineTerminator. *)
Definition is_space (u : N) : bool :=
  ((u =? 9) || (u =? 10) || (u =? 11) || (u =? 12) || (u =? 13) || (u =? 32)
   || (u =? 160) || (u =? 5760) || ((8192 <=? u) && (u <=? 8202))
   || (u =? 8232) || (u =? 8233) || (u =? 8239) || (u =? 8287)
   || (u =? 12288) || (u =? 65279))%N.

(** The code units that [.] does not match. *)
Definition is_line_terminator (u : N) : bool :=
  ((u =? 10) || (u =? 13) || (u =? 8232) || (u =? 8233))%N.

(** Regular expressions without back-references, over code units. *)
Inductive regex : Type :=
| Void
| Eps
| Class (p : N → bool)
| Cat (r1 r2 : regex)
| Alt (r1 r2 : regex)
| Star (r : regex).

(** [r+]. *)
Definition Plus (r : regex) : regex := Cat r (Star r).

Fixpoint nullable (r : regex) : bool :=
  match r with
  | Void => false
  | Eps => true
  | Class _ => false
  | Cat r1 r2 => nullable r1 && nullable r2
  | Alt r1 r2 => nullable r1 || nullable r2
  | Star _ => true
  end.

(** The derivative of an expression by a code unit. *)
Fixpoint deriv (u : N) (r : regex) : regex :=
  match r with
  | Void => Void
  | Eps => Void
  | Class p => if p u then Eps else Void
  | Cat r1 r2 =>
      if nullable r1 then Alt (Cat (deriv u r1) r2) (deriv u r2)
      else Cat (deriv u r1) r2
  | Alt r1 r2 => Alt (deriv u r1) (deriv u r2)
  | Star r1 => Cat (deriv u r1) (Star r1)
  end.

(** Whether the whole of [s] matches [r]: [/^r$/.test(s)]. *)
Fixpoint matches (r : regex) (s : list N) : bool :=
  match s with
  | [] => nullable r
  | u :: s' => matches (deriv u r) s'
  end.

(** [r.test(s)] for an expression [r] with no anchor: some part of [s]
    matches. *)
Definition search (r : regex) (s : list N) : bool :=
  matches (Cat (Star (Class (λ _, true))) (Cat r (Star (Class (λ _, true))))) s.

(** The expression for a literal text, letters matching in either case
    when [ci] is set (the [i] flag, on ASCII letters). *)
Definition unit_eq (ci : bool) (c u : N) : bool :=
  ((u =? c)
   || (ci && (97 <=? c) && (c <=? 122) && (u =? c - 32))
   || (ci && (65 <=? c) && (c <=? 90) && (u =? c + 32)))%N.

Fixpoint literal (ci : bool) (text : list N) : regex :=
  match text with
  | [] => Eps
  | c :: rest => Cat (Class (unit_eq ci c)) (literal ci rest)
  end.

(** The words of an expression. *)
Inductive lang : regex → list N → Prop :=
| lang_eps : lang Eps []
| lang_class p u : p u = true → lang (Class p) [u]
| lang_cat r1 r2 s1 s2 : lang r1 s1 → lang r2 s2 → lang (Cat r1 r2) (s1 ++ s2)
| lang_alt_l r1 r2 s : lang r1 s → lang (Alt r1 r2) s
| lang_alt_r r1 r2 s : lang r2 s → lang (Alt r1 r2) s
| lang_star_nil r : lang (Star r) []
| lang_star_cons r s1 s2 :
    lang r s1 → lang (Star r) s2 → lang (Star r) (s1 ++ s2).

End Text.

(* ====================================================================== *)
(** * PasswordSecurity: the strength of a password *)
(* ====================================================================== *)

Module PasswordStrength.
Section WithPlatform.
Context `{Platform}.

Definition is_lower (u : N) : bool := ((97 <=? u) && (u <=? 122))%N.
Definition is_upper (u : N) : bool := ((65 <=? u) && (u <=? 90))%N.
Definition is_digit (u : N) : bool := ((48 <=? u) && (u <=? 57))%N.

(** The class of the last test: the characters between the brackets of
    the expression, the double quote (34) being the one a Rocq string
    cannot hold. *)
Definition is_special (u : N) : bool :=
  existsb (N.eqb u) (34%N :: bytes_of_string "!@#$%^&*()_+-=[]{};':\|,.<>/?").

(** [/(.)\1{2,}/]: a code unit that is no line terminator, three times in
    a row. *)
Fixpoint has_triple (l : list N) : bool :=
  match l with
  | a :: r =>
      match r with
      | b :: c :: _ =>
          (negb (Text.is_line_terminator a) && (a =? b)%N && (b =? c)%N)
          || has_triple r
      | _ => false
      end
  | [] => false
  end.

(** [/123|abc|qwe/i]. *)
Definition sequential : Text.regex :=
  Text.Alt (Text.literal true (bytes_of_string "123"))
    (Text.Alt (Text.literal true (bytes_of_string "abc"))
              (Text.literal true (bytes_of_string "qwe"))).

Definition has_lower (password : string) : bool :=
  Text.search (Text.Class is_lower) (Text.code_units password).
Definition has_upper (password : string) : bool :=
  Text.search (Text.Class is_upper) (Text.code_units password).
Definition has_digit (password : string) : bool :=
  Text.search (Text.Class is_digit) (Text.code_units password).
Definition has_special (password : string) : bool :=
  Text.search (Text.Class is_special) (Text.code_units password).
Definition has_repeat (password : string) : bool :=
  has_triple (Text.code_units password).
Definition has_sequence (password : string) : bool :=
  Text.search sequential (Text.code_units password).

(** [calculatePasswordStrength(password)]. *)
Definition calculatePasswordStrength (password : string) : Z :=
  let n := Text.js_length password in
  let score := 0%Z in
  let score := if (8 <=? n)%nat then (score + 20)%Z else score in
  let score := if (12 <=? n)%nat then (score + 10)%Z else score in
  let score := if (16 <=? n)%nat then (score + 10)%Z else score in
  let score := if has_lower password then (score + 10)%Z else score in
  let score := if has_upper password then (score + 10)%Z else score in
  let score := if has_digit password then (score + 10)%Z else score in
  let score := if has_special password then (score + 15)%Z else score in
  let score := if has_repeat password then (score - 10)%Z else score in
  let score := if has_sequence password then (score - 15)%Z else score in
  Z.max 0 (Z.min 100 score).

Definition commonPasswords : list string :=
  [ "password"; "123456"; "password123"; "admin"; "qwerty"; "letmein";
    "welcome"; "monkey"; "1234567890"; "abc123" ].

(** The object that [validatePasswordStrength] returns; [strength] is
    missing from the one returned for an empty password. *)
Record Validation : Type := mkValidation {
  isValid : bool;
  errors : list string;
  strength : option Z;
}.

(** The messages pushed for a password that is not empty, in order. *)
Definition password_errors (password : string) : list string :=
  let n := Text.js_length password in
  (if (n <? 8)%nat then ["Password must be at least 8 characters long"] else [])
  ++ (if (128 <? n)%nat then ["Password must be less than 128 characters"] else [])
  ++ (if has_lower password then []
      else ["Password must contain at least one lowercase letter"])
  ++ (if has_upper password then []
      else ["Password must contain at least one uppercase letter"])
  ++ (if has_digit password then []
      else ["Password must contain at least one number"])
  ++ (if has_special password then []
      else ["Password must contain at least one special character"])
  ++ (if existsb (String.eqb (toLowerCase password)) commonPasswords
      then ["Password is too common. Please choose a stronger password"]
      else []).

(** [validatePasswordStrength(password)]. *)
Definition validatePasswordStrength (password : string) : Validation :=
  match password with
  | EmptyString => mkValidation false ["Password is required"] None
  | _ =>
      let errors := password_errors password in
      mkValidation (match errors with [] => true | _ => false end) errors
                   (Some (calculatePasswordStrength password))
  end.

(** The label that the signup form shows for a strength
    ([handlePasswordChange]). *)
Definition strength_label (strength : Z) : string :=
  if (strength <? 30)%Z then "Weak"
  else if (strength <? 60)%Z then "Medium"
  else if (strength <? 80)%Z then "Good"
  else "Strong".

Definition charset : string :=
  "ABCDEFGHIJKLMNOPQRSTUVWXYZabcdefghijklmnopqrstuvwxyz0123456789!@#$%^&*".

(** [charset[i]]: [None] is the [undefined] of an index past the end. *)
Definition charAt (i : nat) : option ascii := list_ascii_of_string charset !! i.

(** [generateSecurePassword(length)], for a [length] that is a
    non-negative integer: [crypto.getRandomValues] throws for an array of
    more than 65536 bytes (an allocation that the engine refuses is a
    [RangeError] before that); otherwise the characters picked, one for
    each random byte, are joined, an [undefined] being joined as the empty
    text. *)
Definition generateSecurePassword (entropy : nat → Byte.byte) (length : nat)
  : res string :=
  array ← PasswordSecurity.fill_random entropy length;
  Ok (join_strings EmptyString
        (map (λ byte,
                match charAt (N.to_nat (Byte.to_N byte) mod String.length charset) with
                | Some c => String c EmptyString
                | None => EmptyString
                end)
             array)).

End WithPlatform.
End PasswordStrength.

(* ====================================================================== *)
(** * StringUtils, on texts given by their code units *)
(* ====================================================================== *)

Module StringUtils.

Definition MAX_PREVIEW_LENGTH : nat := 500.

(** [truncate(text, maxLength)] for a count [maxLength]. *)
Definition truncate (text : list N) (maxLength : nat) : list N :=
  if (maxLength <? length text)%nat
  then take maxLength text ++ bytes_of_string "..."
  else text.

(** [text.replace(/\s+/g, "-")]: every maximal run of white space becomes
    one hyphen; [in_run] tells that the unit before was white space. *)
Fixpoint collapse (in_run : bool) (text : list N) : list N :=
  match text with
  | [] => []
  | u :: rest =>
      if Text.is_space u
      then if in_run then collapse true rest else 45%N :: collapse true rest
      else u :: collapse false rest
  end.

Definition toFilename (text : list N) : list N := collapse false text.

End StringUtils.

(* ====================================================================== *)
(** * ValidationUtils *)
(* ====================================================================== *)

Module ValidationUtils.
Section WithPlatform.
Context `{Platform}.

(** [[^\s@]]. *)
Definition address_unit (u : N) : bool := negb (Text.is_space u) && negb (u =? 64)%N.

(** [/^[^\s@]+@[^\s@]+\.[^\s@]+$/]. *)
Definition emailRegex : Text.regex :=
  Text.Cat (Text.Plus (Text.Class address_unit))
    (Text.Cat (Text.Class (N.eqb 64))
       (Text.Cat (Text.Plus (Text.Class address_unit))
          (Text.Cat (Text.Class (N.eqb 46))
             (Text.Plus (Text.Class address_unit))))).

(** [isValidEmail(email)]. *)
Definition isValidEmail (email : string) : bool :=
  Text.matches emailRegex (Text.code_units email).

(** The [errors] object: its properties in the order of their creation. *)
Fixpoint set_error (k msg : string) (errors : list (string * string))
  : list (string * string) :=
  match errors with
  | [] => [(k, msg)]
  | (k', m) :: rest =>
      if String.eqb k' k then (k, msg) :: rest else (k', m) :: set_error k msg rest
  end.

(** [users.some(u => u[field].toLowerCase() === value)], a [TypeError] on an
    element whose [field] is no string. *)
Fixpoint some_user (field : string) (users : list json) (value : string) : res bool :=
  match users with
  | [] => Ok false
  | u :: rest =>
      match u with
      | JObj o =>
          match o !! field with
          | Some (JStr s) =>
              if String.eqb (toLowerCase s) value then Ok true
              else some_user field rest value
          | _ => Throw "TypeError: toLowerCase is not a function"
          end
      | _ => Throw "TypeError: Cannot read properties of undefined"
      end
  end.

Definition nonempty (s : string) : bool := negb (String.eqb s EmptyString).

(** [validateSignup(fields)]: the [errors] object, or what the uniqueness
    checks throw. [loadUsers()] is called first, and [some] is a method of
    arrays only. *)
Definition validateSignup_errors (b : Browser) (fields : Views.SignupFields)
  : res (list (string * string)) :=
  let users := StorageManager.loadUsers b in
  let errors := [] in
  let errors := if nonempty (Views.first fields) then errors
                else set_error "first" "First name is required." errors in
  let errors := if nonempty (Views.last fields) then errors
                else set_error "last" "Last name is required." errors in
  let errors := if nonempty (Views.username fields) then errors
                else set_error "username" "Username is required." errors in
  let errors :=
    if negb (nonempty (Views.email fields))
    then set_error "email" "Email is required." errors
    else if negb (isValidEmail (Views.email fields))
    then set_error "email" "Please enter a valid email." errors
    else errors in
  let errors :=
    if negb (nonempty (Views.password fields))
    then set_error "password" "Password is required." errors
    else
      let passwordValidation :=
        PasswordStrength.validatePasswordStrength (Views.password fields) in
      if negb (PasswordStrength.isValid passwordValidation)
      then set_error "password"
             (join_strings ". " (PasswordStrength.errors passwordValidation)) errors
      else errors in
  errors ←
    (if nonempty (Views.username fields) then
       taken ← (users ← Views.as_array users;
                some_user "username" users (toLowerCase (Views.username fields)));
       Ok (if (taken : bool)
           then set_error "username" "Username already taken." errors
           else errors)
     else Ok errors);
  if nonempty (Views.email fields) then
    taken ← (users ← Views.as_array users;
             some_user "email" users (toLowerCase (Views.email fields)));
    Ok (if (taken : bool)
        then set_error "email" "Email address already registered." errors
        else errors)
  else Ok errors.

(** What the signup handler reads of the result: [Object.values(errors)]. *)
Definition validateSignup (b : Browser) (fields : Views.SignupFields)
  : res (list string) :=
  errors ← validateSignup_errors b fields; Ok (map snd errors).

End WithPlatform.
End ValidationUtils.

(* ====================================================================== *)
(** * The signup form *)
(* ====================================================================== *)

Section SignupForm.
Context `{Platform}.

(** The fields as the handler reads them from the form. *)
Definition trimmed (raw : Views.SignupFields) : Views.SignupFields :=
  Views.mkFields (trim (Views.first raw)) (trim (Views.last raw))
    (trim (Views.username raw)) (trim (Views.email raw)) (Views.password raw).

(** No record of the list has the value [v], ignoring case, in its
    property [field]; every record has a string there. *)
Definition none_has (field : string) (users : list json) (v : string) : Prop :=
  Forall (λ u, ∃ o s, u = JObj o ∧ o !! field = Some (JStr s) ∧ toLowerCase s ≠ v)
         users.

End SignupForm.

(* ====================================================================== *)
(** * Further concrete inputs *)
(* ====================================================================== *)

(** A page whose users list holds one record with a hashed password. *)
Definition registered_browser : Browser :=
  mkBrowser
    (unbounded
       (<["users" := dq "[{'username':'Ann','first':'Ann','last':'Lee','email':'ann@example.com','hashedPassword':'00ff','salt':'1,2,3'}]"]> ∅))
    (unbounded ∅) "/signup" [].

Definition registered_user : gmap string json :=
  <["username" := JStr "Ann"]> (<["first" := JStr "Ann"]> (<["last" := JStr "Lee"]>
  (<["email" := JStr "ann@example.com"]> (<["hashedPassword" := JStr "00ff"]>
  (<["salt" := JStr "1,2,3"]> ∅))))).

(* ====================================================================== *)
(** * StorageManager: the proxy base URL *)
(* ====================================================================== *)

Module ProxySettings.

(** [setProxyBase(baseUrl)]: the write has no [try] around it, so a
    refusal of the storage is thrown to the caller. [None] is a missing or
    [null] argument. *)
Definition setProxyBase (b : Browser) (baseUrl : option string) : res Browser :=
  st ← setItem (localStorage b) StorageManager.PROXY_BASE
         (or_string baseUrl StorageManager.DEFAULT_PROXY_BASE);
  Ok (with_localStorage b st).

End ProxySettings.

(* ====================================================================== *)
(** * NavigationManager *)
(* ====================================================================== *)

Module NavigationManager.
Section WithPlatform.
Context `{Platform}.

(** What [updateHeaderAuth] puts in the [.nav] element of the header. *)
Inductive Nav : Type :=
| UserNav (name : string)   (** "Welcome, name!", the Home link, the Logout button *)
| GuestNav.                 (** the Login, Sign up and Home links *)

(** [v.k] for a value [v] that is neither [null] nor [undefined] and a
    property [k] that no built-in prototype defines. *)
Definition property (v : json) (k : string) : option json :=
  match v with
  | JObj o => o !! k
  | _ => None
  end.

(** [a || b] on values that may be [undefined]. *)
Definition or_undefined (a b : option json) : option json :=
  if truthy_opt a then a else b.

(** [updateHeaderAuth()], for a page that has its [.nav] element: the
    content written there. *)
Definition updateHeaderAuth (b : Browser) : Nav :=
  let currentUser := StorageManager.getCurrentUser b in
  if truthy currentUser
  then UserNav (template (or_undefined (property currentUser "first")
                                       (property currentUser "username")))
  else GuestNav.

(** [logout()]: what is written in the header, and the state of the page
    afterwards. The header is written after the session is cleared and
    before the hash is set. *)
Definition logout (b : Browser) : Nav * Browser :=
  let b1 := StorageManager.clearCurrentUser b in
  let b2 := showNotification b1 "Logged out successfully!" "success" in
  let nav := updateHeaderAuth b2 in
  (nav, set_location_hash b2 "#/").

End WithPlatform.
End NavigationManager.

(* ====================================================================== *)
(** * The proxy server: the requests that the limiter lets through *)
(* ====================================================================== *)

Module Limiter.

(** The clock readings of the requests that [serve] answers with
    [next()]: a request answered before the limiter, or rejected by it, is
    not among them. *)
Fixpoint admitted (last : Z) (arrivals : list (Z * Server.Request)) : list Z :=
  match arrivals with
  | [] => []
  | (now, req) :: rest =>
      match Server.middleware last now req with
      | (Server.Next, last') => now :: admitted last' rest
      | (_, last') => admitted last' rest
      end
  end.

(** Each reading is at least 750 after the one before, the first one
    after [last]. *)
Fixpoint spaced (last : Z) (times : list Z) : Prop :=
  match times with
  | [] => True
  | t :: rest => (750 ≤ t - last)%Z ∧ spaced t rest
  end.

End Limiter.

(* ====================================================================== *)
(** * AIService: polishing, and the prompt of the job description *)
(* ====================================================================== *)

Module Polish.
Section WithPlatform.
Context `{Platform}.

(** The object literal [{content, instructions, model}]:
    [JSON.stringify] leaves out a property whose value is [undefined]. *)
Definition polish_body (content : option json) (instructions : string)
  : gmap string json :=
  let rest := <["instructions" := JStr instructions]>
              (<["model" := JStr StorageManager.getModel]> ∅) in
  match content with
  | Some c => <["content" := c]> rest
  | None => rest
  end.

Definition polish_request (b : Browser) (content : option json) (instructions : string)
  : AIService.Request :=
  AIService.mkRequest (StorageManager.getProxyBase b +:+ "/api/polish") "POST"
    "application/json" (JSON_stringify (JObj (polish_body content instructions))).

(** [polishViaProxy(content, instructions)]. *)
Definition polishViaProxy (b : Browser)
    (fetch : AIService.Request → AIService.Response)
    (content : option json) (instructions : string) : res (option json) :=
  let response := fetch (polish_request b content instructions) in
  if negb (AIService.ok response) then Throw (AIService.text response)
  else match JSON_parse (AIService.text response) with
       | Some data => member data "text"
       | None => Throw "SyntaxError"
       end.

End WithPlatform.
End Polish.

Module Generate.

(** [if (o.k && Array.isArray(o.k)) o.k = o.k.join(", ")] on the
    properties of the object itself. *)
Definition joined (k : string) (o : gmap string json) : gmap string json :=
  match o !! k with
  | Some (JArr xs) => <[k := JStr (join ", " xs)]> o
  | _ => o
  end.

(** The properties of [answersForAPI] when [generateViaProxy] sends it,
    for the properties [o] of the answers given. *)
Definition answersForAPI (o : gmap string json) : gmap string json :=
  joined "benefits" (joined "skills" (delete "company" o)).

End Generate.

Module JobDescriptionBuilder.

(** [`label${answers.k}`] pushed when [answers.k] is truthy. *)
Definition line_if (answers : gmap string json) (label k : string) : list string :=
  if truthy_opt (answers !! k) then [label +:+ template (answers !! k)] else [].

(** [`label${answers.k || ""}`]. *)
Definition line_or_empty (answers : gmap string json) (label k : string) : string :=
  label +:+ to_string (AIService.or_value (answers !! k) (JStr EmptyString)).


End JobDescriptionBuilder.

(* ====================================================================== *)
(** * The proxy server: the prompts it sends to the model *)
(* ====================================================================== *)

Module ProxyServer.

(** A property of [req.body || {}], the body being what [express.json()]
    has parsed (an object or an array), if anything. *)
Definition body_field (body : option json) (k : string) : option json :=
  match body with
  | Some (JObj o) => o !! k
  | _ => None
  end.

(** [model || "gpt-4o-mini"]. *)
Definition chosen_model (body : option json) : json :=
  AIService.or_value (body_field body "model") (JStr "gpt-4o-mini").

(** ** [POST /api/polish] *)

Definition polish_system : string :=
  "You are a meticulous recruiter editor. Improve clarity, grammar, flow, and impact. Keep structure and bullet points. Do not invent facts; only refine based on the user's instructions.".

(** The [user] message: the template over the [jd] and [instructions]
    properties of the body. *)
Definition polish_user (body : option json) : string :=
  "Original JD:" +:+ nl +:+ nl +:+ template (body_field body "jd")
  +:+ nl +:+ nl +:+ "Polish instructions:" +:+ nl
  +:+ template (body_field body "instructions").

(** The messages passed to [callOpenAI], as pairs of role and content. *)
Definition polish_messages (body : option json) : list (string * string) :=
  [("system", polish_system); ("user", polish_user body)].

(** ** [POST /api/generate] *)

(** [answers?.k]. *)
Definition answer (answers : option json) (k : string) : option json :=
  match answers with
  | Some (JObj o) => o !! k
  | _ => None
  end.

Definition line_if (answers : option json) (label k : string) : list string :=
  if truthy_opt (answer answers k) then [label +:+ template (answer answers k)] else [].

Definition line_or_empty (answers : option json) (label k : string) : string :=
  label +:+ to_string (AIService.or_value (answer answers k) (JStr EmptyString)).

(** The [user] message of the handler: [lines.join("\n")]. *)
Definition generate_user (body : option json) : string :=
  let answers := body_field body "answers" in
  let lines :=
   ([line_or_empty answers "Job Role: " "role"]
    ++ [line_or_empty answers "Location: " "location"]
    ++ line_if answers "Time zone: " "timezone"
    ++ [line_or_empty answers "Employment type: " "hireType"]
    ++ line_if answers "Contract duration: " "duration"
    ++ line_if answers "Domain preference: " "domain"
    ++ line_if answers "Key skills: " "skills"
    ++ line_if answers "1-year success goals: " "goals"
    ++ line_if answers "KPIs: " "kpi"
    ++ line_if answers "Superstar outcomes: " "superstar"
    ++ line_if answers "First 90 days: " "ninety"
    ++ line_if answers "Benefits and perks: " "benefits"
    ++ line_if answers "Application process: " "applicationProcess")%list in
  join_strings nl lines.

End ProxyServer.

(* ====================================================================== *)
(** * The multi-select input *)
(* ====================================================================== *)

Module MultiSelect.

(** [selectedItems.includes(value)] for a string [value]. *)
Definition includes (items : list json) (value : string) : bool :=
  existsb (λ item, strict_eq_string value (Some item)) items.

(** [selectedItems.indexOf(value)]; [None] is [-1]. *)
Fixpoint indexOf (items : list json) (value : string) : option nat :=
  match items with
  | [] => None
  | item :: rest =>
      if strict_eq_string value (Some item) then Some 0
      else S <$> indexOf rest value
  end.

(** [selectedItems.splice(index, 1)] for the result of [indexOf]: the
    index [-1] designates the last element. *)
Definition splice_found (index : option nat) (items : list json) : list json :=
  match index with
  | Some i => delete i items
  | None => take (length items - 1) items
  end.

(** What the user does with the component. *)
Inductive Action : Type :=
| AddCustom (input : string)    (** Enter in the text input holding [input] *)
| Remove (index : nat)          (** the "x" of the tag at [index] *)
| Toggle (suggestion : string). (** a click on a suggestion *)

(** The selected items after an action, when the action changes them and
    calls [onItemsChange]; [None] when it does neither. *)
Definition act (a : Action) (selectedItems : list json) : option (list json) :=
  match a with
  | AddCustom input =>
      let value := trim input in
      if negb (String.eqb value EmptyString) && negb (includes selectedItems value)
      then Some (selectedItems ++ [JStr value])%list
      else None
  | Remove index =>
      if (index <? length selectedItems)%nat
      then Some (delete index selectedItems)
      else None
  | Toggle suggestion =>
      if includes selectedItems suggestion
      then Some (splice_found (indexOf selectedItems suggestion) selectedItems)
      else Some (selectedItems ++ [JStr suggestion])%list
  end.

(** The selected items after a sequence of actions. *)
Definition run (actions : list Action) (selectedItems : list json) : list json :=
  foldl (λ items a, default items (act a items)) selectedItems actions.

End MultiSelect.

(* ====================================================================== *)
(** * The questionnaire of the builder as a state machine *)
(* ====================================================================== *)

Module JDQuestions.
Section WithPlatform.
Context `{Platform}.

(** The input of the question shown. *)
Inductive Input : Type :=
| SelectInput
| ItemsInput (selectedItems : list json)   (** the multi-select component *)
| TextInput.                               (** a text input or a text area *)

(** What the container [#jd-question-container] shows. The handlers of a
    question shown close over the question. *)
Inductive Screen : Type :=
| Blank
| Asking (question : Views.Question) (isLastQuestion hasBack : bool) (input : Input)
| Loading
| Succeeded
| Failed.

(** The variables [currentStep] and [answers] of the view, what it shows
    and the state of the page. *)
Record State : Type := mkState {
  currentStep : nat;
  answers : gmap string json;
  screen : Screen;
  page : Browser;
}.

Definition initial (b : Browser) : State := mkState 0 ∅ Blank b.

Definition with_screen (st : State) (sc : Screen) : State :=
  mkState (currentStep st) (answers st) sc (page st).

Definition notify (st : State) (message type : string) : State :=
  mkState (currentStep st) (answers st) (screen st)
          (showNotification (page st) message type).

(** The construction of the question element in [renderQuestion()]: the
    screen it puts in the container, or what it throws before anything is
    put there. [createSkillsInput] is called without [Views.]: no binding
    of that name is in scope. [createMultiSelectInput] calls [forEach] on
    the value given. *)
Definition renderQuestion (st : State) : res Screen :=
  let filteredQuestions := Views.getFilteredQuestions (answers st) in
  match filteredQuestions !! currentStep st with
  | None => Throw "TypeError: Cannot read properties of undefined (reading 'q')"
  | Some question =>
      let isLastQuestion := (S (currentStep st) =? length filteredQuestions)%nat in
      let hasBack := (0 <? currentStep st)%nat in
      if String.eqb (Views.type question) "select"
      then Ok (Asking question isLastQuestion hasBack SelectInput)
      else if String.eqb (Views.key question) "skills"
      then Throw "ReferenceError: createSkillsInput is not defined"
      else if String.eqb (Views.type question) "multi-select"
      then
        match answers st !! Views.key question with
        | Some (JArr selectedItems) =>
            Ok (Asking question isLastQuestion hasBack (ItemsInput selectedItems))
        | v =>
            if truthy_opt v
            then Throw "TypeError: selectedItems.forEach is not a function"
            else Ok (Asking question isLastQuestion hasBack (ItemsInput []))
        end
      else Ok (Asking question isLastQuestion hasBack TextInput)
  end.

(** A call of [renderQuestion()] from a handler: an exception leaves the
    container as it was. *)
Definition show (st : State) : res unit * State :=
  match renderQuestion st with
  | Ok sc => (Ok (), with_screen st sc)
  | Throw e => (Throw e, st)
  end.

(** [!answers[key] || answers[key].length === 0]. *)
Definition no_items (v : option json) : bool :=
  negb (truthy_opt v)
  || match v with
     | Some (JArr []) => true
     | Some (JObj o) => match o !! "length" with Some (JNum 0) => true | _ => false end
     | _ => false
     end.

(** [currentStep++] and what follows it in [handleNext]; the call of
    [generateJobDescription()] shows the loading state and waits for the
    proxy. *)
Definition advance (st : State) : res unit * State :=
  let st1 := mkState (S (currentStep st)) (answers st) (screen st) (page st) in
  if (currentStep st1 <? length (Views.getFilteredQuestions (answers st1)))%nat
  then show st1
  else (Ok (), with_screen st1 Loading).

(** [handleNext] of the question shown, [value] being the content of the
    element [#current-answer]. *)
Definition handleNext (question : Views.Question) (value : string) (st : State)
  : res unit * State :=
  if String.eqb (Views.key question) "skills" then
    if no_items (answers st !! Views.key question)
    then (Ok (), notify st "Please add at least one skill." "error")
    else advance st
  else if String.eqb (Views.type question) "multi-select" then
    if no_items (answers st !! Views.key question)
    then (Ok (), notify st "Please select at least one option." "error")
    else advance st
  else
    let answer := trim value in
    if String.eqb answer EmptyString
    then (Ok (), notify st "Please provide an answer." "error")
    else advance (mkState (currentStep st)
                    (<[Views.key question := JStr answer]> (answers st))
                    (screen st) (page st)).

(** [handleBack]. *)
Definition handleBack (st : State) : res unit * State :=
  if (0 <? currentStep st)%nat
  then show (mkState (currentStep st - 1) (answers st) (screen st) (page st))
  else (Ok (), st).

(** [JSON.stringify] leaves out a property whose value is [undefined]. *)
Definition set_defined (k : string) (v : option json) (o : gmap string json)
  : gmap string json :=
  match v with
  | Some x => <[k := x]> o
  | None => o
  end.

(** The object saved by [generateJobDescription]. *)
Definition jobDescription (id createdAt : string) (answers : gmap string json)
    (generatedText : option json) : json :=
  JObj (<["id" := JStr id]>
       (set_defined "title" (answers !! "role")
       (set_defined "location" (answers !! "location")
       (set_defined "content" generatedText
       (<["createdAt" := JStr createdAt]>
       (<["answers" := JObj answers]> ∅)))))).

(** [generateJobDescription()] after the loading state is shown: the call
    of the proxy, and the [try] / [catch] around it and around the saving;
    [id] is [Date.now().toString()] and [createdAt] the ISO form of the
    date. *)
Definition generateJobDescription (fetch : AIService.Request → AIService.Response)
    (id createdAt : string) (st : State) : State :=
  match AIService.generateViaProxy {[ 0 := answers st ]} 0 (page st) fetch with
  | Some (_, _, Ok generatedText) =>
      match StorageManager.saveJobDescription (page st)
              (jobDescription id createdAt (answers st) generatedText) with
      | Ok b' => mkState (currentStep st) (answers st) Succeeded b'
      | Throw _ => with_screen st Failed
      end
  | _ => with_screen st Failed
  end.

(** What happens in the view. *)
Inductive Event : Type :=
| Start                            (** the timer set by [JDQuestions()] fires *)
| Next (value : string)            (** a click on the Next button *)
| Back                             (** a click on the Back button *)
| Items (a : MultiSelect.Action)   (** an action on the multi-select input *)
| Answered (fetch : AIService.Request → AIService.Response) (id createdAt : string)
                                   (** the proxy has answered *)
| TryAgain                         (** a click on the button of the error state *)
| Redirect.                        (** the timer of the success state fires *)

(** The state after an event; an event that the screen does not offer
    changes nothing, and so does, beyond what it did before, a handler that
    throws. *)
Definition step (st : State) (e : Event) : State :=
  match e, screen st with
  | Start, Blank => (show st).2
  | Next value, Asking question _ _ _ => (handleNext question value st).2
  | Back, Asking _ _ true _ => (handleBack st).2
  | Items a, Asking question isLastQuestion hasBack (ItemsInput selectedItems) =>
      match MultiSelect.act a selectedItems with
      | Some items =>
          mkState (currentStep st)
            (<[Views.key question := JArr items]> (answers st))
            (Asking question isLastQuestion hasBack (ItemsInput items))
            (page st)
      | None => st
      end
  | Answered fetch id createdAt, Loading => generateJobDescription fetch id createdAt st
  | TryAgain, Failed => (show st).2
  | Redirect, Succeeded =>
      mkState (currentStep st) (answers st) (screen st)
              (set_location_hash (page st) "#/jd-view")
  | _, _ => st
  end.

Definition run (st : State) (events : list Event) : State := foldl step st events.

End WithPlatform.
End JDQuestions.

(* ====================================================================== *)
(** * The view of one job description: "Save Final" *)
(* ====================================================================== *)

Module ShowJobDescription.
Section WithPlatform.
Context `{Platform}.

(** [s[0]], [s[1]], ...: the code units of a string, each as a string of
    its own. One half of a surrogate pair is no text on its own, so the
    function is a parameter of the model. *)
Variable characters : string → list string.

(** [a === b] for a property [a] of a value just parsed and a property [b]
    of a value that was there before, [None] being [undefined]: objects and
    arrays are compared by identity, so a parsed one is never equal to
    [b]. *)
Definition strict_eq (a b : option json) : bool :=
  match a, b with
  | None, None => true
  | Some JNull, Some JNull => true
  | Some (JBool x), Some (JBool y) => Bool.eqb x y
  | Some (JNum x), Some (JNum y) => (x =? y)%Z
  | Some (JStr x), Some (JStr y) => String.eqb x y
  | _, _ => false
  end.

(** The properties [0], [1], ... of an array or of a string. *)
Definition indexed (elements : list json) : gmap string json :=
  list_to_map (imap (λ i x, (N_to_string (N.of_nat i), x)) elements).

(** The enumerable properties of its own that a parsed value has, which
    the spread [{...v}] copies: those of an object, the elements of an
    array and the code units of a string under their indices, none for a
    number or a boolean. *)
Definition own_properties (v : json) : gmap string json :=
  match v with
  | JObj o => o
  | JArr elements => indexed elements
  | JStr s => indexed (JStr <$> characters s)
  | _ => ∅
  end.

(** The function passed to [map], for a job description shown whose [id]
    is [id] ([None] when it has none): reading [jd.id] throws on [null]
    and gives [undefined] on the other values that are no objects. *)
Definition finalise (id : option json) (text : string) (jd : json) : res json :=
  match jd with
  | JNull => Throw "TypeError: Cannot read properties of null (reading 'id')"
  | _ =>
      if strict_eq (Views.field jd "id") id
      then Ok (JObj (<["final" := JBool true]>
                    (<["text" := JStr text]> (own_properties jd))))
      else Ok jd
  end.

Fixpoint map_res {A B} (f : A → res B) (l : list A) : res (list B) :=
  match l with
  | [] => Ok []
  | x :: rest => y ← f x; ys ← map_res f rest; Ok (y :: ys)
  end.

(** [handleSaveFinal], [id] being [jobDescription.id] and [text] the
    content of the element [#jd-text]; [map] is a method of arrays only,
    and the handler has no [try]. *)
Definition handleSaveFinal (id : option json) (text : string) (b : Browser)
  : res Browser :=
  match StorageManager.loadJobDescriptions b with
  | JArr jobDescriptions =>
      updated ← map_res (finalise id text) jobDescriptions;
      let b1 := StorageManager.saveJobDescriptions b (JArr updated) in
      let b2 := showNotification b1 "Saved final version." "success" in
      Ok (set_location_hash b2 "#/jd-view")
  | _ => Throw "TypeError: jobDescriptions.map is not a function"
  end.

End WithPlatform.
End ShowJobDescription.

(** The code units of a text of ASCII characters, for running the
    definitions. *)
Definition ascii_characters (s : string) : list string :=
  map (λ c, String c EmptyString) (list_ascii_of_string s).

(** A page whose stored list holds an entry with an [id], one without and
    a bare text. *)
Definition unfiled_browser : Browser :=
  mkBrowser
    (unbounded
       (<["jobDescriptions" := dq "[{'id':'1','content':'A'},{'content':'B'},'ok']"]> ∅))
    (unbounded ∅) "/jd-view" [].

(* ====================================================================== *)
(** * The questionnaire: what holds of every state it reaches *)
(* ====================================================================== *)

Module Wizard.
Section WithPlatform.
Context `{Platform}.

(** The keys of the questions asked, in their order. *)
Definition keys (answers : gmap string json) : list string :=
  map Views.key (Views.getFilteredQuestions answers).

(** A text answer: a string that is not empty. *)
Definition is_text (v : json) : Prop := ∃ s, v = JStr s ∧ s ≠ EmptyString.

(** A selection: an array of strings without duplicates. *)
Definition is_items (v : json) : Prop :=
  ∃ l, v = JArr l ∧ NoDup l ∧ Forall (λ x, ∃ s, x = JStr s) l.

(** The answer that [handleNext] requires before it goes on. *)
Definition answered (answers : gmap string json) (q : Views.Question) : Prop :=
  if String.eqb (Views.type q) "multi-select"
  then ∃ l, answers !! Views.key q = Some (JArr l) ∧ l ≠ []
  else ∃ s, answers !! Views.key q = Some (JStr s) ∧ s ≠ EmptyString.

(** The input shown fits the question, and the items it shows are the
    ones stored. *)
Definition input_fits (answers : gmap string json) (q : Views.Question)
    (input : JDQuestions.Input) : Prop :=
  match input with
  | JDQuestions.SelectInput => Views.type q = "select"
  | JDQuestions.ItemsInput items =>
      Views.type q = "multi-select"
      ∧ (answers !! Views.key q = Some (JArr items)
         ∨ (answers !! Views.key q = None ∧ items = []))
  | JDQuestions.TextInput =>
      Views.type q ≠ "select" ∧ Views.type q ≠ "multi-select"
  end.

(** The question shown is the one at [currentStep], or [currentStep] is
    at the skills question, whose rendering has failed, and the question
    before or after it is still shown. *)
Definition in_step (st : JDQuestions.State) (q : Views.Question) : Prop :=
  let filtered := Views.getFilteredQuestions (JDQuestions.answers st) in
  filtered !! JDQuestions.currentStep st = Some q
  ∨ ((∃ sq, filtered !! JDQuestions.currentStep st = Some sq ∧ Views.key sq = "skills")
     ∧ (Views.key q = "domain" ∨ Views.key q = "goals")).

Record Inv (st : JDQuestions.State) : Prop := mkInv {
  inv_skills : JDQuestions.answers st !! "skills" = None;
  inv_values : ∀ k v, JDQuestions.answers st !! k = Some v →
                 if String.eqb k "benefits" then is_items v else is_text v;
  inv_prefix : ∀ i q, (i < JDQuestions.currentStep st)%nat →
                 Views.getFilteredQuestions (JDQuestions.answers st) !! i = Some q →
                 Views.key q ≠ "skills" → answered (JDQuestions.answers st) q;
  inv_screen :
    match JDQuestions.screen st with
    | JDQuestions.Blank => JDQuestions.currentStep st = 0%nat
    | JDQuestions.Asking q _ _ input =>
        q ∈ Views.questions ∧ Views.key q ≠ "skills"
        ∧ input_fits (JDQuestions.answers st) q input ∧ in_step st q
    | _ => (length (Views.getFilteredQuestions (JDQuestions.answers st))
            ≤ JDQuestions.currentStep st)%nat
    end;
}.

(** The keys of the questions that every run of the questionnaire asks,
    the skills apart. *)
Definition text_keys : list string :=
  [ "role"; "location"; "timezone"; "hireType"; "domain"; "goals"; "kpi";
    "superstar"; "ninety"; "applicationProcess" ].

End WithPlatform.
End Wizard.

(** A run of the questionnaire to its end: the second click on Next of
    the domain question goes past the skills question, whose rendering has
    failed. *)
Definition sample_run : list JDQuestions.Event :=
  [ JDQuestions.Start; JDQuestions.Next "Data Analyst"; JDQuestions.Next "Berlin";
    JDQuestions.Next "CET"; JDQuestions.Next "Full-time"; JDQuestions.Next "Fintech";
    JDQuestions.Next "Fintech"; JDQuestions.Next "Ship the data platform";
    JDQuestions.Next "Dashboards delivered"; JDQuestions.Next "Automated reports";
    JDQuestions.Next "Know the data"; JDQuestions.Next "ignored";
    JDQuestions.Items (MultiSelect.Toggle "Health insurance");
    JDQuestions.Items (MultiSelect.AddCustom " Gym ");
    JDQuestions.Next "ignored"; JDQuestions.Next "Send a CV" ].

(** ** The prompt that a finished questionnaire leads to *)

Module Prompt.

(** A text answer, the empty string when there is none. *)
Definition text_of (answers : gmap string json) (k : string) : string :=
  match answers !! k with
  | Some (JStr s) => s
  | _ => EmptyString
  end.

Definition optional_line (label s : string) : list string :=
  if String.eqb s EmptyString then [] else [label +:+ s].

Definition benefits_of (answers : gmap string json) : string :=
  match answers !! "benefits" with
  | Some (JArr items) => join ", " items
  | _ => EmptyString
  end.

Definition expected (answers : gmap string json) : string :=
  join_strings nl
    ([ "Job Role: " +:+ text_of answers "role";
       "Location: " +:+ text_of answers "location";
       "Time zone: " +:+ text_of answers "timezone";
       "Employment type: " +:+ text_of answers "hireType" ]
     ++ optional_line "Contract duration: " (text_of answers "duration")
     ++ [ "Domain preference: " +:+ text_of answers "domain";
          "1-year success goals: " +:+ text_of answers "goals";
          "KPIs: " +:+ text_of answers "kpi";
          "Superstar outcomes: " +:+ text_of answers "superstar";
          "First 90 days: " +:+ text_of answers "ninety" ]
     ++ optional_line "Benefits and perks: " (benefits_of answers)
     ++ [ "Application process: " +:+ text_of answers "applicationProcess" ])%list.

End Prompt.

(** A run in which the employment type is changed after a duration was
    given. *)
Definition changed_run : list JDQuestions.Event :=
  [ JDQuestions.Start; JDQuestions.Next "Data Analyst"; JDQuestions.Next "Berlin";
    JDQuestions.Next "CET"; JDQuestions.Next "Contract"; JDQuestions.Next "6 months";
    JDQuestions.Back; JDQuestions.Back; JDQuestions.Next "Full-time";
    JDQuestions.Next "Fintech";
    JDQuestions.Next "Fintech"; JDQuestions.Next "Ship the data platform";
    JDQuestions.Next "Dashboards delivered"; JDQuestions.Next "Automated reports";
    JDQuestions.Next "Know the data";
    JDQuestions.Items (MultiSelect.Toggle "Health insurance");
    JDQuestions.Items (MultiSelect.AddCustom " Gym ");
    JDQuestions.Next "ignored"; JDQuestions.Next "Send a CV" ].

(* ====================================================================== *)
(** * Properties *)
(* ====================================================================== *)

(** ** The definitions at work on concrete inputs *)

Example trim_spaces : trim "  {a}  " = "{a}".
Proof. reflexivity. Qed.
Example join_mixed : join ", " [JStr "a"; JNull; JNum 12; JArr [JStr "b"; JStr "c"]] = "a, , 12, b,c".
Proof. reflexivity. Qed.
Example split_commas : split "," "1,22,,3" = ["1"; "22"; EmptyString; "3"].
Proof. reflexivity. Qed.
Example index_braces : (indexOf "{" "ab{c}d}" , lastIndexOf "}" "ab{c}d}") = (2, 6)%Z.
Proof. reflexivity. Qed.
Example parse_examples :
  Ref.parse " [ ] " = Some (JArr []) ∧ Ref.parse "null" = Some JNull ∧
  Ref.parse EmptyString = None ∧ Ref.parse "not json" = None ∧
  Ref.parse (dq "{'a': [1, -20, 'x\ny'], 'b': {}}")
    = Some (JObj (<["a" := JArr [JNum 1; JNum (-20); JStr ("x" +:+ String (ascii_of_N 10) "y")]]> (<["b" := JObj ∅]> ∅))) ∧
  Ref.parse (dq "{'a': 1.5}") = None ∧ Ref.parse "[1,]" = None ∧ Ref.parse "{} x" = None.
Proof. repeat split; vm_compute; reflexivity. Qed.
Example print_examples :
  Ref.stringify (JObj (<["a" := JArr [JNum 1; JNum (-20); JStr ("x" +:+ String (ascii_of_N 10) "y")]]> (<["b" := JObj ∅]> ∅)))
  = dq "{'a':[1,-20,'x\ny'],'b':{}}".
Proof. vm_compute; reflexivity. Qed.

(** ** Storage: the loaders *)

Section Loaders.
Context `{Platform}.
Hypothesis parse_empty_array : JSON_parse "[]" = Some (JArr []).
Hypothesis parse_null : JSON_parse "null" = Some JNull.
Hypothesis parse_empty : JSON_parse EmptyString = None.

Lemma load_spec (st : Storage) (key text : string) (fallback : json) :
  JSON_parse text = Some fallback →
  StorageManager.load st key text fallback =
    match getItem st key with
    | Some s => default fallback (JSON_parse s)
    | None => fallback
    end.
Proof using parse_empty.
  intros Htext. unfold StorageManager.load, or_string.
  destruct (getItem st key) as [s|]; simpl.
  - destruct (String.eqb_spec s EmptyString) as [->|Hne].
    + rewrite Htext, parse_empty. reflexivity.
    + destruct (JSON_parse s); reflexivity.
  - rewrite Htext. reflexivity.
Qed.

(** C5. The three loaders are total functions of the storage: on an
    absent item, and on an item that [JSON.parse] rejects, [loadUsers] and
    [loadJobDescriptions] return the empty array and [getCurrentUser]
    returns [null]; on an item that parses they return the parsed value. *)
Theorem loaders_total_and_parse (b : Browser) :
  StorageManager.loadUsers b =
    match getItem (localStorage b) "users" with
    | Some s => default (JArr []) (JSON_parse s)
    | None => JArr []
    end
  ∧ StorageManager.loadJobDescriptions b =
    match getItem (localStorage b) "jobDescriptions" with
    | Some s => default (JArr []) (JSON_parse s)
    | None => JArr []
    end
  ∧ StorageManager.getCurrentUser b =
    match getItem (sessionStorage b) "currentUser" with
    | Some s => default JNull (JSON_parse s)
    | None => JNull
    end.
Proof using parse_empty_array parse_null parse_empty.
  repeat split; apply load_spec; assumption.
Qed.

End Loaders.

Lemma loaders_total_and_parse_witness :
  @JSON_parse Ref.platform "[]" = Some (JArr []) ∧
  @JSON_parse Ref.platform "null" = Some JNull ∧
  @JSON_parse Ref.platform EmptyString = None ∧
  @StorageManager.loadUsers Ref.platform sample_browser
    = JArr [JObj (<["username" := JStr "ann"]> (<["password" := JStr "pw"]> ∅))] ∧
  @StorageManager.loadJobDescriptions Ref.platform sample_browser = JArr [] ∧
  @StorageManager.getCurrentUser Ref.platform sample_browser = JNull.
Proof.
  split; [reflexivity|]. split; [reflexivity|]. split; [reflexivity|].
  pose proof (@loaders_total_and_parse Ref.platform eq_refl eq_refl eq_refl
                sample_browser) as (Hu & Hj & Hc).
  split; [exact Hu|]. split; [exact Hj|exact Hc].
Defined.

(** ** Storage: saving a job description *)

Section SaveJobDescription.
Context `{Platform}.

Lemma save_admitted (st : Storage) (key : string) (v : json) :
  admits st (<[key := JSON_stringify v]> (items st)) = true →
  getItem (StorageManager.save st key v) key = Some (JSON_stringify v).
Proof.
  intros Hadm. unfold StorageManager.save, setItem, getItem.
  rewrite Hadm. simpl. apply lookup_insert_eq.
Qed.

Lemma save_refused (st : Storage) (key : string) (v : json) :
  admits st (<[key := JSON_stringify v]> (items st)) = false →
  StorageManager.save st key v = st.
Proof.
  intros Hadm. unfold StorageManager.save, setItem. rewrite Hadm. reflexivity.
Qed.

Lemma load_after_save (st : Storage) (key text : string) (fallback v : json) :
  JSON_parse EmptyString = None →
  JSON_parse (JSON_stringify v) = Some v →
  admits st (<[key := JSON_stringify v]> (items st)) = true →
  StorageManager.load (StorageManager.save st key v) key text fallback = v.
Proof.
  intros Hempty Hround Hadm. unfold StorageManager.load.
  rewrite (save_admitted _ _ _ Hadm). unfold or_string.
  destruct (String.eqb_spec (JSON_stringify v) EmptyString) as [Heq|_].
  - rewrite Heq, Hempty in Hround. discriminate.
  - rewrite Hround. reflexivity.
Qed.

(** The items of the job description screen are built without an error
    for entries as the application writes them. *)
Lemma JDView_items_entries (l : list json) :
  forallb Views.is_entry l = true → Views.JDView_items l = Ok tt.
Proof.
  induction l as [|jd l IH]; [reflexivity|]. intros Hall.
  apply andb_prop in Hall as [Hjd Hl]. cbn [Views.JDView_items].
  rewrite (IH Hl).
  destruct jd as [| | | | |o]; try discriminate Hjd.
  unfold Views.is_entry in Hjd.
  apply andb_prop in Hjd as [Hjd Hdate]. apply andb_prop in Hjd as [Htitle _].
  unfold Views.JDView_item, Views.field.
  destruct (o !! "title") as [[]|]; try discriminate Htitle;
    destruct (o !! "createdAt") as [[]|]; try discriminate Hdate; reflexivity.
Qed.

Lemma JDView_latest_list (b : Browser) (jd : json) (L : list json) :
  StorageManager.loadJobDescriptions b = JArr (jd :: L) →
  (∀ latest, Views.JDView_latest b = Ok latest → latest = Some jd)
  ∧ (forallb Views.is_entry (jd :: L) = true →
     Views.JDView_latest b = Ok (Some jd)).
Proof.
  intros Hload. unfold Views.JDView_latest. rewrite Hload. split.
  - intros latest.
    destruct (Views.JDView_items (jd :: L)) as [[]|]; [|discriminate].
    destruct (Views.appendChildren (Views.field jd "content")) as [[]|];
      [|discriminate].
    intros [= <-]. reflexivity.
  - intros Hall. rewrite (JDView_items_entries _ Hall).
    apply andb_prop in Hall as [Hjd _].
    destruct jd as [| | | | |o]; try discriminate Hjd.
    unfold Views.is_entry in Hjd.
    apply andb_prop in Hjd as [Hjd _]. apply andb_prop in Hjd as [_ Hcontent].
    unfold Views.field.
    destruct (o !! "content") as [[]|]; try discriminate Hcontent; reflexivity.
Qed.

(** C4, as amended. When the stored value is the list [L] and
    [localStorage] takes the write, [saveJobDescription jd] returns and a
    later [loadJobDescriptions] gives [jd] followed by [L]: whenever the
    job description screen renders that list, the entry it shows as
    "Latest" is [jd], and it does render it when [jd] and the entries of
    [L] are entries as the application writes them. When [localStorage]
    refuses the write the error is caught and the page is left as it was,
    the list being [L] still. ([JSON.parse] is taken to read back what
    [JSON.stringify] wrote for the new list and to reject the empty
    text.) *)
Theorem saveJobDescription_prepends (b : Browser) (jd : json) (L : list json) :
  JSON_parse EmptyString = None →
  JSON_parse (JSON_stringify (JArr (jd :: L))) = Some (JArr (jd :: L)) →
  StorageManager.loadJobDescriptions b = JArr L →
  ∃ b', StorageManager.saveJobDescription b jd = Ok b' ∧
    if admits (localStorage b)
         (<["jobDescriptions" := JSON_stringify (JArr (jd :: L))]>
            (items (localStorage b)))
    then StorageManager.loadJobDescriptions b' = JArr (jd :: L)
         ∧ (∀ latest, Views.JDView_latest b' = Ok latest → latest = Some jd)
         ∧ (forallb Views.is_entry (jd :: L) = true →
            Views.JDView_latest b' = Ok (Some jd))
    else b' = b ∧ StorageManager.loadJobDescriptions b' = JArr L.
Proof.
  intros Hempty Hround Hload.
  unfold StorageManager.saveJobDescription. rewrite Hload.
  eexists. split; [reflexivity|].
  destruct (admits _ _) eqn:Hadm.
  - assert (StorageManager.loadJobDescriptions
              (StorageManager.saveJobDescriptions b (JArr (jd :: L)))
            = JArr (jd :: L)) as Hnew.
    { unfold StorageManager.loadJobDescriptions, StorageManager.saveJobDescriptions.
      simpl. apply load_after_save; assumption. }
    split; [exact Hnew|]. by apply JDView_latest_list.
  - unfold StorageManager.saveJobDescriptions.
    rewrite save_refused by exact Hadm. destruct b; split; [reflexivity|exact Hload].
Qed.

End SaveJobDescription.

(** C4 as stated fails: on a full [localStorage] the job description that
    was saved is not in the list that is loaded afterwards. *)
Lemma saveJobDescription_may_drop :
  ¬ (∀ (b b' : Browser) (jd : json) (L : list json),
       @StorageManager.loadJobDescriptions Ref.platform b = JArr L →
       @StorageManager.saveJobDescription Ref.platform b jd = Ok b' →
       @StorageManager.loadJobDescriptions Ref.platform b' = JArr (jd :: L)).
Proof.
  intros Hclaim.
  specialize (Hclaim full_browser full_browser sample_jd [] eq_refl eq_refl).
  discriminate Hclaim.
Qed.

Example stored_browser_holds_stored_list :
  @StorageManager.loadJobDescriptions Ref.platform stored_browser = JArr stored_list
  ∧ @Views.JDView_latest Ref.platform stored_browser
    = Ok (Some (JObj (<["id" := JStr "1650000000000"]>
                     (<["title" := JStr "Accountant"]>
                     (<["content" := JStr "Job Title: Accountant"]> ∅))))).
Proof. split; vm_compute; reflexivity. Qed.

(** What the job description screen makes of other stored values. *)
Example JDView_examples :
  @Views.JDView_latest Ref.platform (holding "[]") = Ok None
  ∧ @Views.JDView_latest Ref.platform (holding "{'length':0}") = Ok None
  ∧ @Views.JDView_latest Ref.platform (holding "7") = Ok None
  ∧ @Views.JDView_latest Ref.platform (holding "[7,'text',[1,2]]") = Ok (Some (JNum 7))
  ∧ @Views.JDView_latest Ref.platform (holding "null")
    = Throw "TypeError: Cannot read properties of null (reading 'length')"
  ∧ @Views.JDView_latest Ref.platform (holding "'text'")
    = Throw "TypeError: jobDescriptions.map is not a function"
  ∧ @Views.JDView_latest Ref.platform (holding "{'length':2}")
    = Throw "TypeError: jobDescriptions.map is not a function"
  ∧ @Views.JDView_latest Ref.platform (holding "[{'title':'A'},null]")
    = Throw "TypeError: Cannot read properties of null (reading 'title')"
  ∧ @Views.JDView_latest Ref.platform (holding "[{'title':{'nodeType':1}}]")
    = Throw "TypeError: Failed to execute 'appendChild' on 'Node'"
  ∧ @Views.JDView_latest Ref.platform (holding "[{'createdAt':[{'toString':1}]}]")
    = Throw "TypeError: Cannot convert object to primitive value"
  ∧ @Views.JDView_latest Ref.platform (holding "[{'content':[{'nodeType':1}]}]")
    = Throw "TypeError: Failed to execute 'appendChild' on 'Node'".
Proof. repeat split; vm_compute; reflexivity. Qed.

Lemma saveJobDescription_prepends_witness :
  @JSON_parse Ref.platform EmptyString = None ∧
  @JSON_parse Ref.platform (@JSON_stringify Ref.platform (JArr (sample_jd :: stored_list)))
    = Some (JArr (sample_jd :: stored_list)) ∧
  @StorageManager.loadJobDescriptions Ref.platform stored_browser = JArr stored_list ∧
  forallb Views.is_entry (sample_jd :: stored_list) = true ∧
  ∃ b', @StorageManager.saveJobDescription Ref.platform stored_browser sample_jd = Ok b'
        ∧ @StorageManager.loadJobDescriptions Ref.platform b'
          = JArr (sample_jd :: stored_list)
        ∧ @Views.JDView_latest Ref.platform b' = Ok (Some sample_jd).
Proof.
  split; [reflexivity|]. split; [vm_compute; reflexivity|].
  split; [vm_compute; reflexivity|]. split; [vm_compute; reflexivity|].
  destruct (@saveJobDescription_prepends Ref.platform stored_browser sample_jd stored_list
              eq_refl ltac:(vm_compute; reflexivity) ltac:(vm_compute; reflexivity))
    as (b' & Hsave & Hload & _ & Hlatest).
  exists b'. split; [exact Hsave|]. split; [exact Hload|].
  apply Hlatest. vm_compute. reflexivity.
Defined.

(** ** The proxy server: the rate limiter *)

Lemma serve_cons (last now : Z) (req : Server.Request)
    (rest : list (Z * Server.Request)) :
  Server.serve last ((now, req) :: rest)
  = ((Server.middleware last now req).1
       :: (Server.serve (Server.middleware last now req).2 rest).1,
     (Server.serve (Server.middleware last now req).2 rest).2).
Proof.
  simpl. destruct (Server.middleware last now req) as [v last']. simpl.
  by destruct (Server.serve last' rest).
Qed.

Lemma serve_app (last : Z) (arrivals later : list (Z * Server.Request)) :
  Server.serve last (arrivals ++ later)
  = (((Server.serve last arrivals).1
        ++ (Server.serve (Server.serve last arrivals).2 later).1)%list,
     (Server.serve (Server.serve last arrivals).2 later).2).
Proof.
  revert last. induction arrivals as [|[now req] rest IH]; intros last.
  - cbn [app Server.serve fst snd]. by destruct (Server.serve last later).
  - rewrite <- app_comm_cons, !serve_cons, IH. reflexivity.
Qed.

(** Two sequences of requests with the same clock readings are served
    alike when, one by one, their requests fare alike before the limiter. *)
Lemma serve_ignores_requests (last : Z) (arrivals arrivals' : list (Z * Server.Request)) :
  Forall2 (λ a a', a.1 = a'.1
                   ∧ Server.before_limiter a.2 = Server.before_limiter a'.2)
          arrivals arrivals' →
  Server.serve last arrivals = Server.serve last arrivals'.
Proof.
  intros Hall. revert last.
  induction Hall as [|[now req] [now' req'] rest rest' [Hnow Hbefore] _ IH];
    intros last; [reflexivity|].
  cbn [fst snd] in Hnow, Hbefore. subst now'.
  rewrite !serve_cons.
  assert (Server.middleware last now req = Server.middleware last now req') as ->.
  { unfold Server.middleware. by rewrite Hbefore. }
  by rewrite IH.
Qed.

(** C10, as amended. The limiter has one piece of state, the time [last]
    of the latest request it let through (initially 0), shared by all
    requests. A request that reaches the limiter at time [now] is rejected
    exactly when [now - last < 750]; a rejected request leaves [last] as it
    is and an admitted one sets it to [now]; neither the verdict nor the
    new state depends on the request (its client, method or path). A
    request whose body [express.json()] refuses, and otherwise an [OPTIONS]
    request, which [cors()] answers, does not reach the limiter: it is
    answered whatever the clock reads, and [last] stays. The server runs
    this chain on the requests one after the other, so that two sequences
    with the same clock readings whose requests fare alike before the
    limiter get the same verdicts and leave the same [last]. *)
Theorem rate_limit_single_global_timestamp
    (last now : Z) (req req' : Server.Request)
    (arrivals arrivals' : list (Z * Server.Request)) :
  Server.initial_last = 0%Z
  ∧ ((Server.rate_limit last now req).1 = Server.TooManyRequests ↔ (now - last < 750)%Z)
  ∧ ((Server.rate_limit last now req).1 = Server.Next ↔ (750 ≤ now - last)%Z)
  ∧ (Server.rate_limit last now req).2
    = (if decide (now - last < 750)%Z then last else now)
  ∧ Server.rate_limit last now req = Server.rate_limit last now req'
  ∧ (∀ status, Server.body_error req = Some status →
       Server.middleware last now req = (Server.BodyError status, last))
  ∧ (Server.body_error req = None → Server.method req = "OPTIONS" →
       Server.middleware last now req = (Server.Preflight, last))
  ∧ (Server.body_error req = None → Server.method req ≠ "OPTIONS" →
       Server.middleware last now req = Server.rate_limit last now req)
  ∧ Server.serve last [] = ([], last)
  ∧ Server.serve last (arrivals ++ [(now, req)])
    = (((Server.serve last arrivals).1
          ++ [(Server.middleware (Server.serve last arrivals).2 now req).1])%list,
       (Server.middleware (Server.serve last arrivals).2 now req).2)
  ∧ (Forall2 (λ a a', a.1 = a'.1
                      ∧ Server.before_limiter a.2 = Server.before_limiter a'.2)
             arrivals arrivals' →
     Server.serve last arrivals = Server.serve last arrivals').
Proof.
  split; [reflexivity|]. split.
  { unfold Server.rate_limit.
    destruct (Z.ltb_spec (now - last) 750); simpl; split; intros; try lia; congruence. }
  split.
  { unfold Server.rate_limit.
    destruct (Z.ltb_spec (now - last) 750); simpl; split; intros; try lia; congruence. }
  split.
  { unfold Server.rate_limit.
    destruct (Z.ltb_spec (now - last) 750); simpl; case_decide; try lia; reflexivity. }
  split; [reflexivity|]. split.
  { intros status Hbody. unfold Server.middleware, Server.before_limiter.
    by rewrite Hbody. }
  split.
  { intros Hbody Hmethod. unfold Server.middleware, Server.before_limiter.
    by rewrite Hbody, Hmethod. }
  split.
  { intros Hbody Hmethod. unfold Server.middleware, Server.before_limiter.
    rewrite Hbody. by destruct (String.eqb_spec (Server.method req) "OPTIONS"). }
  split; [reflexivity|]. split; [|apply serve_ignores_requests].
  rewrite serve_app, serve_cons. reflexivity.
Qed.

Example serve_trace :
  Server.serve Server.initial_last
    [ (1000, Server.mkRequest "10.0.0.1" "POST" "/api/generate" None);
      (1400, Server.mkRequest "10.0.0.2" "GET" "/health" None);
      (1749, Server.mkRequest "10.0.0.3" "POST" "/api/polish" None);
      (1750, Server.mkRequest "10.0.0.1" "POST" "/api/sourcing" None);
      (1800, Server.mkRequest "10.0.0.4" "OPTIONS" "/api/generate" None);
      (1900, Server.mkRequest "10.0.0.4" "POST" "/api/generate" (Some 400));
      (2499, Server.mkRequest "10.0.0.4" "POST" "/api/generate" None);
      (2500, Server.mkRequest "10.0.0.4" "POST" "/api/generate" None) ]%Z
  = ([ Server.Next; Server.TooManyRequests; Server.TooManyRequests; Server.Next;
       Server.Preflight; Server.BodyError 400; Server.TooManyRequests; Server.Next ],
     2500%Z).
Proof. reflexivity. Qed.

(** C10 as stated fails: a preflight request that arrives within the
    window of the shared timestamp is not rejected, [cors()] answers it
    before the limiter runs. *)
Lemma preflight_in_window_is_answered :
  ¬ (∀ (last now : Z) (req : Server.Request),
       (Server.middleware last now req).1 = Server.TooManyRequests
       ↔ (now - last < 750)%Z).
Proof.
  intros Hclaim.
  destruct (Hclaim 1000%Z 1100%Z
              (Server.mkRequest "10.0.0.1" "OPTIONS" "/api/generate" None))
    as [_ Hrejected].
  discriminate Hrejected. reflexivity.
Qed.

Lemma rate_limit_single_global_timestamp_witness :
  Forall2 (λ a a' : Z * Server.Request,
             a.1 = a'.1 ∧ Server.before_limiter a.2 = Server.before_limiter a'.2)
    [ (1000%Z, Server.mkRequest "10.0.0.1" "POST" "/api/generate" None);
      (1100%Z, Server.mkRequest "10.0.0.1" "OPTIONS" "/api/polish" None);
      (1750%Z, Server.mkRequest "10.0.0.1" "POST" "/api/polish" None) ]
    [ (1000%Z, Server.mkRequest "10.0.0.2" "GET" "/health" None);
      (1100%Z, Server.mkRequest "10.0.0.3" "OPTIONS" "/api/sourcing" None);
      (1750%Z, Server.mkRequest "10.0.0.4" "DELETE" "/nowhere" None) ]
  ∧ Server.serve 0
      [ (1000%Z, Server.mkRequest "10.0.0.1" "POST" "/api/generate" None);
        (1100%Z, Server.mkRequest "10.0.0.1" "OPTIONS" "/api/polish" None);
        (1750%Z, Server.mkRequest "10.0.0.1" "POST" "/api/polish" None) ]
    = ([Server.Next; Server.Preflight; Server.Next], 1750%Z)
  ∧ Server.serve 0
      [ (1000%Z, Server.mkRequest "10.0.0.2" "GET" "/health" None);
        (1100%Z, Server.mkRequest "10.0.0.3" "OPTIONS" "/api/sourcing" None);
        (1750%Z, Server.mkRequest "10.0.0.4" "DELETE" "/nowhere" None) ]
    = ([Server.Next; Server.Preflight; Server.Next], 1750%Z)
  ∧ Server.middleware 1000 1100
      (Server.mkRequest "10.0.0.1" "POST" "/api/generate" (Some 400%Z))
    = (Server.BodyError 400, 1000%Z)
  ∧ Server.middleware 1000 1100
      (Server.mkRequest "10.0.0.1" "OPTIONS" "/api/generate" None)
    = (Server.Preflight, 1000%Z)
  ∧ Server.middleware 1000 1100
      (Server.mkRequest "10.0.0.1" "POST" "/api/generate" None)
    = (Server.TooManyRequests, 1000%Z).
Proof.
  assert (Forall2 (λ a a' : Z * Server.Request,
             a.1 = a'.1 ∧ Server.before_limiter a.2 = Server.before_limiter a'.2)
    [ (1000%Z, Server.mkRequest "10.0.0.1" "POST" "/api/generate" None);
      (1100%Z, Server.mkRequest "10.0.0.1" "OPTIONS" "/api/polish" None);
      (1750%Z, Server.mkRequest "10.0.0.1" "POST" "/api/polish" None) ]
    [ (1000%Z, Server.mkRequest "10.0.0.2" "GET" "/health" None);
      (1100%Z, Server.mkRequest "10.0.0.3" "OPTIONS" "/api/sourcing" None);
      (1750%Z, Server.mkRequest "10.0.0.4" "DELETE" "/nowhere" None) ]) as Halike.
  { repeat constructor. }
  destruct (rate_limit_single_global_timestamp 1000 1100
              (Server.mkRequest "10.0.0.1" "POST" "/api/generate" (Some 400%Z))
              (Server.mkRequest "10.0.0.1" "POST" "/api/generate" None) [] [])
    as (_ & _ & _ & _ & _ & Hbody & _).
  destruct (rate_limit_single_global_timestamp 1000 1100
              (Server.mkRequest "10.0.0.1" "OPTIONS" "/api/generate" None)
              (Server.mkRequest "10.0.0.1" "POST" "/api/generate" None) [] [])
    as (_ & _ & _ & _ & _ & _ & Hpreflight & _).
  destruct (rate_limit_single_global_timestamp 0 0
              (Server.mkRequest "10.0.0.1" "POST" "/api/generate" None)
              (Server.mkRequest "10.0.0.1" "POST" "/api/generate" None)
              [ (1000%Z, Server.mkRequest "10.0.0.1" "POST" "/api/generate" None);
                (1100%Z, Server.mkRequest "10.0.0.1" "OPTIONS" "/api/polish" None);
                (1750%Z, Server.mkRequest "10.0.0.1" "POST" "/api/polish" None) ]
              [ (1000%Z, Server.mkRequest "10.0.0.2" "GET" "/health" None);
                (1100%Z, Server.mkRequest "10.0.0.3" "OPTIONS" "/api/sourcing" None);
                (1750%Z, Server.mkRequest "10.0.0.4" "DELETE" "/nowhere" None) ])
    as (_ & _ & _ & _ & _ & _ & _ & _ & _ & _ & Hsame).
  destruct (rate_limit_single_global_timestamp 1000 1100
              (Server.mkRequest "10.0.0.1" "POST" "/api/generate" None)
              (Server.mkRequest "10.0.0.1" "POST" "/api/generate" None) [] [])
    as (_ & _ & _ & _ & _ & _ & _ & Hlimited & _).
  split; [exact Halike|]. split; [reflexivity|].
  split; [rewrite <- (Hsame Halike); reflexivity|].
  split; [apply Hbody; reflexivity|].
  split; [apply Hpreflight; reflexivity|].
  rewrite Hlimited; [reflexivity|reflexivity|discriminate].
Defined.

(** ** The questionnaire *)

(** C6. The questions come in one fixed order of thirteen keys. When the
    [hireType] answer is the string ["Contract"] the filtered list is the
    whole list, [duration] included; for every other state of the answers
    it is the list without the [duration] question, the other twelve
    keeping their order. So [duration] is asked exactly when [hireType] is
    ["Contract"]. *)
Theorem questionnaire_duration_iff_contract (answers : gmap string json) :
  map Views.key Views.questions
    = [ "role"; "location"; "timezone"; "hireType"; "duration"; "domain";
        "skills"; "goals"; "kpi"; "superstar"; "ninety"; "benefits";
        "applicationProcess" ]
  ∧ (answers !! "hireType" = Some (JStr "Contract") →
     Views.getFilteredQuestions answers = Views.questions
     ∧ length (Views.getFilteredQuestions answers) = 13)
  ∧ (answers !! "hireType" ≠ Some (JStr "Contract") →
     Views.getFilteredQuestions answers
     = List.filter (λ question, negb (String.eqb (Views.key question) "duration"))
                   Views.questions
     ∧ map Views.key (Views.getFilteredQuestions answers)
       = [ "role"; "location"; "timezone"; "hireType"; "domain";
           "skills"; "goals"; "kpi"; "superstar"; "ninety"; "benefits";
           "applicationProcess" ])
  ∧ ("duration" ∈ map Views.key (Views.getFilteredQuestions answers)
     ↔ answers !! "hireType" = Some (JStr "Contract")).
Proof.
  assert (strict_eq_string "Contract" (answers !! "hireType") = true
          ↔ answers !! "hireType" = Some (JStr "Contract")) as Hcond.
  { unfold strict_eq_string.
    destruct (answers !! "hireType") as [[| | |s| |]|];
      try (split; intros; congruence).
    destruct (String.eqb_spec "Contract" s) as [<-|Hne];
      split; intros; congruence. }
  unfold Views.getFilteredQuestions, Views.questions. simpl.
  destruct (strict_eq_string "Contract" (answers !! "hireType")).
  - destruct Hcond as [Hyes _]. specialize (Hyes eq_refl).
    split; [reflexivity|]. split; [intros _; split; reflexivity|].
    split; [intros Hne; contradiction|].
    split; [intros _; exact Hyes|intros _]. simpl. set_solver.
  - assert (answers !! "hireType" ≠ Some (JStr "Contract")) as Hne.
    { intros Heq. destruct Hcond as [_ Hback]. specialize (Hback Heq). discriminate. }
    split; [reflexivity|]. split; [intros Heq; contradiction|].
    split; [intros _; split; reflexivity|].
    split; [|intros Heq; contradiction]. simpl. intros Hin.
    repeat (apply elem_of_cons in Hin as [Hin|Hin]; [discriminate Hin|]).
    by apply elem_of_nil in Hin.
Qed.

Lemma questionnaire_duration_iff_contract_witness :
  (<["hireType" := JStr "Contract"]> ∅ : gmap string json) !! "hireType"
    = Some (JStr "Contract")
  ∧ map Views.key (Views.getFilteredQuestions (<["hireType" := JStr "Contract"]> ∅))
    = [ "role"; "location"; "timezone"; "hireType"; "duration"; "domain";
        "skills"; "goals"; "kpi"; "superstar"; "ninety"; "benefits";
        "applicationProcess" ]
  ∧ (<["hireType" := JStr "Full-time"]> ∅ : gmap string json) !! "hireType"
    ≠ Some (JStr "Contract")
  ∧ map Views.key (Views.getFilteredQuestions (<["hireType" := JStr "Full-time"]> ∅))
    = [ "role"; "location"; "timezone"; "hireType"; "domain";
        "skills"; "goals"; "kpi"; "superstar"; "ninety"; "benefits";
        "applicationProcess" ].
Proof.
  split; [reflexivity|]. split.
  - destruct (questionnaire_duration_iff_contract (<["hireType" := JStr "Contract"]> ∅))
      as (Hkeys & Hyes & _ & _).
    destruct (Hyes eq_refl) as [Heq _]. rewrite Heq. exact Hkeys.
  - split; [discriminate|].
    destruct (questionnaire_duration_iff_contract (<["hireType" := JStr "Full-time"]> ∅))
      as (_ & _ & Hno & _).
    destruct (Hno ltac:(discriminate)) as [_ Hk]. exact Hk.
Defined.

(** ** Strings: [split] undoes [join] *)

Lemma app_cons (c : ascii) (s t : string) : String c s +:+ t = String c (s +:+ t).
Proof. reflexivity. Qed.

Lemma app_empty_l (t : string) : EmptyString +:+ t = t.
Proof. reflexivity. Qed.

Lemma app_assoc_string (a b c : string) : (a +:+ b) +:+ c = a +:+ (b +:+ c).
Proof.
  induction a as [|x a IH]; [reflexivity|].
  rewrite !app_cons. f_equal. exact IH.
Qed.

Lemma app_empty_r (a : string) : a +:+ EmptyString = a.
Proof.
  induction a as [|x a IH]; [reflexivity|].
  rewrite app_cons. f_equal. exact IH.
Qed.

Lemma foldl_join_prefix (sep p a : string) (r : list string) :
  foldl (λ acc y, acc +:+ sep +:+ y) (p +:+ a) r
  = p +:+ foldl (λ acc y, acc +:+ sep +:+ y) a r.
Proof.
  revert a. induction r as [|y r IH]; intros a; simpl; [reflexivity|].
  rewrite app_assoc_string. apply IH.
Qed.

Lemma join_strings_cons (sep x y : string) (r : list string) :
  join_strings sep (x :: y :: r) = x +:+ sep +:+ join_strings sep (y :: r).
Proof.
  simpl. rewrite foldl_join_prefix. f_equal. apply foldl_join_prefix.
Qed.

Lemma join_strings_head (sep x : string) (r : list string) :
  ∃ t, join_strings sep (x :: r) = x +:+ t.
Proof.
  simpl. exists (foldl (λ acc y, acc +:+ sep +:+ y) EmptyString r).
  rewrite <- foldl_join_prefix. by rewrite app_empty_r.
Qed.

Lemma split_without_sep (sep : ascii) (s : string) :
  occurs sep s = false → split sep s = [s].
Proof.
  induction s as [|d s IH]; simpl; [reflexivity|].
  intros Hocc. apply orb_false_iff in Hocc as [Hd Hs].
  rewrite Hd, (IH Hs). reflexivity.
Qed.

Lemma split_app_sep (sep : ascii) (x rest : string) :
  occurs sep x = false →
  split sep (x +:+ String sep rest) = x :: split sep rest.
Proof.
  induction x as [|d x IH]; intros Hocc.
  - rewrite app_empty_l. simpl. by rewrite Ascii.eqb_refl.
  - simpl in Hocc. apply orb_false_iff in Hocc as [Hd Hx].
    rewrite app_cons. simpl. rewrite Hd, (IH Hx). reflexivity.
Qed.

Lemma split_join (l : list string) :
  l ≠ [] → Forall (λ x, occurs "," x = false) l →
  split "," (join_strings "," l) = l.
Proof.
  induction l as [|x [|y r] IH]; intros Hne Hall; [contradiction| |].
  - simpl. apply split_without_sep. by inversion Hall.
  - rewrite join_strings_cons.
    change ("," +:+ join_strings "," (y :: r))
      with (String ","%char (join_strings "," (y :: r))).
    inversion Hall as [|? ? Hx Hrest]; subst.
    rewrite (split_app_sep _ _ _ Hx). f_equal. by apply IH.
Qed.

(** ** Password hashing *)

Section Passwords.
Context `{Platform}.

Lemma byte_numeral_no_comma (b : Byte.byte) :
  occurs "," (N_to_string (Byte.to_N b)) = false.
Proof. destruct b; reflexivity. Qed.

Lemma byte_numeral_nonempty (b : Byte.byte) :
  ∃ c r, N_to_string (Byte.to_N b) = String c r.
Proof. destruct b; eexists _, _; reflexivity. Qed.

(** [Number] followed by the conversion to an element of a [Uint8Array]
    reads back the decimal numeral of a byte. *)
Lemma Number_uint8_numeral (b : Byte.byte) :
  PasswordSecurity.Number_uint8 (N_to_string (Byte.to_N b)) = b.
Proof. destruct b; vm_compute; reflexivity. Qed.

(** The salt survives [join(",")] followed by [split(",").map(Number)]. *)
Lemma parse_serialize_salt (salt : list Byte.byte) :
  salt ≠ [] →
  PasswordSecurity.parse_salt (PasswordSecurity.serialize_salt salt) = salt.
Proof.
  intros Hne. unfold PasswordSecurity.parse_salt, PasswordSecurity.serialize_salt.
  rewrite split_join.
  - rewrite map_map. rewrite <- (map_id salt) at 2.
    apply map_ext. intros b. apply Number_uint8_numeral.
  - destruct salt; [contradiction|discriminate].
  - apply Forall_forall. intros x Hx. apply list_elem_of_In, in_map_iff in Hx.
    destruct Hx as (b & <- & _). apply byte_numeral_no_comma.
Qed.

Lemma serialize_salt_truthy (salt : list Byte.byte) :
  salt ≠ [] → truthy (JStr (PasswordSecurity.serialize_salt salt)) = true.
Proof.
  destruct salt as [|b r]; [contradiction|intros _].
  unfold PasswordSecurity.serialize_salt. rewrite map_cons.
  destruct (join_strings_head "," (N_to_string (Byte.to_N b))
              (map (λ b, N_to_string (Byte.to_N b)) r)) as [t ->].
  destruct (byte_numeral_nonempty b) as (c & r' & ->). reflexivity.
Qed.

Lemma hashPassword_with_stored_salt (password : string) (salt : list Byte.byte)
    (entropy : nat → Byte.byte) :
  salt ≠ [] →
  PasswordSecurity.hashPassword password
    (Some (JStr (PasswordSecurity.serialize_salt salt))) entropy
  = match pbkdf2_sha256 password salt with
    | Some bits => Ok (PasswordSecurity.to_hex bits, PasswordSecurity.serialize_salt salt)
    | None => Throw PasswordSecurity.hashing_failed
    end.
Proof.
  intros Hne. unfold PasswordSecurity.hashPassword.
  assert (truthy_opt (Some (JStr (PasswordSecurity.serialize_salt salt))) = true)
    as -> by exact (serialize_salt_truthy _ Hne).
  simpl negb. cbv iota.
  rewrite (parse_serialize_salt _ Hne). reflexivity.
Qed.

(** The decoder reads back the bytes of a digest from its hexadecimal
    form, so that two digests with the same form are the same. *)
Lemma join_strings_empty_cons (x : string) (r : list string) :
  join_strings EmptyString (x :: r) = x +:+ join_strings EmptyString r.
Proof.
  destruct r as [|y r].
  - simpl. symmetry. apply app_empty_r.
  - rewrite join_strings_cons. reflexivity.
Qed.

Lemma of_hex_hex2 (b : Byte.byte) (rest : string) :
  Hex.of_hex (PasswordSecurity.hex2 b +:+ rest) = b :: Hex.of_hex rest.
Proof. destruct b; reflexivity. Qed.

Lemma of_hex_to_hex (bits : list Byte.byte) :
  Hex.of_hex (PasswordSecurity.to_hex bits) = bits.
Proof.
  unfold PasswordSecurity.to_hex. induction bits as [|b bits IH]; [reflexivity|].
  rewrite map_cons, join_strings_empty_cons, of_hex_hex2. by rewrite IH.
Qed.

(** C8. When [hashPassword(password)] produces [{hashedPassword, salt}],
    the salt string is the comma-separated decimal form of the sixteen
    random bytes and parses back to them, and [hashedPassword] reads, two
    hexadecimal digits a byte, as the PBKDF2 digest of the password under
    those bytes. [verifyPassword] accepts the same password with the
    produced pair, and it rejects every candidate whose PBKDF2 digest under
    that salt is another one than the digest that [hashedPassword] stands
    for (or cannot be computed): it accepts a candidate exactly when the
    two digests are the same. *)
Theorem hash_then_verify (password : string) (entropy : nat → Byte.byte)
    (hashedPassword salt : string) :
  PasswordSecurity.hashPassword password None entropy = Ok (hashedPassword, salt) →
  salt = PasswordSecurity.serialize_salt (PasswordSecurity.getRandomValues entropy 16)
  ∧ PasswordSecurity.parse_salt salt = PasswordSecurity.getRandomValues entropy 16
  ∧ pbkdf2_sha256 password (PasswordSecurity.getRandomValues entropy 16)
    = Some (Hex.of_hex hashedPassword)
  ∧ (∀ entropy',
       PasswordSecurity.verifyPassword password
         (Some (JStr hashedPassword)) (Some (JStr salt)) entropy' = true)
  ∧ (∀ candidate entropy',
       pbkdf2_sha256 candidate (PasswordSecurity.getRandomValues entropy 16)
       ≠ Some (Hex.of_hex hashedPassword) →
       PasswordSecurity.verifyPassword candidate
         (Some (JStr hashedPassword)) (Some (JStr salt)) entropy' = false)
  ∧ (∀ candidate entropy',
       pbkdf2_sha256 candidate (PasswordSecurity.getRandomValues entropy 16)
       = pbkdf2_sha256 password (PasswordSecurity.getRandomValues entropy 16) →
       PasswordSecurity.verifyPassword candidate
         (Some (JStr hashedPassword)) (Some (JStr salt)) entropy' = true).
Proof.
  intros Hhash.
  assert (PasswordSecurity.getRandomValues entropy 16 ≠ []) as Hne by discriminate.
  unfold PasswordSecurity.hashPassword in Hhash. simpl truthy_opt in Hhash.
  simpl negb in Hhash. cbv iota in Hhash.
  destruct (pbkdf2_sha256 password (PasswordSecurity.getRandomValues entropy 16))
    as [bits|] eqn:Hbits; [|discriminate].
  injection Hhash as <- <-.
  split; [reflexivity|]. split; [by apply parse_serialize_salt|].
  split; [by rewrite of_hex_to_hex|]. split; [|split].
  - intros entropy'. unfold PasswordSecurity.verifyPassword.
    rewrite (hashPassword_with_stored_salt _ _ _ Hne), Hbits.
    simpl. apply String.eqb_refl.
  - intros candidate entropy' Hdiff. unfold PasswordSecurity.verifyPassword.
    rewrite (hashPassword_with_stored_salt _ _ _ Hne).
    destruct (pbkdf2_sha256 candidate _) as [bits'|]; [|reflexivity].
    simpl. apply String.eqb_neq. intros Heq. apply Hdiff.
    by rewrite <- Heq, of_hex_to_hex.
  - intros candidate entropy' Hsame. unfold PasswordSecurity.verifyPassword.
    rewrite (hashPassword_with_stored_salt _ _ _ Hne), Hsame.
    simpl. apply String.eqb_refl.
Qed.

End Passwords.

Example sample_salt :
  @PasswordSecurity.serialize_salt
    (@PasswordSecurity.getRandomValues sample_entropy 16)
  = "200,237,18,55,92,129,166,203,240,21,58,95,132,169,206,243".
Proof. vm_compute. reflexivity. Qed.

Lemma hash_then_verify_witness :
  @PasswordSecurity.hashPassword Ref.platform "S3cure!pass" None sample_entropy
  = Ok ("8796a5b4c3d2e1f0ff0e1d2c3b4a5968778695a4b3c2d1e0effe0d1c2b3a4958",
        "200,237,18,55,92,129,166,203,240,21,58,95,132,169,206,243")
  ∧ @PasswordSecurity.verifyPassword Ref.platform "S3cure!pass"
      (Some (JStr "8796a5b4c3d2e1f0ff0e1d2c3b4a5968778695a4b3c2d1e0effe0d1c2b3a4958"))
      (Some (JStr "200,237,18,55,92,129,166,203,240,21,58,95,132,169,206,243"))
      (λ _, Byte.x00) = true
  ∧ @pbkdf2_sha256 Ref.platform "S3cure!pasS"
      (@PasswordSecurity.getRandomValues sample_entropy 16)
    ≠ Some (Hex.of_hex
              "8796a5b4c3d2e1f0ff0e1d2c3b4a5968778695a4b3c2d1e0effe0d1c2b3a4958")
  ∧ @PasswordSecurity.verifyPassword Ref.platform "S3cure!pasS"
      (Some (JStr "8796a5b4c3d2e1f0ff0e1d2c3b4a5968778695a4b3c2d1e0effe0d1c2b3a4958"))
      (Some (JStr "200,237,18,55,92,129,166,203,240,21,58,95,132,169,206,243"))
      (λ _, Byte.x00) = false.
Proof.
  assert (@PasswordSecurity.hashPassword Ref.platform "S3cure!pass" None sample_entropy
          = Ok ("8796a5b4c3d2e1f0ff0e1d2c3b4a5968778695a4b3c2d1e0effe0d1c2b3a4958",
                "200,237,18,55,92,129,166,203,240,21,58,95,132,169,206,243")) as Hhash.
  { vm_compute. reflexivity. }
  assert (@pbkdf2_sha256 Ref.platform "S3cure!pasS"
            (@PasswordSecurity.getRandomValues sample_entropy 16)
          ≠ Some (Hex.of_hex
               "8796a5b4c3d2e1f0ff0e1d2c3b4a5968778695a4b3c2d1e0effe0d1c2b3a4958"))
    as Hother.
  { vm_compute. discriminate. }
  destruct (@hash_then_verify Ref.platform "S3cure!pass" sample_entropy _ _ Hhash)
    as (_ & _ & _ & Haccept & Hreject & _).
  split; [exact Hhash|]. split; [apply Haccept|]. split; [exact Hother|].
  apply Hreject. exact Hother.
Defined.

(** ** AIService: the sourcing response *)

Section Sourcing.
Context `{Platform}.

(** C2, as amended. A response whose extracted text [JSON.parse] rejects, or
    reads as [null], raises no error: [parseSourcingResponse] returns the
    fallback strategy built from the location (one "Sample Company" entry,
    a Dice string, the fallback summary), and the [/api/sourcing] handler
    of the proxy answers with its own fallback. *)
Theorem parseSourcingResponse_falls_back (response location : string) :
  JSON_parse (AIService.extract_json response) = None
  ∨ JSON_parse (AIService.extract_json response) = Some JNull →
  AIService.parseSourcingResponse response location
    = Ok (AIService.fallback_strategy location)
  ∧ Server.sourcing_reply response location = Server.fallback_strategy location.
Proof.
  unfold AIService.parseSourcingResponse, AIService.parse_strategy,
    Server.sourcing_reply.
  intros [-> | ->]; split; reflexivity.
Qed.

End Sourcing.

Example extract_json_examples :
  AIService.extract_json (dq "  Here it is: {'summary': 'ok'} Enjoy! ")
    = dq "{'summary': 'ok'}"
  ∧ AIService.extract_json "  } no object { " = "} no object {"
  ∧ AIService.extract_json "I cannot help with that." = "I cannot help with that.".
Proof. repeat split; vm_compute; reflexivity. Qed.

Example parseSourcingResponse_recovers_object :
  @AIService.parseSourcingResponse Ref.platform
    (dq "Sure! {'companies': [{'name': 'Acme'}], 'diceSearch': 0} Done.") "Austin, TX"
  = Ok (JObj (<["companies" := JArr [JObj (<["name" := JStr "Acme"]> ∅)]]>
             (<["diceSearch" := JStr EmptyString]>
             (<["summary" := JStr "Sourcing strategy generated successfully."]> ∅)))).
Proof. vm_compute. reflexivity. Qed.

(** C2 as stated fails: for a response that holds no JSON at all, no error
    is raised and a fallback companies list, Dice string and summary are
    returned. *)
Lemma sourcing_parse_failure_is_recovered :
  ¬ (∀ response location : string,
       @JSON_parse Ref.platform (AIService.extract_json response) = None →
       ∃ e, @AIService.parseSourcingResponse Ref.platform response location = Throw e)
  ∧ @JSON_parse Ref.platform (AIService.extract_json "I cannot help with that.") = None
  ∧ @AIService.parseSourcingResponse Ref.platform "I cannot help with that." "Austin, TX"
    = Ok (JObj
        (<["companies" :=
             JArr [JObj (<["name" := JStr "Sample Company"]>
                        (<["linkedinSearch" :=
                             JStr (dq "site:linkedin.com/in/ 'Sample Company' AND 'software developer' AND 'Austin, TX'")]>
                        (<["reason" := JStr "Sample company with relevant talent"]> ∅)))]]>
        (<["diceSearch" := JStr (dq "'Austin, TX' AND 'software developer' AND 'full time'")]>
        (<["summary" :=
             JStr "Fallback sourcing strategy generated. Please check your AI settings."]> ∅)))).
Proof.
  split; [|split; vm_compute; reflexivity].
  intros Hclaim.
  destruct (Hclaim "I cannot help with that." "Austin, TX" eq_refl) as [e He].
  vm_compute in He. discriminate He.
Qed.

Lemma parseSourcingResponse_falls_back_witness :
  (@JSON_parse Ref.platform (AIService.extract_json "I cannot help with that.") = None
   ∨ @JSON_parse Ref.platform (AIService.extract_json "I cannot help with that.")
     = Some JNull)
  ∧ @AIService.parseSourcingResponse Ref.platform "I cannot help with that." "Remote"
    = Ok (AIService.fallback_strategy "Remote")
  ∧ @Server.sourcing_reply Ref.platform "I cannot help with that." "Remote"
    = Server.fallback_strategy "Remote".
Proof.
  split; [left; reflexivity|].
  apply (@parseSourcingResponse_falls_back Ref.platform). left. reflexivity.
Defined.

(** ** AIService: the request of [generateViaProxy] *)

Section GenerateViaProxy.
Context `{Platform}.

Lemma join_if_array_at (h : gmap nat (gmap string json)) (l : nat) (k : string)
    (o : gmap string json) :
  h !! l = Some o →
  AIService.join_if_array h l k !! l
  = Some (match o !! k with
          | Some (JArr xs) => <[k := JStr (join ", " xs)]> o
          | _ => o
          end).
Proof.
  intros Hl. unfold AIService.join_if_array, AIService.heap_get, AIService.heap_set.
  rewrite Hl. simpl.
  destruct (o !! k) as [[| | | |xs|]|]; try exact Hl.
  rewrite lookup_alter_eq, Hl. reflexivity.
Qed.



End GenerateViaProxy.

Example generateViaProxy_sample_request :
  (λ r, (AIService.body r.1.2, r.2)) <$>
    @AIService.generateViaProxy Ref.platform sample_heap 3 sample_browser sample_fetch
  = Some (dq "{'model':'gpt-4o-mini','answers':{'skills':'SQL, Python','role':'Data Analyst','benefits':'Flexible PTO','hireType':'Contract'}}",
          Ok (Some (JStr "Job Title: Data Analyst"))).
Proof. vm_compute. reflexivity. Qed.


(** ** Routing and the route guard *)

Section Routing.
Context `{Platform}.
Variable Element : Type.
Variable V : Router.ViewTable Element.

Local Abbreviation Home := (Router.Home Element V).
Local Abbreviation Login := (Router.Login Element V).
Local Abbreviation guard := (Router.guard Element V).
Local Abbreviation Router_view := (Router.Router_view Element V).
Local Abbreviation routes := (Router.routes Element V).

Lemma location_hash_not_inherited (b : Browser) :
  routes !! location_hash b = None →
  bool_decide (location_hash b ∈ Router.Object_prototype) = false.
Proof.
  unfold location_hash. destruct (fragment b) as [|c f] eqn:Hf.
  - intros Hnone. vm_compute in Hnone. discriminate.
  - intros _. apply bool_decide_eq_false. unfold Router.Object_prototype.
    rewrite app_cons, app_empty_l. intros Hin.
    repeat (apply elem_of_cons in Hin as [Hin|Hin]; [discriminate Hin|]).
    by apply elem_of_nil in Hin.
Qed.

(** C7. The view that [render] calls is found by looking the current hash
    up in the route table: [Views.Home] for the empty hash and for ["#/"],
    the registered view for each of the nine other routes (the guarded one
    for a workspace route), and [Views.Home] for every hash that the table
    does not hold. [render] calls that view once, in the state of the page
    as it is: the root element then holds the content that the view
    returned, or the error card with the message of what it threw, and the
    page is in the state in which the view left it; without a root element
    [render] does nothing. *)
Theorem router_is_a_lookup (b : Browser) :
  Router_view EmptyString = Home
  ∧ Router_view "#/" = Home
  ∧ Router_view "#/login" = Login
  ∧ Router_view "#/signup" = Router.Signup Element V
  ∧ Router_view "#/sales" = guard (Router.Sales Element V)
  ∧ Router_view "#/jd-builder" = guard (Router.JDBuilder Element V)
  ∧ Router_view "#/jd-builder/questions" = guard (Router.JDQuestions Element V)
  ∧ Router_view "#/jd-view" = guard (Router.JDView Element V)
  ∧ Router_view "#/sourcing" = guard (Router.Sourcing Element V)
  ∧ Router_view "#/recruitment" = guard (Router.Recruitment Element V)
  ∧ Router_view "#/settings" = guard (Router.Settings Element V)
  ∧ (routes !! location_hash b = None → Router_view (location_hash b) = Home)
  ∧ (∀ content b',
       Router_view (location_hash b) b = (Ok content, b') →
       Router.render Element V true b = (Router.Content Element content, b'))
  ∧ (∀ message b',
       Router_view (location_hash b) b = (Throw message, b') →
       Router.render Element V true b = (Router.ErrorPage Element message, b'))
  ∧ Router.render Element V false b = (Router.NoRoot Element, b).
Proof.
  repeat (split; [reflexivity|]).
  split; [|split; [|split; [|reflexivity]]].
  - intros Hnone. unfold Router.Router_view. rewrite Hnone.
    rewrite location_hash_not_inherited by exact Hnone. reflexivity.
  - intros content b' Hview. unfold Router.render, Router.shown.
    simpl negb. cbv iota zeta. by rewrite Hview.
  - intros message b' Hview. unfold Router.render, Router.shown.
    simpl negb. cbv iota zeta. by rewrite Hview.
Qed.


(** What "a current user is stored" amounts to along the life of the
    page: after [setCurrentUser] has stored a user object the guard lets
    the view through, after [clearCurrentUser] it sends to the login. *)
Lemma guard_passes_after_login (f : Views.ViewFn Element) (b : Browser)
    (user : gmap string json) :
  JSON_parse EmptyString = None →
  JSON_parse (JSON_stringify (JObj user)) = Some (JObj user) →
  admits (sessionStorage b)
    (<["currentUser" := JSON_stringify (JObj user)]> (items (sessionStorage b))) = true →
  Views.createRouteGuard Element Login f (StorageManager.setCurrentUser b (JObj user))
  = f (StorageManager.setCurrentUser b (JObj user)).
Proof.
  intros Hempty Hround Hadm. unfold Views.createRouteGuard.
  assert (StorageManager.getCurrentUser (StorageManager.setCurrentUser b (JObj user))
          = JObj user) as ->; [|reflexivity].
  unfold StorageManager.getCurrentUser, StorageManager.setCurrentUser. simpl.
  apply load_after_save; assumption.
Qed.

Lemma guard_blocks_after_logout (f : Views.ViewFn Element) (b : Browser) :
  JSON_parse "null" = Some JNull →
  Views.createRouteGuard Element Login f (StorageManager.clearCurrentUser b)
  = Login (redirected (StorageManager.clearCurrentUser b)).
Proof.
  intros Hnull. unfold Views.createRouteGuard.
  assert (StorageManager.getCurrentUser (StorageManager.clearCurrentUser b) = JNull)
    as ->; [|reflexivity].
  unfold StorageManager.getCurrentUser, StorageManager.clearCurrentUser,
    StorageManager.load, getItem, removeItem. simpl.
  rewrite lookup_delete_eq. simpl. rewrite Hnull. reflexivity.
Qed.

End Routing.

Example render_examples :
  (@Router.render Ref.platform string sample_views true (at_fragment "/signup" ∅)).1
    = Router.Content string "Signup"
  ∧ (@Router.render Ref.platform string sample_views true (at_fragment "/no/such/page" ∅)).1
    = Router.Content string "Home"
  ∧ (@Router.render Ref.platform string sample_views true (at_fragment "/sales" ∅)).1
    = Router.Content string "Login"
  ∧ (@Router.render Ref.platform string sample_views true
       (at_fragment "/sales" (<["currentUser" := dq "{'username':'ann'}"]> ∅))).1
    = Router.Content string "Sales"
  ∧ (@Router.render Ref.platform string sample_views false (at_fragment "/sales" ∅)).1
    = Router.NoRoot string.
Proof. repeat split; vm_compute; reflexivity. Qed.

Lemma router_is_a_lookup_witness :
  @Router.routes Ref.platform string sample_views
    !! location_hash (at_fragment "/no/such/page" ∅) = None
  ∧ @Router.Router_view Ref.platform string sample_views
      (location_hash (at_fragment "/no/such/page" ∅))
    = Router.Home string sample_views
  ∧ @Router.render Ref.platform string sample_views true (at_fragment "/no/such/page" ∅)
    = (Router.Content string "Home", at_fragment "/no/such/page" ∅)
  ∧ @Router.render Ref.platform string failing_views true (at_fragment "/signup" ∅)
    = (Router.ErrorPage string "Signup is broken", at_fragment "/signup" ∅).
Proof.
  destruct (@router_is_a_lookup Ref.platform string sample_views
              (at_fragment "/no/such/page" ∅))
    as (_ & _ & _ & _ & _ & _ & _ & _ & _ & _ & _ & Hhome & Hcontent & _).
  destruct (@router_is_a_lookup Ref.platform string failing_views
              (at_fragment "/signup" ∅))
    as (_ & _ & _ & _ & _ & _ & _ & _ & _ & _ & _ & _ & _ & Herror & _).
  split; [reflexivity|]. split; [apply Hhome; reflexivity|].
  split; [apply Hcontent; reflexivity|apply Herror; reflexivity].
Defined.


(** ** Signup, login and the users list *)

Section Users.
Context `{Platform}.

Lemma find_user_index (users : list json) (name : string) (o : gmap string json) :
  Views.find_user users name = Ok (Some o) →
  ∃ i s, Views.findIndex_user users name = Ok (Some i)
         ∧ users !! i = Some (JObj o)
         ∧ o !! "username" = Some (JStr s)
         ∧ toLowerCase s = name.
Proof.
  induction users as [|u rest IH]; simpl; [discriminate|].
  destruct u as [| | | | |o']; try discriminate. simpl.
  destruct (o' !! "username") as [[| | |s| |]|] eqn:Hname; try discriminate. simpl.
  destruct (String.eqb_spec (toLowerCase s) name) as [Heq|Hne].
  - intros [= <-]. exists 0, s. repeat split; assumption.
  - intros Hrest. destruct (IH Hrest) as (i & s' & Hi & Hlook & Hs' & Hlow).
    exists (S i), s'. rewrite Hi. repeat split; assumption.
Qed.

Lemma finish_login_localStorage (b : Browser) (user : gmap string json) (valid : bool) :
  localStorage (Views.finish_login b user valid) = localStorage b.
Proof. destruct valid; reflexivity. Qed.

(** The record that the upgrade writes in place of a legacy one. *)
Lemma upgraded_record (user : gmap string json) (h s : string) :
  let record :=
    delete "password"
      (<["salt" := JStr s]> (<["hashedPassword" := JStr h]> user)) in
  record !! "hashedPassword" = Some (JStr h)
  ∧ record !! "salt" = Some (JStr s)
  ∧ record !! "password" = None
  ∧ ∀ k, k ≠ "hashedPassword" → k ≠ "salt" → k ≠ "password" →
         record !! k = user !! k.
Proof.
  simpl. repeat split.
  - rewrite lookup_delete_ne, lookup_insert_ne, lookup_insert_eq by discriminate.
    reflexivity.
  - rewrite lookup_delete_ne, lookup_insert_eq by discriminate. reflexivity.
  - apply lookup_delete_eq.
  - intros k Hh Hs Hp.
    rewrite lookup_delete_ne, !lookup_insert_ne by congruence. reflexivity.
Qed.

Lemma signup_writes_hashed_record
    (validateSignup : Browser → Views.SignupFields → res (list string))
    (raw : Views.SignupFields) (now : string) (entropy : nat → Byte.byte)
    (b b' : Browser) :
  Views.Signup_handleSubmit validateSignup raw now entropy b = Ok b' →
  localStorage b' = localStorage b
  ∨ ∃ users fields h s,
      StorageManager.loadUsers b = JArr users
      ∧ PasswordSecurity.hashPassword (Views.password raw) None entropy = Ok (h, s)
      ∧ localStorage b'
        = StorageManager.save (localStorage b) "users"
            (JArr (users ++ [JObj (Views.newUser fields h s now)]))
      ∧ Views.newUser fields h s now !! "hashedPassword" = Some (JStr h)
      ∧ Views.newUser fields h s now !! "salt" = Some (JStr s)
      ∧ Views.newUser fields h s now !! "password" = None.
Proof.
  unfold Views.Signup_handleSubmit.
  destruct (validateSignup b _) as [[|e errors]|msg]; simpl; [| |discriminate].
  - unfold Views.Signup_attempt. simpl.
    destruct (PasswordSecurity.hashPassword (Views.password raw) None entropy)
      as [[h s]|msg] eqn:Hhash; simpl.
    + destruct (StorageManager.loadUsers b) as [| | | |users|] eqn:Husers; simpl;
        try (intros [= <-]; left; reflexivity).
      intros [= <-]. right. eexists users, _, h, s.
      repeat split; reflexivity.
    + intros [= <-]. left. reflexivity.
  - intros [= <-]. left. reflexivity.
Qed.

Lemma login_upgrades_legacy_record
    (username_input password : string) (entropy : nat → Byte.byte) (b : Browser)
    (users : list json) (user : gmap string json) (h s : string) :
  trim username_input ≠ EmptyString →
  StorageManager.loadUsers b = JArr users →
  Views.find_user users (toLowerCase (trim username_input)) = Ok (Some user) →
  truthy_opt (user !! "hashedPassword") && truthy_opt (user !! "salt") = false →
  user !! "password" = Some (JStr password) →
  password ≠ EmptyString →
  PasswordSecurity.hashPassword password None entropy = Ok (h, s) →
  ∃ i, users !! i = Some (JObj user)
    ∧ localStorage (Views.Login_handleSubmit username_input password entropy b)
      = StorageManager.save (localStorage b) "users"
          (JArr (<[i := JObj (delete "password"
                               (<["salt" := JStr s]>
                                  (<["hashedPassword" := JStr h]> user)))]> users)).
Proof.
  intros Hname Husers Hfind Hlegacy Hpw Hnonempty Hhash.
  destruct (find_user_index _ _ _ Hfind) as (i & s0 & Hidx & Hlook & Hun & Hlow).
  exists i. split; [exact Hlook|].
  unfold Views.Login_handleSubmit, Views.validateLogin.
  apply String.eqb_neq in Hname, Hnonempty. rewrite Hname, Hnonempty. simpl app.
  unfold Views.Login_attempt. rewrite Husers. simpl. rewrite Hfind. simpl.
  rewrite Hlegacy, Hpw. simpl truthy_opt. simpl truthy. rewrite Hnonempty. simpl.
  rewrite String.eqb_refl. rewrite finish_login_localStorage.
  unfold Views.upgrade_legacy. rewrite Hhash, Husers. simpl.
  rewrite lookup_delete_ne, !lookup_insert_ne, Hun by discriminate. simpl.
  rewrite Hlow, Hidx. simpl. reflexivity.
Qed.

(** C1, as amended. The record that a signup appends to the users list, and
    the record that a successful plain-text login puts in place of a legacy
    one when the hashing succeeds, hold [hashedPassword] and [salt] and no
    [password] property; the upgraded record keeps every other property of
    the legacy one. The other records of the list are written back as they
    were loaded, and nothing is said of what [createTestUser] writes. *)
Theorem signup_and_upgrade_store_hashes :
  (∀ validateSignup raw now entropy b b',
     Views.Signup_handleSubmit validateSignup raw now entropy b = Ok b' →
     localStorage b' = localStorage b
     ∨ ∃ users fields h s,
         StorageManager.loadUsers b = JArr users
         ∧ PasswordSecurity.hashPassword (Views.password raw) None entropy = Ok (h, s)
         ∧ localStorage b'
           = StorageManager.save (localStorage b) "users"
               (JArr (users ++ [JObj (Views.newUser fields h s now)]))
         ∧ Views.newUser fields h s now !! "hashedPassword" = Some (JStr h)
         ∧ Views.newUser fields h s now !! "salt" = Some (JStr s)
         ∧ Views.newUser fields h s now !! "password" = None)
  ∧ (∀ username_input password entropy b users user h s,
       trim username_input ≠ EmptyString →
       StorageManager.loadUsers b = JArr users →
       Views.find_user users (toLowerCase (trim username_input)) = Ok (Some user) →
       truthy_opt (user !! "hashedPassword") && truthy_opt (user !! "salt") = false →
       user !! "password" = Some (JStr password) →
       password ≠ EmptyString →
       PasswordSecurity.hashPassword password None entropy = Ok (h, s) →
       ∃ i record,
         users !! i = Some (JObj user)
         ∧ localStorage (Views.Login_handleSubmit username_input password entropy b)
           = StorageManager.save (localStorage b) "users"
               (JArr (<[i := JObj record]> users))
         ∧ record !! "hashedPassword" = Some (JStr h)
         ∧ record !! "salt" = Some (JStr s)
         ∧ record !! "password" = None
         ∧ ∀ k, k ≠ "hashedPassword" → k ≠ "salt" → k ≠ "password" →
                record !! k = user !! k).
Proof.
  split.
  - intros. eapply signup_writes_hashed_record. eassumption.
  - intros username_input password entropy b users user h s
      Hname Husers Hfind Hlegacy Hpw Hnonempty Hhash.
    destruct (login_upgrades_legacy_record _ _ _ _ _ _ _ _
                Hname Husers Hfind Hlegacy Hpw Hnonempty Hhash) as (i & Hlook & Hsave).
    destruct (upgraded_record user h s) as (Hh & Hs & Hp & Hrest).
    exists i, (delete "password"
                 (<["salt" := JStr s]> (<["hashedPassword" := JStr h]> user))).
    repeat split; assumption.
Qed.

End Users.

Example login_upgrade_example :
  let b' := @Views.Login_handleSubmit Ref.platform " ann " "pw" sample_entropy legacy_browser in
  @StorageManager.loadUsers Ref.platform b'
    = JArr [JObj (<["username" := JStr "Ann"]>
                 (<["first" := JStr "Ann"]>
                 (<["hashedPassword" :=
                      JStr "bb32a920970e85fc73ea61d84fc63db42ba21990077ef56ce35ad148bf36ad24"]>
                 (<["salt" :=
                      JStr "200,237,18,55,92,129,166,203,240,21,58,95,132,169,206,243"]> ∅))))]
  ∧ @StorageManager.getCurrentUser Ref.platform b'
    = JObj (<["username" := JStr "Ann"]> (<["first" := JStr "Ann"]> ∅))
  ∧ notifications b' = [("Welcome back, Ann!", "success")]
  ∧ location_hash b' = "#/".
Proof. vm_compute. repeat split; reflexivity. Qed.

(** With a key derivation that fails, the plain-text login still succeeds
    and the legacy record stays as it is. *)
Example login_without_crypto :
  let b' := @Views.Login_handleSubmit Ref.no_crypto "ann" "pw" sample_entropy legacy_browser in
  localStorage b' = localStorage legacy_browser
  ∧ notifications b' = [("Welcome back, Ann!", "success")].
Proof. vm_compute. repeat split; reflexivity. Qed.

(** The toast of a form that does not validate joins all the messages. *)
Example login_validation_examples :
  @Views.Login_handleSubmit Ref.platform "  " EmptyString sample_entropy legacy_browser
  = showNotification legacy_browser
      "Username is required.. Password is required." "error"
  ∧ @Views.Login_handleSubmit Ref.platform "ann" EmptyString sample_entropy legacy_browser
    = showNotification legacy_browser "Password is required." "error"
  ∧ @Views.Login_handleSubmit Ref.platform "  " "pw" sample_entropy legacy_browser
    = showNotification legacy_browser "Username is required." "error".
Proof. repeat split; vm_compute; reflexivity. Qed.

(** C1 as stated fails: the users list that [createTestUser] writes holds
    a record with a plain-text [password] and no [hashedPassword]. *)
Lemma createTestUser_persists_plain_text :
  ¬ (∀ (now : string) (b b' : Browser) (users : list json) (o : gmap string json),
       @Views.createTestUser Ref.platform now b = Ok b' →
       @StorageManager.loadUsers Ref.platform b' = JArr users →
       JObj o ∈ users →
       o !! "password" = None ∧ is_Some (o !! "hashedPassword"))
  ∧ @Views.createTestUser Ref.platform sample_now (at_fragment EmptyString ∅)
    = Ok (@StorageManager.saveUsers Ref.platform (at_fragment EmptyString ∅)
            (JArr [JObj (Views.testUser sample_now)]))
  ∧ @StorageManager.loadUsers Ref.platform
      (@StorageManager.saveUsers Ref.platform (at_fragment EmptyString ∅)
         (JArr [JObj (Views.testUser sample_now)]))
    = JArr [JObj (Views.testUser sample_now)]
  ∧ Views.testUser sample_now !! "password" = Some (JStr "password123")
  ∧ Views.testUser sample_now !! "hashedPassword" = None.
Proof.
  assert (@StorageManager.loadUsers Ref.platform
            (@StorageManager.saveUsers Ref.platform (at_fragment EmptyString ∅)
               (JArr [JObj (Views.testUser sample_now)]))
          = JArr [JObj (Views.testUser sample_now)]) as Hload
    by (vm_compute; reflexivity).
  split; [|split; [reflexivity|split; [exact Hload|split; reflexivity]]].
  intros Hclaim.
  destruct (Hclaim sample_now (at_fragment EmptyString ∅) _ _
              (Views.testUser sample_now) eq_refl Hload ltac:(repeat constructor))
    as [Hpw _].
  discriminate Hpw.
Qed.

Lemma signup_and_upgrade_store_hashes_witness :
  (∃ b', @Views.Signup_handleSubmit Ref.platform (λ _ _, Ok []) sample_fields
           sample_now sample_entropy legacy_browser = Ok b'
         ∧ (localStorage b' = localStorage legacy_browser
            ∨ ∃ users fields h s,
                @StorageManager.loadUsers Ref.platform legacy_browser = JArr users
                ∧ @PasswordSecurity.hashPassword Ref.platform "S3cure!pass" None
                    sample_entropy = Ok (h, s)
                ∧ localStorage b'
                  = @StorageManager.save Ref.platform (localStorage legacy_browser)
                      "users" (JArr (users ++ [JObj (Views.newUser fields h s sample_now)]))
                ∧ Views.newUser fields h s sample_now !! "hashedPassword" = Some (JStr h)
                ∧ Views.newUser fields h s sample_now !! "salt" = Some (JStr s)
                ∧ Views.newUser fields h s sample_now !! "password" = None))
  ∧ trim " ann " ≠ EmptyString
  ∧ @StorageManager.loadUsers Ref.platform legacy_browser = JArr [JObj legacy_user]
  ∧ @Views.find_user Ref.platform [JObj legacy_user]
      (@toLowerCase Ref.platform (trim " ann ")) = Ok (Some legacy_user)
  ∧ truthy_opt (legacy_user !! "hashedPassword") && truthy_opt (legacy_user !! "salt")
    = false
  ∧ legacy_user !! "password" = Some (JStr "pw")
  ∧ "pw" ≠ EmptyString
  ∧ ∃ h s i record,
      @PasswordSecurity.hashPassword Ref.platform "pw" None sample_entropy = Ok (h, s)
      ∧ [JObj legacy_user] !! i = Some (JObj legacy_user)
      ∧ localStorage (@Views.Login_handleSubmit Ref.platform " ann " "pw"
                        sample_entropy legacy_browser)
        = @StorageManager.save Ref.platform (localStorage legacy_browser) "users"
            (JArr (<[i := JObj record]> [JObj legacy_user]))
      ∧ record !! "hashedPassword" = Some (JStr h)
      ∧ record !! "salt" = Some (JStr s)
      ∧ record !! "password" = None.
Proof.
  destruct (@signup_and_upgrade_store_hashes Ref.platform) as [Hsignup Hlogin].
  split.
  { destruct (@Views.Signup_handleSubmit Ref.platform (λ _ _, Ok []) sample_fields
                sample_now sample_entropy legacy_browser) as [b'|msg] eqn:Hrun;
      [|vm_compute in Hrun; discriminate Hrun].
    exists b'. split; [reflexivity|].
    exact (Hsignup (λ _ _, Ok []) sample_fields sample_now sample_entropy
             legacy_browser b' Hrun). }
  assert (trim " ann " ≠ EmptyString) as H1 by discriminate.
  assert (@StorageManager.loadUsers Ref.platform legacy_browser = JArr [JObj legacy_user])
    as H2 by (vm_compute; reflexivity).
  assert (@Views.find_user Ref.platform [JObj legacy_user]
            (@toLowerCase Ref.platform (trim " ann ")) = Ok (Some legacy_user))
    as H3 by (vm_compute; reflexivity).
  assert ("pw" ≠ EmptyString) as H6 by discriminate.
  do 6 (split; [first [assumption|reflexivity]|]).
  destruct (@PasswordSecurity.hashPassword Ref.platform "pw" None sample_entropy)
    as [[h s]|msg] eqn:Hhash; [|vm_compute in Hhash; discriminate Hhash].
  destruct (Hlogin " ann " "pw" sample_entropy legacy_browser [JObj legacy_user]
              legacy_user h s H1 H2 H3 eq_refl eq_refl H6 Hhash)
    as (i & record & Hi & Hsave & Hh & Hs & Hp & _).
  exists h, s, i, record. repeat split; assumption.
Defined.

(* ====================================================================== *)
(** * Further properties of the code *)
(* ====================================================================== *)

(** ** Regular expressions: the matcher decides the language *)

Ltac invert H := inversion H; subst; clear H.

Lemma nullable_spec (r : Text.regex) : Text.nullable r = true ↔ Text.lang r [].
Proof.
  induction r as [| |p|r1 IH1 r2 IH2|r1 IH1 r2 IH2|r IH]; simpl.
  - split; [discriminate|intros H; inv H].
  - split; [constructor|reflexivity].
  - split; [discriminate|intros H; inv H].
  - rewrite andb_true_iff, IH1, IH2. split.
    + intros [H1 H2]. change (@nil N) with (@nil N ++ [])%list. by constructor.
    + intros H. invert H.
      match goal with Heq : (_ ++ _)%list = [] |- _ =>
        apply app_eq_nil in Heq as [-> ->] end.
      by split.
  - rewrite orb_true_iff, IH1, IH2. split.
    + intros [H1|H2]; [by apply Text.lang_alt_l|by apply Text.lang_alt_r].
    + intros H. invert H; [by left|by right].
  - split; [constructor|reflexivity].
Qed.

Lemma lang_star_head (r : Text.regex) (u : N) (s : list N) :
  Text.lang (Text.Star r) (u :: s) →
  ∃ s1 s2, s = (s1 ++ s2)%list ∧ Text.lang r (u :: s1) ∧ Text.lang (Text.Star r) s2.
Proof.
  intros H. remember (Text.Star r) as r' eqn:Hr. remember (u :: s) as w eqn:Hw.
  revert Hr Hw. induction H as [| | | | | |r0 s1 s2 H1 _ H2 IH2]; try discriminate.
  intros [= ->] Hw. destruct s1 as [|v s1].
  - simpl in Hw. by apply IH2.
  - simpl in Hw. injection Hw as -> <-. by exists s1, s2.
Qed.

Lemma lang_cat_head (r1 r2 : Text.regex) (u : N) (s : list N) :
  Text.lang (Text.Cat r1 r2) (u :: s) →
  (∃ s1 s2, s = (s1 ++ s2)%list ∧ Text.lang r1 (u :: s1) ∧ Text.lang r2 s2)
  ∨ (Text.lang r1 [] ∧ Text.lang r2 (u :: s)).
Proof.
  intros H. invert H.
  match goal with Heq : (?s1 ++ ?s2)%list = u :: s |- _ =>
    destruct s1 as [|v s1]; simpl in Heq end.
  - subst. by right.
  - match goal with Heq : _ :: _ = _ :: _ |- _ => injection Heq as -> <- end.
    left. eauto.
Qed.

Lemma deriv_spec (r : Text.regex) (u : N) (s : list N) :
  Text.lang (Text.deriv u r) s ↔ Text.lang r (u :: s).
Proof.
  revert s. induction r as [| |p|r1 IH1 r2 IH2|r1 IH1 r2 IH2|r IH]; intros s; simpl.
  - split; intros H; invert H.
  - split; intros H; invert H.
  - destruct (p u) eqn:Hp; split; intros H; invert H.
    + by constructor.
    + constructor.
    + congruence.
  - assert (Text.lang (Text.Cat (Text.deriv u r1) r2) s →
            Text.lang (Text.Cat r1 r2) (u :: s)) as Hfwd.
    { intros H. invert H.
      match goal with H1 : Text.lang (Text.deriv u r1) ?s1 |- _ =>
        apply IH1 in H1; change (u :: s1 ++ ?s2)%list with ((u :: s1) ++ s2)%list end.
      by constructor. }
    destruct (Text.nullable r1) eqn:Hn.
    + split.
      * intros H. invert H; [by apply Hfwd|].
        change (u :: s) with ([] ++ u :: s)%list. constructor; [by apply nullable_spec|].
        by apply IH2.
      * intros H. destruct (lang_cat_head _ _ _ _ H) as [(s1 & s2 & -> & H1 & H2)|[_ H2]].
        -- apply Text.lang_alt_l. constructor; [by apply IH1|exact H2].
        -- apply Text.lang_alt_r. by apply IH2.
    + split; [exact Hfwd|].
      intros H. destruct (lang_cat_head _ _ _ _ H) as [(s1 & s2 & -> & H1 & H2)|[H1 _]].
      * constructor; [by apply IH1|exact H2].
      * apply nullable_spec in H1. congruence.
  - split; intros H; invert H;
      first [apply Text.lang_alt_l; by apply IH1 | apply Text.lang_alt_r; by apply IH2].
  - split.
    + intros H. invert H.
      match goal with H1 : Text.lang (Text.deriv u r) ?s1 |- _ =>
        apply IH in H1; change (u :: s1 ++ ?s2)%list with ((u :: s1) ++ s2)%list end.
      by constructor.
    + intros H. destruct (lang_star_head _ _ _ H) as (s1 & s2 & -> & H1 & H2).
      constructor; [by apply IH|exact H2].
Qed.

Lemma matches_spec (r : Text.regex) (s : list N) :
  Text.matches r s = true ↔ Text.lang r s.
Proof.
  revert r. induction s as [|u s IH]; intros r; simpl.
  - apply nullable_spec.
  - rewrite IH. apply deriv_spec.
Qed.

Lemma lang_star_class (p : N → bool) (s : list N) :
  Text.lang (Text.Star (Text.Class p)) s ↔ Forall (λ u, p u = true) s.
Proof.
  split.
  - intros H. remember (Text.Star (Text.Class p)) as r eqn:Hr.
    induction H as [| | | | | |r0 s1 s2 H1 _ H2 IH2]; try discriminate.
    + constructor.
    + injection Hr as ->. invert H1. constructor; [assumption|by apply IH2].
  - induction 1 as [|u s Hu _ IH]; [constructor|].
    change (u :: s) with ([u] ++ s)%list. constructor; [by constructor|exact IH].
Qed.

Lemma lang_plus_class (p : N → bool) (s : list N) :
  Text.lang (Text.Plus (Text.Class p)) s ↔ s ≠ [] ∧ Forall (λ u, p u = true) s.
Proof.
  unfold Text.Plus. split.
  - intros H. invert H.
    match goal with H1 : Text.lang (Text.Class p) _ |- _ => invert H1 end.
    match goal with H2 : Text.lang (Text.Star _) _ |- _ => apply lang_star_class in H2 end.
    split; [discriminate|by constructor].
  - intros [Hne Hall]. destruct s as [|u s]; [contradiction|].
    invert Hall. change (u :: s) with ([u] ++ s)%list.
    constructor; [by constructor|by apply lang_star_class].
Qed.

Lemma lang_class_eq (c : N) (s : list N) :
  Text.lang (Text.Class (N.eqb c)) s ↔ s = [c].
Proof.
  split.
  - intros H. invert H.
    match goal with Hc : (_ =? _)%N = true |- _ => apply N.eqb_eq in Hc as -> end.
    reflexivity.
  - intros ->. constructor. apply N.eqb_refl.
Qed.

(** [search] of a class is the test that some code unit is in it. *)
Lemma search_class (p : N → bool) (s : list N) :
  Text.search (Text.Class p) s = existsb p s.
Proof.
  apply eq_true_iff_eq. unfold Text.search. rewrite matches_spec, existsb_exists.
  split.
  - intros H. invert H.
    match goal with H2 : Text.lang (Text.Cat (Text.Class p) _) _ |- _ => invert H2 end.
    match goal with H3 : Text.lang (Text.Class p) _ |- _ => invert H3 end.
    eexists. split; [|eassumption]. apply in_or_app. right. by left.
  - intros (u & Hin & Hu). apply in_split in Hin as (s1 & s2 & ->).
    constructor.
    + apply lang_star_class. apply Forall_forall. reflexivity.
    + change (u :: s2) with ([u] ++ s2)%list. constructor; [by constructor|].
      apply lang_star_class. apply Forall_forall. reflexivity.
Qed.

(** ** The strength of a password *)

Section Strength.
Context `{Platform}.

Lemma strength_label_weak (s : Z) :
  PasswordStrength.strength_label s = "Weak" ↔ (s < 30)%Z.
Proof.
  unfold PasswordStrength.strength_label.
  destruct (Z.ltb_spec s 30); [split; [lia|reflexivity]|].
  destruct (Z.ltb_spec s 60); [split; [discriminate|lia]|].
  destruct (Z.ltb_spec s 80); split; first [discriminate|lia].
Qed.

Lemma strength_label_strong (s : Z) :
  PasswordStrength.strength_label s = "Strong" ↔ (80 ≤ s)%Z.
Proof.
  unfold PasswordStrength.strength_label.
  destruct (Z.ltb_spec s 30); [split; [discriminate|lia]|].
  destruct (Z.ltb_spec s 60); [split; [discriminate|lia]|].
  destruct (Z.ltb_spec s 80); split; first [discriminate|lia|reflexivity].
Qed.

(** X1. A password that [validatePasswordStrength] accepts has a strength
    between 40 and 85, so the signup form never labels it "Weak". *)
Theorem accepted_password_is_not_weak (password : string) :
  PasswordStrength.isValid (PasswordStrength.validatePasswordStrength password) = true →
  ∃ s, PasswordStrength.strength (PasswordStrength.validatePasswordStrength password)
       = Some s
       ∧ (40 ≤ s ≤ 85)%Z
       ∧ PasswordStrength.strength_label s ≠ "Weak".
Proof.
  unfold PasswordStrength.validatePasswordStrength.
  destruct password as [|c password]; [discriminate|].
  set (pw := String c password). simpl.
  intros Hvalid. eexists. split; [reflexivity|].
  assert (PasswordStrength.password_errors pw = []) as Herr.
  { destruct (PasswordStrength.password_errors pw); [reflexivity|discriminate]. }
  unfold PasswordStrength.password_errors in Herr.
  repeat match goal with
  | H : (_ ++ _)%list = [] |- _ => apply app_eq_nil in H as [? ?]
  end.
  assert ((40 ≤ PasswordStrength.calculatePasswordStrength pw ≤ 85)%Z) as Hrange.
  { unfold PasswordStrength.calculatePasswordStrength.
    destruct (Nat.ltb_spec (Text.js_length pw) 8); [discriminate|].
    destruct (PasswordStrength.has_lower pw); [|discriminate].
    destruct (PasswordStrength.has_upper pw); [|discriminate].
    destruct (PasswordStrength.has_digit pw); [|discriminate].
    destruct (PasswordStrength.has_special pw); [|discriminate].
    destruct (Nat.leb_spec 8 (Text.js_length pw)); [|lia].
    destruct (Nat.leb_spec 12 (Text.js_length pw)),
      (Nat.leb_spec 16 (Text.js_length pw)),
      (PasswordStrength.has_repeat pw), (PasswordStrength.has_sequence pw); lia. }
  split; [exact Hrange|]. rewrite strength_label_weak. lia.
Qed.

(** X2. The strength is at most 85, and the label is "Strong" exactly for
    a password of at least 16 code units with a lowercase letter, an
    uppercase letter, a digit and a special character, no character three
    times in a row and none of the sequences 123, abc, qwe. *)
Theorem strong_password_characterised (password : string) :
  (0 ≤ PasswordStrength.calculatePasswordStrength password ≤ 85)%Z
  ∧ (PasswordStrength.strength_label
       (PasswordStrength.calculatePasswordStrength password) = "Strong"
     ↔ (16 ≤ Text.js_length password)%nat
       ∧ PasswordStrength.has_lower password = true
       ∧ PasswordStrength.has_upper password = true
       ∧ PasswordStrength.has_digit password = true
       ∧ PasswordStrength.has_special password = true
       ∧ PasswordStrength.has_repeat password = false
       ∧ PasswordStrength.has_sequence password = false).
Proof.
  rewrite strength_label_strong.
  unfold PasswordStrength.calculatePasswordStrength.
  destruct (Nat.leb_spec 8 (Text.js_length password)),
    (Nat.leb_spec 12 (Text.js_length password)),
    (Nat.leb_spec 16 (Text.js_length password)),
    (PasswordStrength.has_lower password), (PasswordStrength.has_upper password),
    (PasswordStrength.has_digit password), (PasswordStrength.has_special password),
    (PasswordStrength.has_repeat password), (PasswordStrength.has_sequence password);
    (split; [lia|]); (split; [intros; first [lia|repeat split; first [reflexivity|lia]]
                          |intros (? & ? & ? & ? & ? & ? & ?); first [lia|discriminate]]).
Qed.

End Strength.

Lemma accepted_password_is_not_weak_witness :
  PasswordStrength.isValid
    (@PasswordStrength.validatePasswordStrength Ref.platform "S3cure!pass") = true
  ∧ ∃ s, PasswordStrength.strength
           (@PasswordStrength.validatePasswordStrength Ref.platform "S3cure!pass") = Some s
         ∧ (40 ≤ s ≤ 85)%Z.
Proof.
  split; [vm_compute; reflexivity|].
  destruct (@accepted_password_is_not_weak Ref.platform "S3cure!pass"
              ltac:(vm_compute; reflexivity)) as (s & Hs & Hrange & _).
  exists s. split; assumption.
Defined.

Example strength_examples :
  PasswordStrength.calculatePasswordStrength "S3cure!pass" = 65%Z
  ∧ PasswordStrength.calculatePasswordStrength "Abc123!!!Abc123!!!" = 60%Z
  ∧ PasswordStrength.calculatePasswordStrength "Tr0ub4dor&Horse-Battery" = 85%Z
  ∧ PasswordStrength.calculatePasswordStrength "aaa" = 0%Z
  ∧ PasswordStrength.errors
      (@PasswordStrength.validatePasswordStrength Ref.platform "PASSWORD")
    = [ "Password must contain at least one lowercase letter";
        "Password must contain at least one number";
        "Password must contain at least one special character";
        "Password is too common. Please choose a stronger password" ].
Proof. repeat split; vm_compute; reflexivity. Qed.

Lemma list_ascii_of_app (a b : string) :
  list_ascii_of_string (a +:+ b)
  = (list_ascii_of_string a ++ list_ascii_of_string b)%list.
Proof.
  induction a as [|c a IH]; [reflexivity|].
  rewrite app_cons. simpl. by rewrite IH.
Qed.

Lemma picked_characters (bytes : list Byte.byte) :
  let password :=
    join_strings EmptyString
      (map (λ byte,
              match PasswordStrength.charAt
                      (N.to_nat (Byte.to_N byte) mod String.length PasswordStrength.charset)
              with
              | Some c => String c EmptyString
              | None => EmptyString
              end) bytes) in
  List.length (list_ascii_of_string password) = List.length bytes
  ∧ Forall (λ c, c ∈ list_ascii_of_string PasswordStrength.charset)
      (list_ascii_of_string password).
Proof.
  induction bytes as [|b bytes [IHlen IHall]]; [split; [reflexivity|constructor]|].
  cbv zeta in *. rewrite map_cons, join_strings_empty_cons, list_ascii_of_app.
  destruct (PasswordStrength.charAt
              (N.to_nat (Byte.to_N b) mod String.length PasswordStrength.charset))
    as [c|] eqn:Hc.
  - change (list_ascii_of_string (String c EmptyString)) with [c].
    split; [rewrite length_app, IHlen; reflexivity|].
    apply Forall_app. split; [|exact IHall]. constructor; [|constructor].
    unfold PasswordStrength.charAt in Hc. by apply list_elem_of_lookup_2 in Hc.
  - exfalso. unfold PasswordStrength.charAt in Hc. apply lookup_ge_None in Hc.
    pose proof (Nat.mod_upper_bound (N.to_nat (Byte.to_N b))
                  (String.length PasswordStrength.charset) ltac:(discriminate)) as Hlt.
    change (List.length (list_ascii_of_string PasswordStrength.charset))
      with (String.length PasswordStrength.charset) in Hc.
    lia.
Qed.

(** X3. For a length of at most 65536, [generateSecurePassword] returns
    exactly [length] characters, each one of the 70 characters of the
    charset: the index [byte % 70] is never past the end, whatever the
    random bytes. For a greater length it throws, [crypto.getRandomValues]
    filling no more than 65536 bytes in one call. *)
Theorem generateSecurePassword_charset (entropy : nat → Byte.byte) (length : nat) :
  ((N.of_nat length ≤ 65536)%N →
   ∃ password,
     PasswordStrength.generateSecurePassword entropy length = Ok password
     ∧ List.length (list_ascii_of_string password) = length
     ∧ Forall (λ c, c ∈ list_ascii_of_string PasswordStrength.charset)
         (list_ascii_of_string password))
  ∧ ((65536 < N.of_nat length)%N →
     ∃ message, PasswordStrength.generateSecurePassword entropy length = Throw message).
Proof.
  unfold PasswordStrength.generateSecurePassword, PasswordSecurity.fill_random.
  split; intros Hlength.
  - destruct (N.ltb_spec 65536 (N.of_nat length)) as [Hover|_]; [lia|].
    eexists. split; [reflexivity|].
    destruct (picked_characters (PasswordSecurity.getRandomValues entropy length))
      as [Hlen Hall].
    split; [|exact Hall].
    rewrite Hlen. unfold PasswordSecurity.getRandomValues.
    by rewrite length_map, length_seq.
  - destruct (N.ltb_spec 65536 (N.of_nat length)) as [_|Hwithin]; [|lia].
    eexists. reflexivity.
Qed.

Lemma generateSecurePassword_charset_witness :
  (∃ password,
     PasswordStrength.generateSecurePassword sample_entropy 16 = Ok password
     ∧ List.length (list_ascii_of_string password) = 16)
  ∧ (∃ message,
       PasswordStrength.generateSecurePassword sample_entropy (N.to_nat 65537)
       = Throw message).
Proof.
  split.
  - destruct (proj1 (generateSecurePassword_charset sample_entropy 16))
      as (password & Hpassword & Hlength & _); [vm_compute; discriminate|].
    by exists password.
  - apply (proj2 (generateSecurePassword_charset sample_entropy (N.to_nat 65537))).
    rewrite N2Nat.id. reflexivity.
Defined.

(** The generator does not enforce the policy of the validator. *)
Example generated_password_may_be_rejected :
  PasswordStrength.generateSecurePassword (λ _, Byte.x00) 16 = Ok "AAAAAAAAAAAAAAAA"
  ∧ PasswordStrength.isValid
      (@PasswordStrength.validatePasswordStrength Ref.platform "AAAAAAAAAAAAAAAA")
    = false.
Proof. split; vm_compute; reflexivity. Qed.

(** ** StringUtils *)

(** X4. [truncate] returns at most [maxLength + 3] code units, keeps the
    first [maxLength] code units of the text, leaves a text of at most
    [maxLength] code units as it is, and truncating twice is truncating
    once. *)
Theorem truncate_bounded_idempotent (text : list N) (maxLength : nat) :
  (length (StringUtils.truncate text maxLength) ≤ maxLength + 3)%nat
  ∧ take maxLength (StringUtils.truncate text maxLength) = take maxLength text
  ∧ ((length text ≤ maxLength)%nat → StringUtils.truncate text maxLength = text)
  ∧ StringUtils.truncate (StringUtils.truncate text maxLength) maxLength
    = StringUtils.truncate text maxLength.
Proof.
  unfold StringUtils.truncate.
  destruct (Nat.ltb_spec maxLength (length text)) as [Hlt|Hge].
  - assert (length (take maxLength text) = maxLength) as Htake
      by (rewrite length_take; lia).
    assert (length (take maxLength text ++ bytes_of_string "...") = maxLength + 3)
      as Hlen by (rewrite length_app, Htake; reflexivity).
    split; [lia|]. split.
    { rewrite take_app_le by lia. rewrite take_take. f_equal. lia. }
    split; [lia|].
    rewrite Hlen. destruct (Nat.ltb_spec maxLength (maxLength + 3)); [|lia].
    rewrite take_app_le by lia. rewrite take_take. do 2 f_equal. lia.
  - split; [lia|]. split; [reflexivity|]. split; [reflexivity|].
    destruct (Nat.ltb_spec maxLength (length text)); [lia|reflexivity].
Qed.

Lemma truncate_bounded_idempotent_witness :
  (length (Text.code_units "Analyst") ≤ 500)%nat
  ∧ StringUtils.truncate (Text.code_units "Analyst") StringUtils.MAX_PREVIEW_LENGTH
    = Text.code_units "Analyst"
  ∧ string_of_bytes (StringUtils.truncate (Text.code_units "Senior Analyst") 6)
    = "Senior...".
Proof.
  assert ((length (Text.code_units "Analyst") ≤ 500)%nat) as Hlen
    by (vm_compute; repeat constructor).
  split; [exact Hlen|]. split; [|reflexivity].
  exact (proj1 (proj2 (proj2
    (truncate_bounded_idempotent (Text.code_units "Analyst") 500))) Hlen).
Defined.

Lemma collapse_no_space (in_run : bool) (text : list N) :
  Forall (λ u, Text.is_space u = false) (StringUtils.collapse in_run text).
Proof.
  revert in_run. induction text as [|u text IH]; intros in_run; simpl; [constructor|].
  destruct (Text.is_space u) eqn:Hu.
  - destruct in_run; [apply IH|]. constructor; [reflexivity|apply IH].
  - constructor; [exact Hu|apply IH].
Qed.

Lemma collapse_without_space (in_run : bool) (text : list N) :
  Forall (λ u, Text.is_space u = false) text →
  StringUtils.collapse in_run text = text.
Proof.
  intros Hall. revert in_run. induction Hall as [|u text Hu _ IH]; intros in_run;
    simpl; [reflexivity|].
  rewrite Hu. f_equal. apply IH.
Qed.

Lemma collapse_length (in_run : bool) (text : list N) :
  (length (StringUtils.collapse in_run text) ≤ length text)%nat.
Proof.
  revert in_run. induction text as [|u text IH]; intros in_run; simpl; [lia|].
  pose proof (IH true). pose proof (IH false).
  destruct (Text.is_space u); [destruct in_run|]; simpl; lia.
Qed.

(** X5. The text that [toFilename] returns holds no white space and is not
    longer than the given one; a text without white space is returned as
    it is, and so is a text that [toFilename] has returned. *)
Theorem toFilename_no_white_space (text : list N) :
  Forall (λ u, Text.is_space u = false) (StringUtils.toFilename text)
  ∧ (length (StringUtils.toFilename text) ≤ length text)%nat
  ∧ (Forall (λ u, Text.is_space u = false) text ↔ StringUtils.toFilename text = text)
  ∧ StringUtils.toFilename (StringUtils.toFilename text) = StringUtils.toFilename text.
Proof.
  unfold StringUtils.toFilename.
  split; [apply collapse_no_space|]. split; [apply collapse_length|]. split.
  - split; [apply collapse_without_space|].
    intros <-. apply collapse_no_space.
  - apply collapse_without_space, collapse_no_space.
Qed.

Example toFilename_example :
  string_of_bytes (StringUtils.toFilename (Text.code_units "Senior  Data   Analyst "))
  = "Senior-Data-Analyst-".
Proof. vm_compute. reflexivity. Qed.

(** ** ValidationUtils: the e-mail test *)

Lemma address_units_hold_no_at (l : list N) :
  Forall (λ u, ValidationUtils.address_unit u = true) l →
  count_occ N.eq_dec l 64%N = 0 ∧ Forall (λ u, Text.is_space u = false) l.
Proof.
  induction 1 as [|u l Hu _ [IHc IHs]]; [split; [reflexivity|constructor]|].
  unfold ValidationUtils.address_unit in Hu.
  apply andb_true_iff in Hu as [Hs Hat].
  apply negb_true_iff in Hs, Hat. apply N.eqb_neq in Hat.
  split; [|by constructor].
  rewrite count_occ_cons_neq by exact Hat. exact IHc.
Qed.

(** X6. [isValidEmail] accepts exactly the texts of the form
    [local @ before . after] where the three parts are not empty and hold
    neither white space nor "@" (the last two may hold further dots). So
    an accepted address has exactly one "@" and no white space. *)
Theorem isValidEmail_shape (email : string) :
  (ValidationUtils.isValidEmail email = true ↔
   ∃ local before after : list N,
     Text.code_units email = (local ++ 64%N :: before ++ 46%N :: after)%list
     ∧ local ≠ [] ∧ before ≠ [] ∧ after ≠ []
     ∧ Forall (λ u, ValidationUtils.address_unit u = true) (local ++ before ++ after))
  ∧ (ValidationUtils.isValidEmail email = true →
     count_occ N.eq_dec (Text.code_units email) 64%N = 1
     ∧ Forall (λ u, Text.is_space u = false) (Text.code_units email)).
Proof.
  assert (ValidationUtils.isValidEmail email = true ↔
   ∃ local before after : list N,
     Text.code_units email = (local ++ 64%N :: before ++ 46%N :: after)%list
     ∧ local ≠ [] ∧ before ≠ [] ∧ after ≠ []
     ∧ Forall (λ u, ValidationUtils.address_unit u = true) (local ++ before ++ after))
    as Hshape.
  { unfold ValidationUtils.isValidEmail, ValidationUtils.emailRegex.
    rewrite matches_spec. split.
    - intros H. invert H.
      repeat match goal with
      | H : Text.lang (Text.Cat _ _) _ |- _ => invert H
      | H : Text.lang (Text.Plus _) _ |- _ => apply lang_plus_class in H as [? ?]
      | H : Text.lang (Text.Class (N.eqb _)) _ |- _ => apply lang_class_eq in H as ->
      end.
      match goal with
      | |- ∃ _ _ _, (?l ++ [_] ++ ?b ++ [_] ++ ?a)%list = _ ∧ _ =>
          exists l, b, a
      end.
      split; [reflexivity|]. repeat split; try assumption.
      repeat (apply Forall_app; split); assumption.
    - intros (local & before & after & -> & Hl & Hb & Ha & Hall).
      apply Forall_app in Hall as [Hall1 Hall]. apply Forall_app in Hall as [Hall2 Hall3].
      constructor; [by apply lang_plus_class|].
      change (64%N :: before ++ 46%N :: after)%list
        with ([64%N] ++ before ++ [46%N] ++ after)%list.
      constructor; [by apply lang_class_eq|].
      constructor; [by apply lang_plus_class|].
      constructor; [by apply lang_class_eq|by apply lang_plus_class]. }
  split; [exact Hshape|].
  intros Hvalid. apply Hshape in Hvalid
    as (local & before & after & -> & _ & _ & _ & Hall).
  apply Forall_app in Hall as [Hall1 Hall]. apply Forall_app in Hall as [Hall2 Hall3].
  destruct (address_units_hold_no_at _ Hall1) as [Hc1 Hs1].
  destruct (address_units_hold_no_at _ Hall2) as [Hc2 Hs2].
  destruct (address_units_hold_no_at _ Hall3) as [Hc3 Hs3].
  split.
  - rewrite count_occ_app, Hc1. simpl.
    rewrite count_occ_app, Hc2. simpl. rewrite Hc3. reflexivity.
  - apply Forall_app. split; [exact Hs1|]. constructor; [reflexivity|].
    apply Forall_app. split; [exact Hs2|]. constructor; [reflexivity|exact Hs3].
Qed.

Example isValidEmail_examples :
  ValidationUtils.isValidEmail "bea@example.com" = true
  ∧ ValidationUtils.isValidEmail "bea@localhost" = false
  ∧ ValidationUtils.isValidEmail "bea@.com" = false
  ∧ ValidationUtils.isValidEmail "bea@example." = false
  ∧ ValidationUtils.isValidEmail "bea stone@example.com" = false
  ∧ ValidationUtils.isValidEmail "a@b@c.d" = false
  ∧ ValidationUtils.isValidEmail "a@b..c" = true
  ∧ ValidationUtils.isValidEmail EmptyString = false.
Proof. repeat split; vm_compute; reflexivity. Qed.

Lemma isValidEmail_shape_witness :
  ValidationUtils.isValidEmail "bea@example.com" = true
  ∧ count_occ N.eq_dec (Text.code_units "bea@example.com") 64%N = 1.
Proof.
  split; [reflexivity|].
  exact (proj1 (proj2 (isValidEmail_shape "bea@example.com") eq_refl)).
Defined.

(** ** Signup: what the validation lets through *)

Section SignupValidation.
Context `{Platform}.

Lemma some_user_false (field : string) (users : list json) (v : string) :
  ValidationUtils.some_user field users v = Ok false ↔ none_has field users v.
Proof.
  unfold none_has. induction users as [|u users IH]; simpl.
  - split; [constructor|reflexivity].
  - destruct u as [| | | | |o];
      try (split; [discriminate|intros Hall; invert Hall;
                   match goal with Hx : ∃ _ _, _ |- _ =>
                     destruct Hx as (? & ? & ? & _); discriminate end]).
    destruct (o !! field) as [[| | |s| |]|] eqn:Hf;
      try (split; [discriminate|intros Hall; invert Hall;
                   match goal with Hx : ∃ _ _, _ |- _ =>
                     destruct Hx as (? & ? & [= <-] & Hs & _); congruence end]).
    destruct (String.eqb_spec (toLowerCase s) v) as [Heq|Hne].
    + split; [discriminate|]. intros Hall. invert Hall.
      match goal with Hx : ∃ _ _, _ |- _ =>
        destruct Hx as (? & ? & [= <-] & Hs & Hneq) end.
      congruence.
    + rewrite IH. split.
      * intros Hall. constructor; [by exists o, s|exact Hall].
      * intros Hall. by invert Hall.
Qed.

Lemma set_error_not_nil (k msg : string) (errors : list (string * string)) :
  ValidationUtils.set_error k msg errors ≠ [].
Proof.
  destruct errors as [|[k' m] rest]; simpl; [discriminate|].
  destruct (String.eqb k' k); discriminate.
Qed.

Lemma nonempty_true (s : string) :
  ValidationUtils.nonempty s = true ↔ s ≠ EmptyString.
Proof. unfold ValidationUtils.nonempty. by rewrite negb_true_iff, String.eqb_neq. Qed.

(** The validation runs its tests one after the other; an empty [errors]
    object at the end tells the outcome of each of them. *)
Ltac head_scrutinee t :=
  lazymatch t with
  | (if ?c then _ else _) => head_scrutinee c
  | (match ?c with Ok _ => _ | Throw _ => _ end) => head_scrutinee c
  | negb ?c => head_scrutinee c
  | ?c => c
  end.

Ltac errors_step H :=
  cbn [negb] in H;
  lazymatch type of H with
  | ?x = ?x => fail
  | Ok _ = Ok _ => injection H as H
  | Throw _ = Ok _ => discriminate H
  | ValidationUtils.set_error _ _ _ = _ => by apply set_error_not_nil in H
  | (_ :: _)%list = _ => discriminate H
  | ?lhs = _ => let c := head_scrutinee lhs in destruct c eqn:?
  end.

Lemma validateSignup_accepts (b : Browser) (fields : Views.SignupFields)
    (users : list json) :
  StorageManager.loadUsers b = JArr users →
  ValidationUtils.validateSignup_errors b fields = Ok [] →
  Views.first fields ≠ EmptyString ∧ Views.last fields ≠ EmptyString
  ∧ Views.username fields ≠ EmptyString
  ∧ ValidationUtils.isValidEmail (Views.email fields) = true
  ∧ PasswordStrength.isValid
      (PasswordStrength.validatePasswordStrength (Views.password fields)) = true
  ∧ none_has "username" users (toLowerCase (Views.username fields))
  ∧ none_has "email" users (toLowerCase (Views.email fields)).
Proof.
  intros Husers Hok. unfold ValidationUtils.validateSignup_errors in Hok.
  rewrite Husers in Hok. cbv zeta in Hok. simpl Views.as_array in Hok.
  unfold mbind, res_bind in Hok.
  rewrite <- !some_user_false.
  repeat errors_step Hok.
  repeat match goal with
  | Hc : ValidationUtils.nonempty _ = true |- _ => apply nonempty_true in Hc
  end.
  repeat split; assumption.
Qed.

(** X7. Whatever the form holds, the signup handler stores a record only
    when the trimmed first name, last name and username are not empty, the
    e-mail has the accepted shape, the password passes
    [validatePasswordStrength], and no stored user has the same username or
    the same e-mail ignoring case; the list written is then the stored list
    followed by the new record. In every other case [localStorage] is left
    as it was. *)
Theorem signup_stores_only_validated_unique
    (raw : Views.SignupFields) (now : string) (entropy : nat → Byte.byte)
    (b b' : Browser) :
  Views.Signup_handleSubmit ValidationUtils.validateSignup raw now entropy b = Ok b' →
  localStorage b' = localStorage b
  ∨ ∃ users h s,
      StorageManager.loadUsers b = JArr users
      ∧ localStorage b'
        = StorageManager.save (localStorage b) "users"
            (JArr (users ++ [JObj (Views.newUser (trimmed raw) h s now)]))
      ∧ trim (Views.first raw) ≠ EmptyString ∧ trim (Views.last raw) ≠ EmptyString
      ∧ trim (Views.username raw) ≠ EmptyString
      ∧ ValidationUtils.isValidEmail (trim (Views.email raw)) = true
      ∧ PasswordStrength.isValid
          (PasswordStrength.validatePasswordStrength (Views.password raw)) = true
      ∧ none_has "username" users (toLowerCase (trim (Views.username raw)))
      ∧ none_has "email" users (toLowerCase (trim (Views.email raw))).
Proof.
  unfold Views.Signup_handleSubmit, ValidationUtils.validateSignup.
  fold (trimmed raw).
  destruct (ValidationUtils.validateSignup_errors b (trimmed raw))
    as [[|e errors]|msg] eqn:Hval; simpl; [| |discriminate].
  - unfold Views.Signup_attempt.
    destruct (PasswordSecurity.hashPassword _ None entropy) as [[h s]|msg];
      simpl; [|intros [= <-]; by left].
    destruct (StorageManager.loadUsers b) as [| | | |users|] eqn:Husers; simpl;
      try (intros [= <-]; by left).
    intros [= <-]. right. exists users, h, s.
    split; [reflexivity|]. split; [reflexivity|].
    exact (validateSignup_accepts b (trimmed raw) users Husers Hval).
  - intros [= <-]. by left.
Qed.

End SignupValidation.

Lemma signup_stores_only_validated_unique_witness :
  ∃ b',
    @Views.Signup_handleSubmit Ref.platform (@ValidationUtils.validateSignup Ref.platform)
      sample_fields sample_now sample_entropy registered_browser = Ok b'
    ∧ (localStorage b' = localStorage registered_browser
       ∨ ∃ users h s,
           @StorageManager.loadUsers Ref.platform registered_browser = JArr users
           ∧ localStorage b'
             = @StorageManager.save Ref.platform (localStorage registered_browser) "users"
                 (JArr (users ++ [JObj (Views.newUser (trimmed sample_fields) h s
                                          sample_now)]))
           ∧ @none_has Ref.platform "username" users "bea").
Proof.
  destruct (@Views.Signup_handleSubmit Ref.platform
              (@ValidationUtils.validateSignup Ref.platform)
              sample_fields sample_now sample_entropy registered_browser)
    as [b'|msg] eqn:Hrun; [|vm_compute in Hrun; discriminate Hrun].
  exists b'. split; [reflexivity|].
  destruct (@signup_stores_only_validated_unique Ref.platform sample_fields sample_now
              sample_entropy registered_browser b' Hrun)
    as [Hsame|(users & h & s & Hload & Hsave & _ & _ & _ & _ & _ & Hname & _)].
  - by left.
  - right. exists users, h, s. repeat split; assumption.
Defined.

(** ** Signup followed by login *)

Section SignupThenLogin.
Context `{Platform}.

Lemma find_user_skips (users rest : list json) (name : string) :
  none_has "username" users name →
  Views.find_user (users ++ rest) name = Views.find_user rest name.
Proof.
  unfold none_has. induction 1 as [|u users (o & s & -> & Hs & Hne) _ IH]; [reflexivity|].
  simpl. rewrite Hs. simpl.
  destruct (String.eqb_spec (toLowerCase s) name); [contradiction|exact IH].
Qed.

Lemma hashPassword_fresh (password : string) (entropy : nat → Byte.byte)
    (h s : string) :
  PasswordSecurity.hashPassword password None entropy = Ok (h, s) →
  ∃ bits,
    pbkdf2_sha256 password (PasswordSecurity.getRandomValues entropy 16) = Some bits
    ∧ h = PasswordSecurity.to_hex bits
    ∧ s = PasswordSecurity.serialize_salt (PasswordSecurity.getRandomValues entropy 16).
Proof.
  unfold PasswordSecurity.hashPassword. simpl.
  destruct (pbkdf2_sha256 password _) as [bits|]; [|discriminate].
  intros [= <- <-]. by exists bits.
Qed.

(** X8. When the signup handler accepts the form (the validation reports
    nothing, the hashing yields a non-empty digest, [localStorage] takes the
    write and [JSON.parse] reads back the list written), the users list
    becomes the stored list followed by the new record, and a login
    afterwards with the same username, in any letter case and with white
    space around it, and the same password succeeds: the session holds the
    username, first name, last name and e-mail of the new record, the
    greeting uses the first name and the hash becomes ["#/"]. A login with
    a password whose PBKDF2 digest under the stored salt is another one
    than that of the password given at signup is refused and changes
    nothing but the toast: "Password is required." for the empty password,
    "Invalid username or password." for any other. *)
Theorem signup_then_login
    (raw : Views.SignupFields) (now : string) (entropy : nat → Byte.byte)
    (b : Browser) (users : list json) (h s : string) :
  let fields := trimmed raw in
  let record := Views.newUser fields h s now in
  let stored := JArr (users ++ [JObj record]) in
  JSON_parse EmptyString = None →
  StorageManager.loadUsers b = JArr users →
  ValidationUtils.validateSignup_errors b fields = Ok [] →
  PasswordSecurity.hashPassword (Views.password raw) None entropy = Ok (h, s) →
  h ≠ EmptyString →
  JSON_parse (JSON_stringify stored) = Some stored →
  admits (localStorage b)
    (<["users" := JSON_stringify stored]> (items (localStorage b))) = true →
  ∃ b1,
    Views.Signup_handleSubmit ValidationUtils.validateSignup raw now entropy b = Ok b1
    ∧ StorageManager.loadUsers b1 = stored
    ∧ (∀ username_input entropy',
         trim username_input ≠ EmptyString →
         toLowerCase (trim username_input) = toLowerCase (Views.username fields) →
         let b2 := Views.Login_handleSubmit username_input (Views.password raw)
                     entropy' b1 in
         sessionStorage b2
         = StorageManager.save (sessionStorage b1) "currentUser"
             (JObj (<["username" := JStr (Views.username fields)]>
                   (<["first" := JStr (Views.first fields)]>
                   (<["last" := JStr (Views.last fields)]>
                   (<["email" := JStr (Views.email fields)]> ∅)))))
         ∧ notifications b2
           = (notifications b1
              ++ [("Welcome back, " +:+ Views.first fields +:+ "!", "success")])%list
         ∧ location_hash b2 = "#/"
         ∧ localStorage b2 = localStorage b1)
    ∧ (∀ username_input candidate entropy',
         trim username_input ≠ EmptyString →
         toLowerCase (trim username_input) = toLowerCase (Views.username fields) →
         pbkdf2_sha256 candidate (PasswordSecurity.getRandomValues entropy 16)
         ≠ pbkdf2_sha256 (Views.password raw)
             (PasswordSecurity.getRandomValues entropy 16) →
         Views.Login_handleSubmit username_input candidate entropy' b1
         = showNotification b1
             (if String.eqb candidate EmptyString then "Password is required."
              else "Invalid username or password.") "error").
Proof.
  intros fields record stored Hempty Husers Hval Hhash Hh Hround Hadm.
  destruct (validateSignup_accepts b fields users Husers Hval)
    as (Hfirst & _ & Huser & _ & Hpwvalid & Hnames & _).
  assert (Views.password raw ≠ EmptyString) as Hpw.
  { intros Heq. change (Views.password fields) with (Views.password raw) in Hpwvalid.
    rewrite Heq in Hpwvalid. discriminate Hpwvalid. }
  destruct (hashPassword_fresh _ _ _ _ Hhash) as (bits & Hbits & -> & ->).
  assert (PasswordSecurity.getRandomValues entropy 16 ≠ []) as Hsalt by discriminate.
  set (salt := PasswordSecurity.getRandomValues entropy 16) in *.
  set (b0 := StorageManager.saveUsers b stored).
  set (b1 := set_location_hash
               (showNotification b0
                  "Account created successfully! You can now login." "success")
               "#/login").
  assert (Views.Signup_handleSubmit ValidationUtils.validateSignup raw now entropy b
          = Ok b1) as Hsignup.
  { unfold Views.Signup_handleSubmit, ValidationUtils.validateSignup.
    fold (trimmed raw). fold fields. rewrite Hval. simpl.
    unfold Views.Signup_attempt.
    change (Views.password fields) with (Views.password raw).
    rewrite Hhash, Husers. reflexivity. }
  assert (StorageManager.loadUsers b1 = stored) as Hload.
  { unfold StorageManager.loadUsers. simpl.
    apply load_after_save; assumption. }
  assert (∀ name, name = toLowerCase (Views.username fields) →
            Views.find_user (users ++ [JObj record]) name = Ok (Some record)) as Hfind.
  { intros name ->. rewrite find_user_skips by exact Hnames.
    unfold Views.find_user, Views.username_lower.
    change (record !! "username") with (Some (JStr (Views.username fields))).
    simpl. rewrite String.eqb_refl. reflexivity. }
  assert (truthy_opt (record !! "hashedPassword") && truthy_opt (record !! "salt") = true)
    as Hsecure.
  { change (record !! "hashedPassword") with (Some (JStr (PasswordSecurity.to_hex bits))).
    change (record !! "salt") with (Some (JStr (PasswordSecurity.serialize_salt salt))).
    apply andb_true_iff. split.
    - simpl. apply negb_true_iff, String.eqb_neq, Hh.
    - exact (serialize_salt_truthy _ Hsalt). }
  exists b1. split; [exact Hsignup|]. split; [exact Hload|]. split.
  - intros username_input entropy' Hin Hlow.
    unfold Views.Login_handleSubmit, Views.validateLogin.
    apply String.eqb_neq in Hin, Hpw. rewrite Hin, Hpw. simpl app.
    unfold Views.Login_attempt. rewrite Hload. simpl.
    rewrite (Hfind _ Hlow). simpl. rewrite Hsecure.
    change (record !! "hashedPassword") with (Some (JStr (PasswordSecurity.to_hex bits))).
    change (record !! "salt") with (Some (JStr (PasswordSecurity.serialize_salt salt))).
    unfold PasswordSecurity.verifyPassword.
    rewrite (hashPassword_with_stored_salt _ _ _ Hsalt), Hbits.
    simpl strict_eq_string. rewrite String.eqb_refl.
    unfold Views.finish_login. simpl negb. cbv iota.
    assert (truthy_opt (record !! "first") = true) as ->.
    { change (record !! "first") with (Some (JStr (Views.first fields))).
      simpl. apply negb_true_iff, String.eqb_neq, Hfirst. }
    repeat split.
  - intros username_input candidate entropy' Hin Hlow Hdiff.
    change (PasswordSecurity.getRandomValues entropy 16) with salt in Hdiff.
    rewrite Hbits in Hdiff.
    unfold Views.Login_handleSubmit, Views.validateLogin.
    apply String.eqb_neq in Hin. rewrite Hin.
    destruct (String.eqb_spec candidate EmptyString) as [->|Hcand]; [reflexivity|].
    simpl app.
    unfold Views.Login_attempt. rewrite Hload. simpl.
    rewrite (Hfind _ Hlow). simpl. rewrite Hsecure.
    change (record !! "hashedPassword") with (Some (JStr (PasswordSecurity.to_hex bits))).
    change (record !! "salt") with (Some (JStr (PasswordSecurity.serialize_salt salt))).
    unfold PasswordSecurity.verifyPassword.
    rewrite (hashPassword_with_stored_salt _ _ _ Hsalt).
    destruct (pbkdf2_sha256 candidate salt) as [bits'|]; [|reflexivity].
    simpl strict_eq_string.
    destruct (String.eqb_spec (PasswordSecurity.to_hex bits')
                (PasswordSecurity.to_hex bits)) as [Heq|_]; [|reflexivity].
    exfalso. apply Hdiff. f_equal.
    rewrite <- (of_hex_to_hex bits'), Heq. apply of_hex_to_hex.
Qed.

End SignupThenLogin.

Lemma signup_then_login_witness :
  ∃ b1,
    @Views.Signup_handleSubmit Ref.platform (@ValidationUtils.validateSignup Ref.platform)
      sample_fields sample_now sample_entropy registered_browser = Ok b1
    ∧ sessionStorage
        (@Views.Login_handleSubmit Ref.platform " BEA " "S3cure!pass" sample_entropy b1)
      = @StorageManager.save Ref.platform (sessionStorage b1) "currentUser"
          (JObj (<["username" := JStr "bea"]> (<["first" := JStr "Bea"]>
                (<["last" := JStr "Stone"]> (<["email" := JStr "bea@example.com"]> ∅)))))
    ∧ location_hash
        (@Views.Login_handleSubmit Ref.platform " BEA " "S3cure!pass" sample_entropy b1)
      = "#/"
    ∧ @Views.Login_handleSubmit Ref.platform " BEA " "S3cure!pasS" sample_entropy b1
      = showNotification b1 "Invalid username or password." "error"
    ∧ @Views.Login_handleSubmit Ref.platform " BEA " EmptyString sample_entropy b1
      = showNotification b1 "Password is required." "error".
Proof.
  destruct (@signup_then_login Ref.platform sample_fields sample_now sample_entropy
              registered_browser [JObj registered_user]
              "8796a5b4c3d2e1f0ff0e1d2c3b4a5968778695a4b3c2d1e0effe0d1c2b3a4958"
              "200,237,18,55,92,129,166,203,240,21,58,95,132,169,206,243")
    as (b1 & Hsignup & _ & Hlogin & Hrefused).
  - reflexivity.
  - vm_compute. reflexivity.
  - vm_compute. reflexivity.
  - vm_compute. reflexivity.
  - discriminate.
  - vm_compute. reflexivity.
  - reflexivity.
  - exists b1. split; [exact Hsignup|].
    destruct (Hlogin " BEA " sample_entropy) as (Hsession & _ & Hhash & _).
    + vm_compute. discriminate.
    + vm_compute. reflexivity.
    + split; [exact Hsession|]. split; [exact Hhash|]. split.
      * apply (Hrefused " BEA " "S3cure!pasS" sample_entropy).
        -- vm_compute. discriminate.
        -- vm_compute. reflexivity.
        -- vm_compute. discriminate.
      * apply (Hrefused " BEA " EmptyString sample_entropy).
        -- vm_compute. discriminate.
        -- vm_compute. reflexivity.
        -- vm_compute. discriminate.
Defined.

(** ** Login: what reaches the session *)

Section LoginSession.
Context `{Platform}.

Lemma pick_only (keys : list string) (o : gmap string json) (k : string) :
  k ∉ keys → Views.pick keys o !! k = None.
Proof.
  induction keys as [|k' keys IH]; intros Hk; simpl; [apply lookup_empty|].
  apply not_elem_of_cons in Hk as [Hne Hk].
  destruct (o !! k'); [rewrite lookup_insert_ne by congruence|]; by apply IH.
Qed.

Lemma pick_agrees (keys : list string) (o : gmap string json) (k : string) :
  k ∈ keys → Views.pick keys o !! k = o !! k.
Proof.
  induction keys as [|k' keys IH]; intros Hk; [by apply elem_of_nil in Hk|].
  simpl. destruct (decide (k' = k)) as [->|Hne].
  - destruct (o !! k) eqn:Hok; [by rewrite lookup_insert_eq|].
    destruct (decide (k ∈ keys)) as [Hin|Hout]; [by rewrite IH|by apply pick_only].
  - apply elem_of_cons in Hk as [->|Hk]; [contradiction|].
    destruct (o !! k'); [rewrite lookup_insert_ne by exact Hne|]; by apply IH.
Qed.

Lemma upgrade_legacy_sessionStorage (b : Browser) (user : gmap string json)
    (password : string) (entropy : nat → Byte.byte) :
  sessionStorage (Views.upgrade_legacy b user password entropy) = sessionStorage b.
Proof.
  unfold Views.upgrade_legacy.
  match goal with |- sessionStorage (match ?a with _ => _ end) = _ =>
    destruct a as [b'|msg] eqn:Hattempt end; [|reflexivity].
  unfold mbind, res_bind in Hattempt.
  repeat case_match; simplify_eq; reflexivity.
Qed.

Lemma strict_eq_string_true (s : string) (v : option json) :
  strict_eq_string s v = true ↔ v = Some (JStr s).
Proof.
  unfold strict_eq_string. destruct v as [[| | |t| |]|]; try (split; congruence).
  destruct (String.eqb_spec s t) as [->|Hne]; split; congruence.
Qed.

(** X9. For every input, the login handler either leaves [sessionStorage]
    as it was or has found a user with the given username (ignoring case)
    whose password check passed: [verifyPassword] on the stored hash and
    salt, or equality with the stored plain-text password of a legacy
    record. What it then stores as current user holds the username, first
    name, last name and e-mail of that record and nothing else: no
    password, hash or salt reaches the session. *)
Theorem login_session_only_after_check
    (username_input password : string) (entropy : nat → Byte.byte) (b : Browser) :
  let b' := Views.Login_handleSubmit username_input password entropy b in
  sessionStorage b' = sessionStorage b
  ∨ ∃ users user,
      StorageManager.loadUsers b = JArr users
      ∧ Views.find_user users (toLowerCase (trim username_input)) = Ok (Some user)
      ∧ (PasswordSecurity.verifyPassword password
           (user !! "hashedPassword") (user !! "salt") entropy = true
         ∨ (user !! "password" = Some (JStr password) ∧ password ≠ EmptyString))
      ∧ sessionStorage b'
        = StorageManager.save (sessionStorage b) "currentUser"
            (JObj (Views.pick ["username"; "first"; "last"; "email"] user))
      ∧ (∀ k, Views.pick ["username"; "first"; "last"; "email"] user !! k
              = if bool_decide (k ∈ ["username"; "first"; "last"; "email"])
                then user !! k else None).
Proof.
  intros b'. subst b'. unfold Views.Login_handleSubmit.
  destruct (Views.validateLogin (trim username_input) password); [|by left].
  unfold Views.Login_attempt.
  destruct (StorageManager.loadUsers b) as [| | | |users|] eqn:Husers; simpl;
    try by left.
  destruct (Views.find_user users _) as [[user|]|] eqn:Hfind; simpl; try by left.
  assert (∀ k, Views.pick ["username"; "first"; "last"; "email"] user !! k
              = if bool_decide (k ∈ ["username"; "first"; "last"; "email"])
                then user !! k else None) as Hpick.
  { intros k. case_bool_decide; [by apply pick_agrees|by apply pick_only]. }
  destruct (truthy_opt (user !! "hashedPassword") && truthy_opt (user !! "salt")).
  - destruct (PasswordSecurity.verifyPassword password _ _ entropy) eqn:Hverify;
      [|by left].
    right. exists users, user. repeat split; try assumption. by left.
  - destruct (truthy_opt (user !! "password")) eqn:Hlegacy; [|by left].
    destruct (strict_eq_string password (user !! "password")) eqn:Heq; [|by left].
    right. exists users, user. apply strict_eq_string_true in Heq.
    split; [reflexivity|]. split; [exact Hfind|]. split.
    { right. split; [exact Heq|]. intros ->. rewrite Heq in Hlegacy. discriminate. }
    split; [|exact Hpick].
    simpl. by rewrite upgrade_legacy_sessionStorage.
Qed.

End LoginSession.

(* ====================================================================== *)
(** * Further properties: session, settings, server *)
(* ====================================================================== *)

(** ** Logout *)

Section Logout.
Context `{Platform}.
Variable Element : Type.
Variable V : Router.ViewTable Element.

Lemma getCurrentUser_absent (b : Browser) :
  JSON_parse "null" = Some JNull →
  getItem (sessionStorage b) "currentUser" = None →
  StorageManager.getCurrentUser b = JNull.
Proof.
  intros Hnull Habsent.
  unfold StorageManager.getCurrentUser, StorageManager.load, StorageManager.CURRENT_USER.
  rewrite Habsent. simpl. by rewrite Hnull.
Qed.

(** X10. After [logout] no current user is stored, whatever the session
    held before: the header shows the links of a guest, the hash is ["#/"],
    so that the router shows the home view, [localStorage] is as it was, and
    going to any of the seven workspace routes afterwards shows the login
    view with the hash set to ["#/login"]. *)
Theorem logout_ends_session (b : Browser) :
  JSON_parse "null" = Some JNull →
  let nav := (NavigationManager.logout b).1 in
  let b' := (NavigationManager.logout b).2 in
  nav = NavigationManager.GuestNav
  ∧ StorageManager.getCurrentUser b' = JNull
  ∧ getItem (sessionStorage b') "currentUser" = None
  ∧ location_hash b' = "#/"
  ∧ localStorage b' = localStorage b
  ∧ notifications b' = (notifications b ++ [("Logged out successfully!", "success")])%list
  ∧ Router.render Element V true b'
    = Router.shown Element (Router.Home Element V) b'
  ∧ (∀ hash,
       hash ∈ [ "#/sales"; "#/jd-builder"; "#/jd-builder/questions";
                "#/jd-view"; "#/sourcing"; "#/recruitment"; "#/settings" ] →
       let b'' := set_location_hash b' hash in
       Router.render Element V true b''
       = Router.shown Element (Router.Login Element V) (redirected b'')
       ∧ location_hash (redirected b'') = "#/login").
Proof.
  intros Hnull nav b'. subst nav b'. unfold NavigationManager.logout. simpl.
  assert (∀ b0, sessionStorage b0 = removeItem (sessionStorage b) "currentUser" →
                StorageManager.getCurrentUser b0 = JNull) as Hcleared.
  { intros b0 Hb0. apply (getCurrentUser_absent _ Hnull).
    rewrite Hb0. unfold getItem, removeItem. simpl. apply lookup_delete_eq. }
  split.
  { unfold NavigationManager.updateHeaderAuth. by rewrite Hcleared. }
  split; [by apply Hcleared|].
  split; [unfold getItem, removeItem; simpl; apply lookup_delete_eq|].
  do 4 (split; [reflexivity|]).
  intros hash Hin. split; [|reflexivity].
  set (b' := set_location_hash _ "#/").
  assert (∃ g, Router.Router_view Element V hash = Router.guard Element V g
               ∧ location_hash (set_location_hash b' hash) = hash) as (g & Hg & Hhash).
  { repeat (apply elem_of_cons in Hin as [-> | Hin]; [eexists; split; reflexivity|]).
    by apply elem_of_nil in Hin. }
  unfold Router.render. simpl negb. cbv iota. rewrite Hhash, Hg.
  unfold Router.shown, Router.guard, Views.createRouteGuard. cbv beta.
  rewrite Hcleared by reflexivity. reflexivity.
Qed.

End Logout.

Lemma logout_ends_session_witness :
  @JSON_parse Ref.platform "null" = Some JNull
  ∧ (@NavigationManager.logout Ref.platform
       (at_fragment "/sales" (<["currentUser" := dq "{'username':'ann'}"]> ∅))).1
    = NavigationManager.GuestNav
  ∧ @NavigationManager.updateHeaderAuth Ref.platform
      (at_fragment "/sales" (<["currentUser" := dq "{'username':'ann'}"]> ∅))
    = NavigationManager.UserNav "ann".
Proof.
  split; [reflexivity|]. split; [|vm_compute; reflexivity].
  apply (@logout_ends_session Ref.platform string sample_views
           (at_fragment "/sales" (<["currentUser" := dq "{'username':'ann'}"]> ∅))).
  reflexivity.
Defined.

(** ** The proxy base URL *)

Section ProxyBase.
Context `{Platform}.

Lemma or_string_default (a : option string) (d : string) :
  d ≠ EmptyString → or_string a d ≠ EmptyString.
Proof.
  intros Hd. unfold or_string. destruct a as [s|]; [|exact Hd].
  destruct (String.eqb_spec s EmptyString); assumption.
Qed.

(** X11. [getProxyBase] never returns the empty string: a missing or
    empty item reads as the default URL. [setProxyBase] either throws the
    refusal of the storage or stores the given URL (the default one for an
    empty or missing argument): [getProxyBase] then returns it, and every
    other item of [localStorage], like the session, is as before. *)
Theorem proxy_base_round_trip (b : Browser) (baseUrl : option string) :
  StorageManager.getProxyBase b ≠ EmptyString
  ∧ match ProxySettings.setProxyBase b baseUrl with
    | Ok b' =>
        StorageManager.getProxyBase b'
        = or_string baseUrl StorageManager.DEFAULT_PROXY_BASE
        ∧ (∀ k, k ≠ "proxy_base" →
                getItem (localStorage b') k = getItem (localStorage b) k)
        ∧ sessionStorage b' = sessionStorage b
    | Throw msg =>
        msg = "QuotaExceededError"
        ∧ admits (localStorage b)
            (<["proxy_base" := or_string baseUrl StorageManager.DEFAULT_PROXY_BASE]>
               (items (localStorage b))) = false
    end.
Proof.
  split; [by apply or_string_default|].
  unfold ProxySettings.setProxyBase, setItem, StorageManager.PROXY_BASE.
  destruct (admits (localStorage b) _) eqn:Hadm; simpl; [|by split].
  split.
  { unfold StorageManager.getProxyBase, getItem, StorageManager.PROXY_BASE. simpl.
    rewrite lookup_insert_eq. unfold or_string at 1.
    destruct (String.eqb_spec (or_string baseUrl StorageManager.DEFAULT_PROXY_BASE)
                EmptyString) as [Hempty|]; [|reflexivity].
    by apply or_string_default in Hempty. }
  split; [|reflexivity].
  intros k Hk. unfold getItem. simpl. by rewrite lookup_insert_ne.
Qed.

End ProxyBase.

Example proxy_base_examples :
  StorageManager.getProxyBase sample_browser = "http://localhost:8787"
  ∧ (b' ← ProxySettings.setProxyBase sample_browser (Some "https://proxy.example.com");
     Ok (StorageManager.getProxyBase b'))
    = Ok "https://proxy.example.com"
  ∧ (b' ← ProxySettings.setProxyBase sample_browser (Some EmptyString);
     Ok (StorageManager.getProxyBase b'))
    = Ok "http://localhost:8787"
  ∧ ProxySettings.setProxyBase full_browser (Some "https://proxy.example.com")
    = Throw "QuotaExceededError".
Proof. repeat split; reflexivity. Qed.

(** ** The password policy *)

Section PasswordPolicy.
Context `{Platform}.

Lemma common_passwords_hold_no_special (p : string) :
  existsb (String.eqb p) PasswordStrength.commonPasswords = true →
  PasswordStrength.has_special p = false.
Proof.
  intros Hin. apply existsb_exists in Hin as (c & Hc & Heq).
  apply String.eqb_eq in Heq as ->.
  repeat (destruct Hc as [<-|Hc]; [vm_compute; reflexivity|]). destruct Hc.
Qed.

(** X12. For a [toLowerCase] that keeps the special characters of the
    password, [validatePasswordStrength] accepts exactly the passwords of 8
    to 128 code units that hold a lowercase letter, an uppercase letter, a
    digit and a special character: the test against the list of common
    passwords rejects nothing that the other tests accept, since none of
    the listed passwords holds a special character. *)
Theorem validatePasswordStrength_policy (password : string) :
  (PasswordStrength.has_special password = true →
   PasswordStrength.has_special (toLowerCase password) = true) →
  PasswordStrength.isValid (PasswordStrength.validatePasswordStrength password)
  = (8 <=? Text.js_length password)%nat && (Text.js_length password <=? 128)%nat
    && PasswordStrength.has_lower password && PasswordStrength.has_upper password
    && PasswordStrength.has_digit password && PasswordStrength.has_special password.
Proof.
  intros Hkeeps. unfold PasswordStrength.validatePasswordStrength.
  destruct password as [|c password]; [reflexivity|].
  set (pw := String c password) in *. cbv beta iota zeta.
  unfold PasswordStrength.isValid, PasswordStrength.password_errors.
  rewrite !Nat.ltb_antisym.
  destruct (existsb (String.eqb (toLowerCase pw)) PasswordStrength.commonPasswords)
    eqn:Hcommon.
  - apply common_passwords_hold_no_special in Hcommon.
    destruct (PasswordStrength.has_special pw) eqn:Hspecial.
    + rewrite Hkeeps in Hcommon by reflexivity. discriminate.
    + destruct (8 <=? Text.js_length pw)%nat, (Text.js_length pw <=? 128)%nat,
        (PasswordStrength.has_lower pw), (PasswordStrength.has_upper pw),
        (PasswordStrength.has_digit pw); reflexivity.
  - destruct (8 <=? Text.js_length pw)%nat, (Text.js_length pw <=? 128)%nat,
      (PasswordStrength.has_lower pw), (PasswordStrength.has_upper pw),
      (PasswordStrength.has_digit pw), (PasswordStrength.has_special pw); reflexivity.
Qed.

End PasswordPolicy.

Lemma validatePasswordStrength_policy_witness :
  PasswordStrength.isValid
    (@PasswordStrength.validatePasswordStrength Ref.platform "S3cure!pass") = true
  ∧ PasswordStrength.isValid
      (@PasswordStrength.validatePasswordStrength Ref.platform "Password123") = false.
Proof.
  split.
  - rewrite (@validatePasswordStrength_policy Ref.platform "S3cure!pass");
      [reflexivity|]. intros _. vm_compute. reflexivity.
  - rewrite (@validatePasswordStrength_policy Ref.platform "Password123");
      [reflexivity|]. intros Hspecial. vm_compute in Hspecial. discriminate Hspecial.
Defined.

(** ** Verifying a password *)

Section Verify.
Context `{Platform}.

Lemma to_hex_digits (bits : list Byte.byte) :
  String.length (PasswordSecurity.to_hex bits) = 2 * length bits
  ∧ Forall (λ c, Hex.is_hex_digit c = true)
      (list_ascii_of_string (PasswordSecurity.to_hex bits)).
Proof.
  unfold PasswordSecurity.to_hex. induction bits as [|b bits [IHlen IHall]];
    [split; [reflexivity|constructor]|].
  rewrite map_cons, join_strings_empty_cons.
  assert (∃ c1 c2, PasswordSecurity.hex2 b = String c1 (String c2 EmptyString)
                   ∧ Hex.is_hex_digit c1 = true ∧ Hex.is_hex_digit c2 = true)
    as (c1 & c2 & -> & H1 & H2).
  { destruct b; eexists _, _; repeat split. }
  rewrite !app_cons, app_empty_l. simpl. split; [rewrite IHlen; lia|].
  by repeat constructor.
Qed.

(** X13. When the stored salt is truthy, [verifyPassword] accepts a
    password only if the stored hash and salt are strings and the stored
    hash is the hexadecimal form of the PBKDF2 digest of the password under
    the parsed salt: an even number of digits [0-9a-f] that reads back to
    the digest. Any other password is then accepted exactly when its digest
    under that salt is the same one, two different digests never having the
    same hexadecimal form. *)
Theorem verifyPassword_sound
    (password : string) (hashedPassword salt : option json) (entropy : nat → Byte.byte) :
  truthy_opt salt = true →
  PasswordSecurity.verifyPassword password hashedPassword salt entropy = true →
  ∃ h s bits,
    hashedPassword = Some (JStr h) ∧ salt = Some (JStr s)
    ∧ pbkdf2_sha256 password (PasswordSecurity.parse_salt s) = Some bits
    ∧ h = PasswordSecurity.to_hex bits
    ∧ Hex.of_hex h = bits
    ∧ String.length h = 2 * length bits
    ∧ Forall (λ c, Hex.is_hex_digit c = true) (list_ascii_of_string h)
    ∧ (∀ candidate entropy',
         PasswordSecurity.verifyPassword candidate hashedPassword salt entropy' = true
         ↔ pbkdf2_sha256 candidate (PasswordSecurity.parse_salt s) = Some bits).
Proof.
  intros Hsalt Hverify.
  assert (∀ p e, PasswordSecurity.verifyPassword p hashedPassword salt e = true →
            ∃ h s bits, hashedPassword = Some (JStr h) ∧ salt = Some (JStr s)
              ∧ pbkdf2_sha256 p (PasswordSecurity.parse_salt s) = Some bits
              ∧ h = PasswordSecurity.to_hex bits) as Hshape.
  { intros p e. unfold PasswordSecurity.verifyPassword, PasswordSecurity.hashPassword.
    rewrite Hsalt. simpl negb. cbv iota.
    destruct salt as [[| | |s| |]|]; try discriminate.
    destruct (pbkdf2_sha256 p (PasswordSecurity.parse_salt s)) as [bits|] eqn:Hbits;
      [|discriminate].
    intros Heq. apply strict_eq_string_true in Heq.
    by exists (PasswordSecurity.to_hex bits), s, bits. }
  destruct (Hshape _ _ Hverify) as (h & s & bits & -> & -> & Hbits & ->).
  exists (PasswordSecurity.to_hex bits), s, bits.
  destruct (to_hex_digits bits) as [Hlen Hall].
  do 4 (split; [done|]). split; [apply of_hex_to_hex|]. do 2 (split; [done|]).
  intros candidate entropy'. split.
  - intros Hc. destruct (Hshape _ _ Hc) as (h' & s' & bits' & [= Hh] & [= <-] & Hbits' & ->).
    rewrite Hbits'. f_equal.
    rewrite <- (of_hex_to_hex bits'), <- (of_hex_to_hex bits). by rewrite Hh.
  - intros Hc. unfold PasswordSecurity.verifyPassword, PasswordSecurity.hashPassword.
    rewrite Hsalt. simpl negb. cbv iota. rewrite Hc. simpl. apply String.eqb_refl.
Qed.

End Verify.

Lemma verifyPassword_sound_witness :
  ∃ bits,
    @pbkdf2_sha256 Ref.platform "S3cure!pass"
      (@PasswordSecurity.parse_salt Ref.platform
         "200,237,18,55,92,129,166,203,240,21,58,95,132,169,206,243") = Some bits
    ∧ Hex.of_hex "8796a5b4c3d2e1f0ff0e1d2c3b4a5968778695a4b3c2d1e0effe0d1c2b3a4958" = bits.
Proof.
  destruct (@verifyPassword_sound Ref.platform "S3cure!pass"
              (Some (JStr "8796a5b4c3d2e1f0ff0e1d2c3b4a5968778695a4b3c2d1e0effe0d1c2b3a4958"))
              (Some (JStr "200,237,18,55,92,129,166,203,240,21,58,95,132,169,206,243"))
              sample_entropy)
    as (h & s & bits & [= <-] & [= <-] & Hbits & _ & Hback & _).
  - reflexivity.
  - vm_compute. reflexivity.
  - exists bits. split; assumption.
Defined.

(** ** The rate limiter: what it lets through *)

Lemma last_cons_default (t d : Z) (times : list Z) :
  List.last (t :: times) d = List.last times t.
Proof.
  revert t d. induction times as [|t' times IH]; intros t d; [reflexivity|].
  change (List.last (t :: t' :: times) d) with (List.last (t' :: times) d).
  rewrite IH. symmetry. apply IH.
Qed.

Lemma spaced_span (last : Z) (times : list Z) :
  Limiter.spaced last times →
  (750 * Z.of_nat (length times) ≤ List.last times last - last)%Z.
Proof.
  revert last. induction times as [|t times IH]; intros last; [simpl; lia|].
  intros [Ht Hrest]. specialize (IH t Hrest).
  rewrite last_cons_default. cbn [length]. lia.
Qed.

(** The chain either lets the request through, setting [last] to the clock
    reading, which is then at least 750 after the old [last], or answers it
    otherwise and leaves [last]. *)
Lemma middleware_cases (last now : Z) (req : Server.Request) :
  (Server.middleware last now req = (Server.Next, now) ∧ (750 ≤ now - last)%Z)
  ∨ (∃ v, Server.middleware last now req = (v, last) ∧ v ≠ Server.Next).
Proof.
  unfold Server.middleware, Server.before_limiter, Server.rate_limit.
  destruct (Server.body_error req) as [status|]; [right; by eexists|].
  destruct (String.eqb (Server.method req) "OPTIONS"); [right; by eexists|].
  destruct (Z.ltb_spec (now - last) 750); [right; by eexists|by left].
Qed.

Lemma admitted_cons (last now : Z) (req : Server.Request)
    (rest : list (Z * Server.Request)) :
  Limiter.admitted last ((now, req) :: rest)
  = match Server.middleware last now req with
    | (Server.Next, last') => now :: Limiter.admitted last' rest
    | (_, last') => Limiter.admitted last' rest
    end.
Proof. reflexivity. Qed.

(** X14. Along any sequence of requests, whatever the clock readings, the
    readings of the requests that go on to their handlers (those that are
    neither answered before the limiter nor rejected by it) are each at
    least 750 ms after the one before (the first one after the initial
    [last]); the server ends with [last] equal to the latest of them; as
    many verdicts are [next()] as there are such readings, and every
    request gets one verdict; so between the initial and the final [last]
    at most one request per 750 ms went through. *)
Theorem admitted_requests_are_spaced (last : Z) (arrivals : list (Z * Server.Request)) :
  Limiter.spaced last (Limiter.admitted last arrivals)
  ∧ (Server.serve last arrivals).2 = List.last (Limiter.admitted last arrivals) last
  ∧ length (List.filter (λ v, match v with Server.Next => true | _ => false end)
              (Server.serve last arrivals).1)
    = length (Limiter.admitted last arrivals)
  ∧ length (Server.serve last arrivals).1 = length arrivals
  ∧ (750 * Z.of_nat (length (Limiter.admitted last arrivals))
     ≤ (Server.serve last arrivals).2 - last)%Z.
Proof.
  assert (Limiter.spaced last (Limiter.admitted last arrivals)
          ∧ (Server.serve last arrivals).2 = List.last (Limiter.admitted last arrivals) last
          ∧ length (List.filter (λ v, match v with Server.Next => true | _ => false end)
                      (Server.serve last arrivals).1)
            = length (Limiter.admitted last arrivals)
          ∧ length (Server.serve last arrivals).1 = length arrivals) as Hmain.
  { revert last. induction arrivals as [|[now req] rest IH]; intros last.
    - repeat split.
    - rewrite serve_cons, admitted_cons.
      destruct (middleware_cases last now req) as [[-> Hge]|(v & -> & Hv)].
      + destruct (IH now) as (Hs & Hl & Hn & Hlen).
        cbn [fst snd List.filter length]. rewrite last_cons_default, Hn, Hlen.
        repeat split; assumption.
      + destruct (IH last) as (Hs & Hl & Hn & Hlen).
        cbn [fst snd]. destruct v; try contradiction;
          cbn [List.filter length]; by rewrite Hlen. }
  destruct Hmain as (Hs & Hl & Hn & Hlen). repeat split; try assumption.
  rewrite Hl. by apply spaced_span.
Qed.

Example admitted_trace :
  Limiter.admitted Server.initial_last
    [ (1000, Server.mkRequest "10.0.0.1" "GET" "/health" None);
      (3000, Server.mkRequest "10.0.0.2" "OPTIONS" "/api/generate" None);
      (3100, Server.mkRequest "10.0.0.2" "POST" "/api/generate" None);
      (3200, Server.mkRequest "10.0.0.3" "POST" "/api/polish" (Some 400));
      (3300, Server.mkRequest "10.0.0.3" "POST" "/api/polish" None);
      (3850, Server.mkRequest "10.0.0.1" "POST" "/api/sourcing" None) ]%Z
  = [1000; 3100; 3850]%Z
  ∧ Server.serve Server.initial_last
      [ (1000, Server.mkRequest "10.0.0.1" "GET" "/health" None);
        (3000, Server.mkRequest "10.0.0.2" "OPTIONS" "/api/generate" None);
        (3100, Server.mkRequest "10.0.0.2" "POST" "/api/generate" None) ]%Z
    = ([Server.Next; Server.Preflight; Server.Next], 3100%Z).
Proof. split; reflexivity. Qed.

(** ** Polishing through the proxy *)

Section PolishThroughProxy.
Context `{Platform}.

(** X15. The client sends the text to polish under the name [content],
    the handler of [/api/polish] reads the property [jd]: whatever the text,
    the message that the proxy passes to the model reads "Original JD:",
    "undefined", and the instructions. The text of the job description
    never reaches the model. *)
Theorem polish_request_loses_content
    (b : Browser) (content : option json) (instructions : string) :
  let sent := JObj (Polish.polish_body content instructions) in
  JSON_parse (JSON_stringify sent) = Some sent →
  let body := JSON_parse (AIService.body (Polish.polish_request b content instructions)) in
  AIService.url (Polish.polish_request b content instructions)
  = StorageManager.getProxyBase b +:+ "/api/polish"
  ∧ ProxyServer.body_field body "content" = content
  ∧ ProxyServer.body_field body "jd" = None
  ∧ ProxyServer.polish_user body
    = "Original JD:" +:+ nl +:+ nl +:+ "undefined" +:+ nl +:+ nl
      +:+ "Polish instructions:" +:+ nl +:+ instructions
  ∧ ProxyServer.polish_messages body
    = [("system", ProxyServer.polish_system);
       ("user", "Original JD:" +:+ nl +:+ nl +:+ "undefined" +:+ nl +:+ nl
                +:+ "Polish instructions:" +:+ nl +:+ instructions)]
  ∧ ProxyServer.chosen_model body = JStr "gpt-4o-mini".
Proof.
  intros sent Hround body. subst body sent. simpl AIService.body. rewrite Hround.
  unfold ProxyServer.polish_messages, ProxyServer.polish_user, ProxyServer.chosen_model,
    ProxyServer.body_field, Polish.polish_body.
  split; [reflexivity|].
  destruct content as [c|]; repeat split; reflexivity.
Qed.

End PolishThroughProxy.

Lemma polish_request_loses_content_witness :
  @ProxyServer.polish_user
    (@JSON_parse Ref.platform
       (AIService.body
          (@Polish.polish_request Ref.platform sample_browser
             (Some (JStr "Job Title: Data Analyst")) "make it punchier")))
  = "Original JD:" +:+ nl +:+ nl +:+ "undefined" +:+ nl +:+ nl
    +:+ "Polish instructions:" +:+ nl +:+ "make it punchier".
Proof.
  apply (@polish_request_loses_content Ref.platform sample_browser
           (Some (JStr "Job Title: Data Analyst")) "make it punchier").
  vm_compute. reflexivity.
Defined.

(** ** The prompt of a generated job description *)

Section GeneratePrompt.
Context `{Platform}.

Lemma generateViaProxy_sends
    (h : gmap nat (gmap string json)) (answers : nat) (o : gmap string json)
    (b : Browser) (fetch : AIService.Request → AIService.Response) :
  h !! answers = Some o →
  ∃ h' request result,
    AIService.generateViaProxy h answers b fetch = Some (h', request, result)
    ∧ AIService.body request
      = JSON_stringify (JObj (<["answers" := JObj (Generate.answersForAPI o)]>
                             (<["model" := JStr "gpt-4o-mini"]> ∅))).
Proof.
  intros Ho. unfold AIService.generateViaProxy. rewrite Ho. simpl.
  set (l := fresh (dom h)).
  set (h2 := AIService.heap_delete (<[l:=o]> h) l "company").
  assert (h2 !! l = Some (delete "company" o)) as Hh2.
  { unfold h2, AIService.heap_delete. by rewrite lookup_alter_eq, lookup_insert_eq. }
  pose proof (join_if_array_at h2 l "skills" _ Hh2) as Hh3.
  pose proof (join_if_array_at _ l "benefits" _ Hh3) as Hh4.
  eexists _, _, _. split; [reflexivity|]. simpl. rewrite Hh4. reflexivity.
Qed.

Lemma server_lines_agree (a : gmap string json) (label k : string) :
  ProxyServer.line_if (Some (JObj a)) label k = JobDescriptionBuilder.line_if a label k
  ∧ ProxyServer.line_or_empty (Some (JObj a)) label k
    = JobDescriptionBuilder.line_or_empty a label k.
Proof. split; reflexivity. Qed.


End GeneratePrompt.


(** ** The multi-select input *)

Lemma includes_spec (items : list json) (value : string) :
  MultiSelect.includes items value = true ↔ JStr value ∈ items.
Proof.
  unfold MultiSelect.includes. rewrite existsb_exists. split.
  - intros (x & Hin & Heq). apply strict_eq_string_true in Heq as [= ->].
    by apply list_elem_of_In.
  - intros Hin. exists (JStr value). split; [by apply list_elem_of_In|].
    by apply strict_eq_string_true.
Qed.

Lemma indexOf_cons (item : json) (items : list json) (value : string) :
  MultiSelect.indexOf (item :: items) value
  = if strict_eq_string value (Some item) then Some 0
    else S <$> MultiSelect.indexOf items value.
Proof. reflexivity. Qed.

Lemma indexOf_spec (items : list json) (value : string) (i : nat) :
  MultiSelect.indexOf items value = Some i → items !! i = Some (JStr value).
Proof.
  revert i. induction items as [|item items IH]; intros i; [discriminate|].
  rewrite indexOf_cons.
  destruct (strict_eq_string value (Some item)) eqn:Heq.
  - intros Hi. apply strict_eq_string_true in Heq. by simplify_eq.
  - destruct (MultiSelect.indexOf items value) as [j|]; [|discriminate].
    simpl. intros Hi. simplify_eq. by apply IH.
Qed.

Lemma indexOf_found (items : list json) (value : string) :
  JStr value ∈ items → is_Some (MultiSelect.indexOf items value).
Proof.
  induction items as [|item items IH]; intros Hin; [by apply elem_of_nil in Hin|].
  rewrite indexOf_cons.
  destruct (strict_eq_string value (Some item)) eqn:Heq; [by eexists|].
  apply elem_of_cons in Hin as [<-|Hin].
  - assert (strict_eq_string value (Some (JStr value)) = true) as Hrefl
      by by apply strict_eq_string_true.
    congruence.
  - destruct (IH Hin) as [j ->]. by eexists.
Qed.

Lemma NoDup_delete_index {A} (i : nat) (l : list A) : NoDup l → NoDup (delete i l).
Proof. intros Hnd. eapply sublist_NoDup; [exact Hnd|apply sublist_delete]. Qed.

Lemma Forall_sublist {A} (P : A → Prop) (l1 l2 : list A) :
  l1 `sublist_of` l2 → Forall P l2 → Forall P l1.
Proof.
  intros Hsub Hall. apply Forall_forall. intros x Hx.
  eapply Forall_forall; [exact Hall|]. by eapply elem_of_sublist.
Qed.

Lemma delete_index_removes {A} (i : nat) (l : list A) (x : A) :
  NoDup l → l !! i = Some x → x ∉ delete i l.
Proof.
  revert i. induction l as [|y l IH]; intros i Hnd Hi; [discriminate|].
  apply NoDup_cons in Hnd as [Hy Hnd]. destruct i as [|i]; simpl in *.
  - by injection Hi as ->.
  - apply not_elem_of_cons. split; [|by apply IH].
    intros ->. apply Hy. by eapply list_elem_of_lookup_2.
Qed.

Lemma act_keeps_invariant (a : MultiSelect.Action) (items items' : list json) :
  NoDup items → Forall (λ x, ∃ s, x = JStr s) items →
  MultiSelect.act a items = Some items' →
  NoDup items' ∧ Forall (λ x, ∃ s, x = JStr s) items'.
Proof.
  intros Hnd Hstr. destruct a as [input|index|suggestion]; simpl.
  - destruct (String.eqb (trim input) EmptyString); [discriminate|].
    destruct (MultiSelect.includes items (trim input)) eqn:Hin; [discriminate|].
    intros [= <-]. split.
    + apply NoDup_app. split; [exact Hnd|]. split; [|apply NoDup_singleton].
      intros x Hx ->%list_elem_of_singleton. apply includes_spec in Hx. congruence.
    + apply Forall_app. split; [exact Hstr|]. repeat constructor. by eexists.
  - destruct (index <? length items)%nat; [|discriminate]. intros [= <-].
    split; [by apply NoDup_delete_index|].
    eapply Forall_sublist; [apply sublist_delete|exact Hstr].
  - destruct (MultiSelect.includes items suggestion) eqn:Hin; intros [= <-].
    + assert (∀ l, sublist l items → NoDup l ∧ Forall (λ x, ∃ s, x = JStr s) l) as Hsub.
      { intros l Hl. split; [by eapply sublist_NoDup|by eapply Forall_sublist]. }
      apply Hsub. unfold MultiSelect.splice_found.
      destruct (MultiSelect.indexOf items suggestion);
        [apply sublist_delete|apply sublist_take].
    + split.
      * apply NoDup_app. split; [exact Hnd|]. split; [|apply NoDup_singleton].
        intros x Hx ->%list_elem_of_singleton. apply includes_spec in Hx. congruence.
      * apply Forall_app. split; [exact Hstr|]. repeat constructor. by eexists.
Qed.

Lemma run_keeps_invariant (actions : list MultiSelect.Action) (items : list json) :
  NoDup items → Forall (λ x, ∃ s, x = JStr s) items →
  NoDup (MultiSelect.run actions items)
  ∧ Forall (λ x, ∃ s, x = JStr s) (MultiSelect.run actions items).
Proof.
  revert items. induction actions as [|a actions IH]; intros items Hnd Hstr;
    [by split|].
  unfold MultiSelect.run. simpl. fold (MultiSelect.run actions).
  destruct (MultiSelect.act a items) as [items'|] eqn:Hact; simpl; [|by apply IH].
  destruct (act_keeps_invariant a items items' Hnd Hstr Hact). by apply IH.
Qed.

(** X17. Starting from no selection, after any sequence of actions the
    selected items of the multi-select input are strings without
    duplicates. So a click on a suggestion toggles it: afterwards the
    suggestion is selected exactly when it was not before; and a custom
    value is added, at the end, exactly when its trimmed text is not empty
    and not selected yet. *)
Theorem multi_select_has_no_duplicates (actions : list MultiSelect.Action) :
  let items := MultiSelect.run actions [] in
  NoDup items
  ∧ Forall (λ x, ∃ s, x = JStr s) items
  ∧ (∀ suggestion,
       JStr suggestion ∈ MultiSelect.run (actions ++ [MultiSelect.Toggle suggestion]) []
       ↔ JStr suggestion ∉ items)
  ∧ (∀ input,
       (trim input ≠ EmptyString ∧ JStr (trim input) ∉ items →
        MultiSelect.run (actions ++ [MultiSelect.AddCustom input]) []
        = (items ++ [JStr (trim input)])%list)
       ∧ (trim input = EmptyString ∨ JStr (trim input) ∈ items →
          MultiSelect.run (actions ++ [MultiSelect.AddCustom input]) [] = items)).
Proof.
  intros items.
  destruct (run_keeps_invariant actions [] (NoDup_nil_2) (Forall_nil_2 _))
    as [Hnd Hstr]. fold items in Hnd, Hstr.
  split; [exact Hnd|]. split; [exact Hstr|]. split.
  - intros suggestion. unfold MultiSelect.run. rewrite foldl_app. simpl.
    fold (MultiSelect.run actions []). fold items.
    destruct (MultiSelect.includes items suggestion) eqn:Hin; simpl.
    + apply includes_spec in Hin. destruct (indexOf_found _ _ Hin) as [i Hi].
      rewrite Hi. simpl. apply indexOf_spec in Hi. split; [|done].
      intros Hstill. exfalso. by eapply delete_index_removes.
    + split; [|intros _; apply elem_of_app; right; by apply list_elem_of_singleton].
      intros _ Hin'. apply includes_spec in Hin'. congruence.
  - intros input. unfold MultiSelect.run. rewrite foldl_app. simpl.
    fold (MultiSelect.run actions []). fold items.
    destruct (String.eqb_spec (trim input) EmptyString) as [Hempty|Hfull]; simpl.
    { split; [by intros [? _]|reflexivity]. }
    destruct (MultiSelect.includes items (trim input)) eqn:Hin; simpl.
    + apply includes_spec in Hin. split; [by intros [_ ?]|reflexivity].
    + split; [reflexivity|]. intros [?|Hin']; [done|].
      apply includes_spec in Hin'. congruence.
Qed.

Example multi_select_trace :
  MultiSelect.run
    [ MultiSelect.Toggle "Health insurance"; MultiSelect.AddCustom "  Gym  ";
      MultiSelect.AddCustom "Gym"; MultiSelect.Toggle "Remote work";
      MultiSelect.Toggle "Health insurance"; MultiSelect.Remove 5 ] []
  = [JStr "Gym"; JStr "Remote work"].
Proof. reflexivity. Qed.

(** ** Saving the final version of a job description *)

Section SaveFinal.
Context `{Platform}.
Variable characters : string → list string.

Lemma finalise_spec (id : option json) (text : string) (jd jd' : json) :
  ShowJobDescription.finalise characters id text jd = Ok jd' →
  jd ≠ JNull
  ∧ (ShowJobDescription.strict_eq (Views.field jd "id") id = false → jd' = jd)
  ∧ (ShowJobDescription.strict_eq (Views.field jd "id") id = true →
     ∃ o', jd' = JObj o'
       ∧ o' !! "text" = Some (JStr text)
       ∧ o' !! "final" = Some (JBool true)
       ∧ (∀ k, k ≠ "text" → k ≠ "final" →
               o' !! k = ShowJobDescription.own_properties characters jd !! k)
       ∧ (∀ o k, jd = JObj o → k ≠ "text" → k ≠ "final" → o' !! k = o !! k)).
Proof.
  unfold ShowJobDescription.finalise.
  assert (∀ r : res json,
            (if ShowJobDescription.strict_eq (Views.field jd "id") id
             then Ok (JObj (<["final" := JBool true]>
                           (<["text" := JStr text]>
                              (ShowJobDescription.own_properties characters jd))))
             else Ok jd) = Ok jd' →
            (ShowJobDescription.strict_eq (Views.field jd "id") id = false → jd' = jd)
            ∧ (ShowJobDescription.strict_eq (Views.field jd "id") id = true →
               ∃ o', jd' = JObj o'
                 ∧ o' !! "text" = Some (JStr text)
                 ∧ o' !! "final" = Some (JBool true)
                 ∧ (∀ k, k ≠ "text" → k ≠ "final" →
                         o' !! k
                         = ShowJobDescription.own_properties characters jd !! k)
                 ∧ (∀ o k, jd = JObj o → k ≠ "text" → k ≠ "final" →
                           o' !! k = o !! k)))
    as Hcases.
  { intros _. destruct (ShowJobDescription.strict_eq (Views.field jd "id") id);
      intros [= <-]; split; try discriminate; [|done].
    intros _. eexists. split; [reflexivity|].
    split; [rewrite lookup_insert_ne by discriminate; apply lookup_insert_eq|].
    split; [apply lookup_insert_eq|]. split.
    - intros k Htext Hfinal. by rewrite !lookup_insert_ne.
    - intros o k -> Htext Hfinal. by rewrite !lookup_insert_ne. }
  destruct jd; try discriminate; intros Hrun; (split; [discriminate|]);
    apply (Hcases (Ok jd')); exact Hrun.
Qed.

Lemma map_res_spec {A B} (f : A → res B) (l : list A) (l' : list B) :
  ShowJobDescription.map_res f l = Ok l' →
  length l' = length l
  ∧ ∀ i x, l !! i = Some x → ∃ y, l' !! i = Some y ∧ f x = Ok y.
Proof.
  revert l'. induction l as [|x l IH]; intros l'; simpl.
  - intros [= <-]. split; [reflexivity|]. intros i x Hi. discriminate.
  - destruct (f x) as [y|] eqn:Hy; [|discriminate]. simpl.
    destruct (ShowJobDescription.map_res f l) as [ys|]; [|discriminate]. simpl.
    intros [= <-]. destruct (IH ys eq_refl) as [Hlen Hall].
    split; [simpl; by rewrite Hlen|].
    intros [|i] x' Hi; simpl in *; [|by apply Hall].
    injection Hi as <-. by exists y.
Qed.

Lemma map_res_total {A B} (f : A → res B) (l : list A) :
  Forall (λ x, ∃ y, f x = Ok y) l → ∃ l', ShowJobDescription.map_res f l = Ok l'.
Proof.
  induction 1 as [|x l [y Hy] _ [l' IH]]; [by eexists|].
  simpl. rewrite Hy, IH. by eexists.
Qed.

(** X18. "Save Final" throws when the stored value is no array or holds a
    [null], and returns otherwise. It then writes a list of the same
    length as the stored one, in the same order. An entry is changed
    exactly when its [id] is strictly equal to the one of the job
    description shown, a missing [id] being equal to a missing one: the
    entry written is then an object with the properties of the stored
    entry (the elements of an array and the code units of a string count
    as properties, under their indices), but for [text], which is the
    content of the page, and [final], which is [true]. Every other entry
    is written as it was. The hash becomes ["#/jd-view"] and the session
    is as before. *)
Theorem handleSaveFinal_keeps_entries
    (id : option json) (text : string) (b : Browser) :
  (∀ stored, StorageManager.loadJobDescriptions b = JArr stored → JNull ∉ stored →
     ∃ b', ShowJobDescription.handleSaveFinal characters id text b = Ok b')
  ∧ ∀ b', ShowJobDescription.handleSaveFinal characters id text b = Ok b' →
    ∃ stored updated,
      StorageManager.loadJobDescriptions b = JArr stored
      ∧ (JNull ∉ stored)
      ∧ localStorage b'
        = StorageManager.save (localStorage b) "jobDescriptions" (JArr updated)
      ∧ length updated = length stored
      ∧ (∀ i jd, stored !! i = Some jd →
           ∃ jd', updated !! i = Some jd'
             ∧ (ShowJobDescription.strict_eq (Views.field jd "id") id = false →
                jd' = jd)
             ∧ (ShowJobDescription.strict_eq (Views.field jd "id") id = true →
                ∃ o', jd' = JObj o'
                  ∧ o' !! "text" = Some (JStr text)
                  ∧ o' !! "final" = Some (JBool true)
                  ∧ (∀ k, k ≠ "text" → k ≠ "final" →
                          o' !! k
                          = ShowJobDescription.own_properties characters jd !! k)
                  ∧ (∀ o k, jd = JObj o → k ≠ "text" → k ≠ "final" →
                            o' !! k = o !! k)))
      ∧ location_hash b' = "#/jd-view"
      ∧ sessionStorage b' = sessionStorage b
      ∧ notifications b' = (notifications b ++ [("Saved final version.", "success")])%list.
Proof.
  unfold ShowJobDescription.handleSaveFinal. split.
  - intros stored -> Hnull.
    destruct (map_res_total (ShowJobDescription.finalise characters id text) stored)
      as [updated ->]; [|by eexists].
    apply Forall_forall. intros jd Hjd.
    assert (jd ≠ JNull) as Hjd' by (by intros ->).
    unfold ShowJobDescription.finalise.
    destruct jd; try contradiction;
      destruct (ShowJobDescription.strict_eq _ id); by eexists.
  - intros b'.
    destruct (StorageManager.loadJobDescriptions b) as [| | | |stored|] eqn:Hload;
      try discriminate.
    destruct (ShowJobDescription.map_res _ stored) as [updated|] eqn:Hmap;
      [|discriminate].
    simpl. intros [= <-]. exists stored, updated.
    destruct (map_res_spec _ _ _ Hmap) as [Hlen Hall].
    split; [reflexivity|]. split.
    { intros Hin. apply list_elem_of_lookup_1 in Hin as [i Hi].
      destruct (Hall i JNull Hi) as (jd' & _ & Hf). discriminate Hf. }
    split; [reflexivity|]. split; [exact Hlen|].
    split; [|by repeat split].
    intros i jd Hi. destruct (Hall i jd Hi) as (jd' & Hi' & Hf).
    exists jd'. split; [exact Hi'|]. by apply finalise_spec in Hf as [_ Hf].
Qed.

End SaveFinal.

Example own_properties_of_text :
  ShowJobDescription.own_properties ascii_characters (JStr "ok")
  = <["0" := JStr "o"]> (<["1" := JStr "k"]> ∅)
  ∧ ShowJobDescription.own_properties ascii_characters (JArr [JNum 7; JNull])
    = <["0" := JNum 7]> (<["1" := JNull]> ∅)
  ∧ ShowJobDescription.own_properties ascii_characters (JNum 7) = ∅.
Proof. repeat split; vm_compute; reflexivity. Qed.

Lemma handleSaveFinal_keeps_entries_witness :
  ∃ b',
    @ShowJobDescription.handleSaveFinal Ref.platform ascii_characters
      None "Final text" unfiled_browser = Ok b'
    ∧ @StorageManager.loadJobDescriptions Ref.platform b'
      = JArr [ JObj (<["id" := JStr "1"]> (<["content" := JStr "A"]> ∅));
               JObj (<["content" := JStr "B"]>
                    (<["text" := JStr "Final text"]> (<["final" := JBool true]> ∅)));
               JObj (<["0" := JStr "o"]> (<["1" := JStr "k"]>
                    (<["text" := JStr "Final text"]> (<["final" := JBool true]> ∅)))) ]
    ∧ location_hash b' = "#/jd-view".
Proof.
  destruct (@handleSaveFinal_keeps_entries Ref.platform ascii_characters
              None "Final text" unfiled_browser) as [Hreturns Hentries].
  destruct (Hreturns [ JObj (<["id" := JStr "1"]> (<["content" := JStr "A"]> ∅));
                       JObj (<["content" := JStr "B"]> ∅); JStr "ok" ])
    as [b' Hrun].
  - vm_compute. reflexivity.
  - intros Hin. repeat (apply elem_of_cons in Hin as [Hin|Hin]; [discriminate Hin|]).
    by apply elem_of_nil in Hin.
  - exists b'. split; [exact Hrun|].
    destruct (Hentries b' Hrun) as (_ & _ & _ & _ & _ & _ & _ & Hhash & _).
    split; [|exact Hhash].
    vm_compute in Hrun. injection Hrun as <-. vm_compute. reflexivity.
Defined.

(* ====================================================================== *)
(** * The questionnaire *)
(* ====================================================================== *)

(** Membership in a list that is written out. *)
Ltac member := repeat first [apply list_elem_of_here | apply list_elem_of_further].

Section Questionnaire.
Context `{Platform}.

Local Abbreviation filtered := Views.getFilteredQuestions.
Local Abbreviation keys := Wizard.keys.

(** ** The list of questions *)

Lemma filtered_cases (a : gmap string json) :
  filtered a
  = if strict_eq_string "Contract" (a !! "hireType") then Views.questions
    else (take 4 Views.questions ++ drop 5 Views.questions)%list.
Proof.
  unfold Views.getFilteredQuestions, Views.questions. simpl.
  destruct (strict_eq_string "Contract" (a !! "hireType")); reflexivity.
Qed.

Lemma keys_cases (a : gmap string json) :
  keys a
  = if strict_eq_string "Contract" (a !! "hireType")
    then [ "role"; "location"; "timezone"; "hireType"; "duration"; "domain";
           "skills"; "goals"; "kpi"; "superstar"; "ninety"; "benefits";
           "applicationProcess" ]
    else [ "role"; "location"; "timezone"; "hireType"; "domain";
           "skills"; "goals"; "kpi"; "superstar"; "ninety"; "benefits";
           "applicationProcess" ].
Proof.
  unfold keys. rewrite filtered_cases.
  destruct (strict_eq_string "Contract" (a !! "hireType")); reflexivity.
Qed.

Lemma keys_lookup (a : gmap string json) (i : nat) (q : Views.Question) :
  filtered a !! i = Some q → keys a !! i = Some (Views.key q).
Proof. intros Hq. unfold keys. by rewrite list_lookup_fmap, Hq. Qed.

Lemma keys_NoDup (a : gmap string json) : NoDup (keys a).
Proof.
  rewrite keys_cases. destruct (strict_eq_string "Contract" (a !! "hireType"));
    apply (bool_decide_unpack _); vm_compute; exact I.
Qed.

Lemma keys_inj (a : gmap string json) (i j : nat) (k : string) :
  keys a !! i = Some k → keys a !! j = Some k → i = j.
Proof. apply NoDup_lookup, keys_NoDup. Qed.

Lemma filtered_length (a : gmap string json) : (12 ≤ length (filtered a))%nat.
Proof.
  rewrite filtered_cases.
  destruct (strict_eq_string "Contract" (a !! "hireType")); simpl; lia.
Qed.

Lemma filtered_in (a : gmap string json) (i : nat) (q : Views.Question) :
  filtered a !! i = Some q → q ∈ Views.questions.
Proof.
  rewrite filtered_cases. destruct (strict_eq_string "Contract" (a !! "hireType")).
  - apply list_elem_of_lookup_2.
  - intros Hq. apply list_elem_of_lookup_2 in Hq. apply elem_of_app in Hq as [Hq|Hq].
    + eapply elem_of_sublist; [exact Hq|apply sublist_take].
    + eapply elem_of_sublist; [exact Hq|apply sublist_drop].
Qed.

Lemma hireType_position (a : gmap string json) (i : nat) :
  keys a !! i = Some "hireType" → i = 3%nat.
Proof.
  intros Hi. apply (keys_inj a i 3 "hireType" Hi).
  rewrite keys_cases. by destruct (strict_eq_string "Contract" (a !! "hireType")).
Qed.

Lemma filtered_head (a a' : gmap string json) (i : nat) :
  (i ≤ 3)%nat → filtered a' !! i = filtered a !! i.
Proof.
  intros Hi. rewrite !filtered_cases.
  destruct (strict_eq_string "Contract" (a !! "hireType")),
    (strict_eq_string "Contract" (a' !! "hireType")); try reflexivity;
    do 4 (destruct i as [|i]; [reflexivity|]); lia.
Qed.

Lemma filtered_same (a a' : gmap string json) :
  a' !! "hireType" = a !! "hireType" → filtered a' = filtered a.
Proof. intros Heq. by rewrite !filtered_cases, Heq. Qed.

Lemma before_skills (a : gmap string json) (i : nat) (k : string) :
  keys a !! S i = Some "skills" → keys a !! i = Some k → k = "domain".
Proof.
  rewrite keys_cases. destruct (strict_eq_string "Contract" (a !! "hireType")) eqn:Hc;
    intros Hs Hk.
  - assert (S i = 6%nat) as [= ->]; [|by injection Hk].
    apply (keys_inj a _ _ "skills"); rewrite keys_cases, Hc; [exact Hs|reflexivity].
  - assert (S i = 5%nat) as [= ->]; [|by injection Hk].
    apply (keys_inj a _ _ "skills"); rewrite keys_cases, Hc; [exact Hs|reflexivity].
Qed.

Lemma after_skills (a : gmap string json) (i : nat) (k : string) :
  keys a !! i = Some "skills" → keys a !! S i = Some k → k = "goals".
Proof.
  rewrite keys_cases. destruct (strict_eq_string "Contract" (a !! "hireType")) eqn:Hc;
    intros Hs Hk.
  - assert (i = 6%nat) as ->; [|by injection Hk].
    apply (keys_inj a _ _ "skills"); rewrite keys_cases, Hc; [exact Hs|reflexivity].
  - assert (i = 5%nat) as ->; [|by injection Hk].
    apply (keys_inj a _ _ "skills"); rewrite keys_cases, Hc; [exact Hs|reflexivity].
Qed.

Lemma first_is_role (a : gmap string json) : keys a !! 0%nat = Some "role".
Proof.
  rewrite keys_cases. by destruct (strict_eq_string "Contract" (a !! "hireType")).
Qed.

(** Each question is known by its key. *)
Ltac each_question Hq :=
  unfold Views.questions in Hq;
  repeat (apply elem_of_cons in Hq as [-> | Hq]);
  [..|by apply elem_of_nil in Hq].

Lemma question_kinds (q : Views.Question) :
  q ∈ Views.questions →
  (Views.type q = "select" ↔ Views.key q = "hireType")
  ∧ (Views.type q = "multi-select" ↔ Views.key q = "benefits")
  ∧ (Views.key q = "domain" ∨ Views.key q = "goals" →
     Views.type q ≠ "select" ∧ Views.type q ≠ "multi-select").
Proof.
  intros Hq. each_question Hq; simpl;
    (split; [split; first [reflexivity|discriminate]|]);
    (split; [split; first [reflexivity|discriminate]|]);
    intros [?|?]; first [discriminate|split; discriminate].
Qed.

Lemma question_key_inj (q q' : Views.Question) :
  q ∈ Views.questions → q' ∈ Views.questions → Views.key q = Views.key q' → q = q'.
Proof.
  intros Hq Hq'. each_question Hq; each_question Hq'; simpl;
    first [reflexivity|discriminate].
Qed.

(** ** Rendering a question *)

(** The fields of a state that is given by its constructor. *)
Ltac fields :=
  cbn [JDQuestions.currentStep JDQuestions.answers JDQuestions.screen JDQuestions.page
       JDQuestions.with_screen JDQuestions.notify fst snd] in *.

Local Abbreviation values_ok a :=
  (∀ k v, a !! k = Some v →
          if String.eqb k "benefits" then Wizard.is_items v else Wizard.is_text v).

Lemma values_truthy (a : gmap string json) (k : string) :
  values_ok a → truthy_opt (a !! k) = false → a !! k = None.
Proof.
  intros Hvalues. destruct (a !! k) as [v|] eqn:Hk; [|reflexivity].
  specialize (Hvalues k v Hk). simpl.
  destruct (String.eqb k "benefits").
  - destruct Hvalues as (l & -> & _). discriminate.
  - destruct Hvalues as (s & -> & Hs). simpl.
    apply String.eqb_neq in Hs. rewrite Hs. discriminate.
Qed.

Lemma renderQuestion_cases (st : JDQuestions.State) :
  values_ok (JDQuestions.answers st) →
  match JDQuestions.renderQuestion st with
  | Ok sc =>
      ∃ q l hb input,
        sc = JDQuestions.Asking q l hb input
        ∧ filtered (JDQuestions.answers st) !! JDQuestions.currentStep st = Some q
        ∧ Views.key q ≠ "skills"
        ∧ Wizard.input_fits (JDQuestions.answers st) q input
  | Throw _ =>
      filtered (JDQuestions.answers st) !! JDQuestions.currentStep st = None
      ∨ ∃ sq, filtered (JDQuestions.answers st) !! JDQuestions.currentStep st = Some sq
              ∧ Views.key sq = "skills"
  end.
Proof.
  intros Hvalues. unfold JDQuestions.renderQuestion.
  destruct (filtered (JDQuestions.answers st) !! JDQuestions.currentStep st)
    as [q|] eqn:Hq; [|by left]. cbv zeta.
  pose proof (filtered_in _ _ _ Hq) as Hin.
  destruct (question_kinds q Hin) as (Hselect & Hmulti & _).
  destruct (String.eqb_spec (Views.type q) "select") as [Hs|Hs].
  { eexists _, _, _, _. split; [reflexivity|]. split; [reflexivity|].
    split; [|exact Hs]. apply Hselect in Hs. rewrite Hs. discriminate. }
  destruct (String.eqb_spec (Views.key q) "skills") as [Hk|Hk]; [right; by exists q|].
  destruct (String.eqb_spec (Views.type q) "multi-select") as [Hm|Hm].
  - destruct (JDQuestions.answers st !! Views.key q) as [v|] eqn:Hv.
    + pose proof (Hvalues _ _ Hv) as Hitems. apply Hmulti in Hm as Hb.
      rewrite Hb in Hitems. simpl in Hitems. destruct Hitems as (items & -> & _).
      eexists _, _, _, _. split; [reflexivity|]. split; [reflexivity|].
      split; [exact Hk|]. split; [exact Hm|]. by left.
    + simpl. eexists _, _, _, _. split; [reflexivity|]. split; [reflexivity|].
      split; [exact Hk|]. split; [exact Hm|]. by right.
  - eexists _, _, _, _. split; [reflexivity|]. split; [reflexivity|].
    split; [exact Hk|]. by split.
Qed.

Lemma show_inv (st : JDQuestions.State) :
  JDQuestions.answers st !! "skills" = None →
  values_ok (JDQuestions.answers st) →
  (∀ i q, (i < JDQuestions.currentStep st)%nat →
          filtered (JDQuestions.answers st) !! i = Some q →
          Views.key q ≠ "skills" → Wizard.answered (JDQuestions.answers st) q) →
  (JDQuestions.currentStep st < length (filtered (JDQuestions.answers st)))%nat →
  (∀ sq, filtered (JDQuestions.answers st) !! JDQuestions.currentStep st = Some sq →
         Views.key sq = "skills" →
         match JDQuestions.screen st with
         | JDQuestions.Asking q _ _ input =>
             q ∈ Views.questions ∧ Views.key q ≠ "skills"
             ∧ Wizard.input_fits (JDQuestions.answers st) q input
             ∧ (Views.key q = "domain" ∨ Views.key q = "goals")
         | _ => False
         end) →
  Wizard.Inv (JDQuestions.show st).2.
Proof.
  intros Hskills Hvalues Hprefix Hlt Hfallback. unfold JDQuestions.show.
  pose proof (renderQuestion_cases st Hvalues) as Hrender.
  destruct (JDQuestions.renderQuestion st) as [sc|msg]; fields.
  - destruct Hrender as (q & l & hb & input & -> & Hq & Hk & Hfit).
    destruct st as [cs a sc0 pg]. fields. split; fields; try assumption.
    split; [by eapply filtered_in|]. split; [exact Hk|]. split; [exact Hfit|].
    by left.
  - destruct Hrender as [Hnone|(sq & Hsq & Hk)].
    { apply lookup_ge_None in Hnone. lia. }
    specialize (Hfallback sq Hsq Hk).
    destruct st as [cs a sc0 pg]. fields.
    destruct sc0 as [|q l hb input| | |]; try contradiction.
    destruct Hfallback as (Hq & Hkq & Hfit & Hnear).
    split; fields; try assumption.
    split; [exact Hq|]. split; [exact Hkq|]. split; [exact Hfit|].
    right. split; [by exists sq|exact Hnear].
Qed.

Lemma advance_inv (st : JDQuestions.State) :
  JDQuestions.answers st !! "skills" = None →
  values_ok (JDQuestions.answers st) →
  (∀ i q, (i ≤ JDQuestions.currentStep st)%nat →
          filtered (JDQuestions.answers st) !! i = Some q →
          Views.key q ≠ "skills" → Wizard.answered (JDQuestions.answers st) q) →
  (∀ sq, filtered (JDQuestions.answers st) !! S (JDQuestions.currentStep st) = Some sq →
         Views.key sq = "skills" →
         match JDQuestions.screen st with
         | JDQuestions.Asking q _ _ input =>
             q ∈ Views.questions ∧ Views.key q ≠ "skills"
             ∧ Wizard.input_fits (JDQuestions.answers st) q input
             ∧ (Views.key q = "domain" ∨ Views.key q = "goals")
         | _ => False
         end) →
  Wizard.Inv (JDQuestions.advance st).2.
Proof.
  intros Hskills Hvalues Hprefix Hfallback. unfold JDQuestions.advance. cbv zeta.
  destruct st as [cs a sc pg]. fields.
  destruct (Nat.ltb_spec (S cs) (length (filtered a))) as [Hlt|Hge].
  - apply show_inv; fields; try assumption.
    intros i q Hi. apply Hprefix. lia.
  - fields. split; fields; try assumption.
    intros i q Hi. apply Hprefix. lia.
Qed.

Lemma inv_page (st : JDQuestions.State) (pg : Browser) :
  Wizard.Inv st →
  Wizard.Inv (JDQuestions.mkState (JDQuestions.currentStep st) (JDQuestions.answers st)
                (JDQuestions.screen st) pg).
Proof. intros [H1 H2 H3 H4]. by split. Qed.

Lemma answered_insert_ne (a : gmap string json) (k : string) (v : json)
    (q : Views.Question) :
  Views.key q ≠ k → Wizard.answered a q → Wizard.answered (<[k := v]> a) q.
Proof.
  intros Hne. unfold Wizard.answered. by rewrite lookup_insert_ne.
Qed.

(** ** Every handler keeps the invariant *)

Lemma near_skills (a : gmap string json) (cs : nat) (q sq : Views.Question) :
  filtered a !! cs = Some q ∨ Views.key q = "domain" ∨ Views.key q = "goals" →
  filtered a !! S cs = Some sq → Views.key sq = "skills" →
  Views.key q = "domain" ∨ Views.key q = "goals".
Proof.
  intros [Hq|Hnear] Hsq Hk; [|exact Hnear]. left.
  apply keys_lookup in Hq, Hsq. rewrite Hk in Hsq. by eapply before_skills.
Qed.

Lemma handleNext_inv (cs : nat) (a : gmap string json) (q : Views.Question)
    (l hb : bool) (input : JDQuestions.Input) (pg : Browser) (value : string) :
  Wizard.Inv (JDQuestions.mkState cs a (JDQuestions.Asking q l hb input) pg) →
  Wizard.Inv
    (JDQuestions.handleNext q value
       (JDQuestions.mkState cs a (JDQuestions.Asking q l hb input) pg)).2.
Proof.
  intros Hinv. pose proof Hinv as [Hskills Hvalues Hprefix Hscreen]. fields.
  destruct Hscreen as (Hq & Hk & Hfit & Hstep). unfold Wizard.in_step in Hstep. fields.
  destruct (question_kinds q Hq) as (Hselect & Hmulti & Hplain).
  assert (filtered a !! cs = Some q ∨ Views.key q = "domain" ∨ Views.key q = "goals")
    as Hwhere.
  { destruct Hstep as [Hfresh|[_ Hnear]]; [by left|by right]. }
  unfold JDQuestions.handleNext. fields.
  destruct (String.eqb_spec (Views.key q) "skills") as [|_]; [contradiction|].
  destruct (String.eqb_spec (Views.type q) "multi-select") as [Hm|Hm].
  - (* the multi-select question *)
    destruct (JDQuestions.no_items (a !! Views.key q)) eqn:Hno; fields.
    { exact (inv_page (JDQuestions.mkState cs a (JDQuestions.Asking q l hb input) pg)
               _ Hinv). }
    assert (filtered a !! cs = Some q) as Hfresh.
    { destruct Hstep as [Hfresh|[_ Hnear]]; [exact Hfresh|].
      destruct (Hplain Hnear) as [_ Hnot]. contradiction. }
    apply advance_inv; fields; try assumption.
    + intros i q' Hi Hq' Hk'. destruct (decide (i = cs)) as [->|Hne].
      * rewrite Hfresh in Hq'. injection Hq' as <-.
        unfold Wizard.answered. rewrite Hm. simpl.
        destruct (a !! Views.key q) as [v|] eqn:Hv; [|discriminate Hno].
        pose proof (Hvalues _ _ Hv) as Hitems. rewrite (proj1 Hmulti Hm) in Hitems.
        simpl in Hitems. destruct Hitems as (items & -> & _).
        exists items. split; [reflexivity|]. intros ->. discriminate Hno.
      * apply (Hprefix i); [lia|assumption..].
    + intros sq Hsq Hksq. split; [exact Hq|]. split; [exact Hk|]. split; [exact Hfit|].
      by eapply near_skills.
  - (* a text, text area or select question *)
    destruct (String.eqb_spec (trim value) EmptyString) as [|Hanswer]; fields.
    { exact (inv_page (JDQuestions.mkState cs a (JDQuestions.Asking q l hb input) pg)
               _ Hinv). }
    set (a' := <[Views.key q := JStr (trim value)]> a).
    assert (Views.key q ≠ "benefits") as Hnb.
    { intros Hb. apply Hm, Hmulti, Hb. }
    assert (∀ i, (i ≤ cs)%nat → filtered a' !! i = filtered a !! i) as Hsame.
    { intros i Hi. destruct (decide (Views.key q = "hireType")) as [Hh|Hh].
      - destruct Hwhere as [Hfresh|[Hd|Hg]]; [|congruence..].
        apply keys_lookup in Hfresh. rewrite Hh in Hfresh.
        apply hireType_position in Hfresh. subst cs. by apply filtered_head.
      - f_equal. apply filtered_same. unfold a'. by rewrite lookup_insert_ne. }
    assert (Wizard.answered a' q) as Hnew.
    { unfold Wizard.answered. apply String.eqb_neq in Hm. rewrite Hm.
      exists (trim value). split; [apply lookup_insert_eq|exact Hanswer]. }
    apply advance_inv; fields.
    + unfold a'. by rewrite lookup_insert_ne.
    + intros k v. unfold a'. destruct (decide (k = Views.key q)) as [->|Hne].
      * rewrite lookup_insert_eq. intros [= <-].
        apply String.eqb_neq in Hnb. rewrite Hnb. by exists (trim value).
      * rewrite lookup_insert_ne by congruence. apply Hvalues.
    + intros i q' Hi Hq' Hk'. rewrite Hsame in Hq' by exact Hi.
      destruct (decide (Views.key q' = Views.key q)) as [Heq|Hne].
      { assert (q' = q) as ->; [|exact Hnew].
        apply question_key_inj; [by eapply filtered_in|exact Hq|exact Heq]. }
      apply answered_insert_ne; [exact Hne|].
      destruct (decide (i = cs)) as [->|Hlt]; [|apply (Hprefix i); [lia|assumption..]].
      destruct Hstep as [Hfresh|[(sq & Hsq & Hksq) _]]; congruence.
    + intros sq Hsq Hksq. split; [exact Hq|]. split; [exact Hk|]. split.
      { destruct input as [|items|]; try exact Hfit. by destruct Hfit. }
      apply (near_skills a' cs q sq); [|exact Hsq|exact Hksq].
      destruct Hwhere as [Hfresh|Hnear]; [left|by right].
      by rewrite Hsame.
Qed.

Lemma handleBack_inv (cs : nat) (a : gmap string json) (q : Views.Question)
    (l hb : bool) (input : JDQuestions.Input) (pg : Browser) :
  Wizard.Inv (JDQuestions.mkState cs a (JDQuestions.Asking q l hb input) pg) →
  Wizard.Inv
    (JDQuestions.handleBack
       (JDQuestions.mkState cs a (JDQuestions.Asking q l hb input) pg)).2.
Proof.
  intros Hinv. pose proof Hinv as [Hskills Hvalues Hprefix Hscreen]. fields.
  destruct Hscreen as (Hq & Hk & Hfit & Hstep). unfold Wizard.in_step in Hstep. fields.
  unfold JDQuestions.handleBack. fields.
  destruct cs as [|cs]; [exact Hinv|]. simpl Nat.ltb. cbv iota.
  replace (S cs - 1)%nat with cs by lia.
  assert (S cs < length (filtered a))%nat as Hlt.
  { destruct Hstep as [Hfresh|[(sq & Hsq & _) _]]; by eapply lookup_lt_Some. }
  apply show_inv; fields; try assumption.
  - intros i q' Hi. apply Hprefix. lia.
  - lia.
  - intros sq Hsq Hksq. split; [exact Hq|]. split; [exact Hk|]. split; [exact Hfit|].
    destruct Hstep as [Hfresh|[_ Hnear]]; [|exact Hnear]. right.
    apply keys_lookup in Hfresh, Hsq. rewrite Hksq in Hsq. by eapply after_skills.
Qed.

Lemma items_inv (cs : nat) (a : gmap string json) (q : Views.Question)
    (l hb : bool) (items items' : list json) (pg : Browser)
    (action : MultiSelect.Action) :
  Wizard.Inv
    (JDQuestions.mkState cs a
       (JDQuestions.Asking q l hb (JDQuestions.ItemsInput items)) pg) →
  MultiSelect.act action items = Some items' →
  Wizard.Inv
    (JDQuestions.mkState cs (<[Views.key q := JArr items']> a)
       (JDQuestions.Asking q l hb (JDQuestions.ItemsInput items')) pg).
Proof.
  intros [Hskills Hvalues Hprefix Hscreen] Hact. fields.
  destruct Hscreen as (Hq & Hk & [Hm Hitems] & Hstep).
  unfold Wizard.in_step in Hstep. fields.
  destruct (question_kinds q Hq) as (_ & Hmulti & Hplain).
  pose proof (proj1 Hmulti Hm) as Hb.
  assert (filtered a !! cs = Some q) as Hfresh.
  { destruct Hstep as [Hfresh|[_ Hnear]]; [exact Hfresh|].
    destruct (Hplain Hnear) as [_ Hnot]. contradiction. }
  assert (NoDup items ∧ Forall (λ x, ∃ s, x = JStr s) items) as [Hnd Hstr].
  { destruct Hitems as [Hv|[_ ->]]; [|split; constructor].
    pose proof (Hvalues _ _ Hv) as Hi. rewrite Hb in Hi. simpl in Hi.
    destruct Hi as (items0 & [= <-] & Hnd & Hstr). by split. }
  destruct (act_keeps_invariant _ _ _ Hnd Hstr Hact) as [Hnd' Hstr'].
  assert (filtered (<[Views.key q := JArr items']> a) = filtered a) as Hsame.
  { apply filtered_same. rewrite lookup_insert_ne; [reflexivity|]. rewrite Hb.
    discriminate. }
  split; fields.
  - by rewrite lookup_insert_ne.
  - intros k v. destruct (decide (k = Views.key q)) as [->|Hne].
    + rewrite lookup_insert_eq. intros [= <-]. rewrite Hb. simpl. by exists items'.
    + rewrite lookup_insert_ne by congruence. apply Hvalues.
  - intros i q' Hi Hq' Hk'. rewrite Hsame in Hq'.
    apply answered_insert_ne; [|by apply (Hprefix i)].
    intros Heq. apply keys_lookup in Hq', Hfresh. rewrite Heq in Hq'.
    pose proof (keys_inj _ _ _ _ Hq' Hfresh). lia.
  - split; [exact Hq|]. split; [exact Hk|]. split.
    + split; [exact Hm|]. left. apply lookup_insert_eq.
    + left. fields. by rewrite Hsame.
Qed.

Lemma initial_inv (b : Browser) : Wizard.Inv (JDQuestions.initial b).
Proof.
  split; simpl.
  - apply lookup_empty.
  - intros k v Hk. by rewrite lookup_empty in Hk.
  - intros i q Hi. lia.
  - reflexivity.
Qed.

Lemma step_inv (st : JDQuestions.State) (e : JDQuestions.Event) :
  Wizard.Inv st → Wizard.Inv (JDQuestions.step st e).
Proof.
  intros Hinv. destruct st as [cs a sc pg]. unfold JDQuestions.step. fields.
  destruct e as [|value| |action|fetch id createdAt| |];
    destruct sc as [|q l hb input| | |]; try exact Hinv.
  - (* the first question *)
    pose proof Hinv as [Hskills Hvalues Hprefix Hscreen]. fields. subst cs.
    apply show_inv; fields; try assumption.
    + pose proof (filtered_length a). lia.
    + intros sq Hsq Hk. apply keys_lookup in Hsq. rewrite first_is_role in Hsq.
      congruence.
  - by apply handleNext_inv.
  - destruct hb; [by apply handleBack_inv|exact Hinv].
  - destruct input as [|items|]; try exact Hinv.
    destruct (MultiSelect.act action items) as [items'|] eqn:Hact; [|exact Hinv].
    by eapply items_inv.
  - (* the answer of the proxy *)
    destruct Hinv as [Hskills Hvalues Hprefix Hscreen]. fields.
    unfold JDQuestions.generateJobDescription. fields.
    repeat case_match; by split.
  - (* Try Again *)
    destruct Hinv as [Hskills Hvalues Hprefix Hscreen]. fields.
    unfold JDQuestions.show, JDQuestions.renderQuestion. fields.
    rewrite (proj2 (lookup_ge_None _ _) Hscreen). by split.
  - exact (inv_page (JDQuestions.mkState cs a JDQuestions.Succeeded pg) _ Hinv).
Qed.

Lemma run_inv (st : JDQuestions.State) (events : list JDQuestions.Event) :
  Wizard.Inv st → Wizard.Inv (JDQuestions.run st events).
Proof.
  revert st. induction events as [|e events IH]; intros st Hinv; [exact Hinv|].
  apply IH. by apply step_inv.
Qed.

(** ** What the questionnaire does *)

Lemma skills_rendering_throws (st : JDQuestions.State) (sq : Views.Question) :
  filtered (JDQuestions.answers st) !! JDQuestions.currentStep st = Some sq →
  Views.key sq = "skills" →
  JDQuestions.renderQuestion st
  = Throw "ReferenceError: createSkillsInput is not defined".
Proof.
  intros Hsq Hk. unfold JDQuestions.renderQuestion. rewrite Hsq. cbv zeta.
  pose proof (filtered_in _ _ _ Hsq) as Hin.
  destruct (question_kinds sq Hin) as (Hselect & _ & _).
  destruct (String.eqb_spec (Views.type sq) "select") as [Hs|_].
  { apply Hselect in Hs. congruence. }
  apply String.eqb_eq in Hk. by rewrite Hk.
Qed.

(** X19. Whatever the user does, the questionnaire never shows the skills
    question and never stores an answer under [skills]: the rendering of
    that question throws a [ReferenceError], the component
    [createSkillsInput] being called by a name that is not bound, and the
    question before or after it stays in the page. Every answer stored is
    a non-empty string, or, for the benefits, an array of strings without
    duplicates. *)
Theorem questionnaire_never_asks_skills (b : Browser) (events : list JDQuestions.Event) :
  let st := JDQuestions.run (JDQuestions.initial b) events in
  JDQuestions.answers st !! "skills" = None
  ∧ (∀ q l hb input,
       JDQuestions.screen st = JDQuestions.Asking q l hb input →
       q ∈ Views.questions ∧ Views.key q ≠ "skills")
  ∧ (∀ k v, JDQuestions.answers st !! k = Some v →
            if String.eqb k "benefits" then Wizard.is_items v else Wizard.is_text v)
  ∧ (∀ sq, filtered (JDQuestions.answers st) !! JDQuestions.currentStep st = Some sq →
           Views.key sq = "skills" →
           JDQuestions.renderQuestion st
           = Throw "ReferenceError: createSkillsInput is not defined"
           ∧ (JDQuestions.show st).2 = st).
Proof.
  intros st. destruct (run_inv _ events (initial_inv b)) as [Hskills Hvalues _ Hscreen].
  fold st in Hskills, Hvalues, Hscreen.
  split; [exact Hskills|]. split; [|split; [exact Hvalues|]].
  - intros q l hb input Hsc. rewrite Hsc in Hscreen.
    destruct Hscreen as (Hq & Hk & _). by split.
  - intros sq Hsq Hk. pose proof (skills_rendering_throws st sq Hsq Hk) as Hthrow.
    split; [exact Hthrow|]. unfold JDQuestions.show. by rewrite Hthrow.
Qed.

Lemma all_answered (st : JDQuestions.State) (k : string) :
  Wizard.Inv st →
  (length (filtered (JDQuestions.answers st)) ≤ JDQuestions.currentStep st)%nat →
  k ∈ keys (JDQuestions.answers st) → k ≠ "skills" →
  ∃ q, q ∈ Views.questions ∧ Views.key q = k ∧ Wizard.answered (JDQuestions.answers st) q.
Proof.
  intros [_ _ Hprefix _] Hdone Hk Hns.
  apply list_elem_of_lookup_1 in Hk as [i Hi]. unfold Wizard.keys in Hi.
  apply list_lookup_fmap_Some in Hi as (q & -> & Hq).
  exists q. split; [by eapply filtered_in|]. split; [reflexivity|].
  apply (Hprefix i); [|exact Hq|exact Hns].
  apply lookup_lt_Some in Hq. lia.
Qed.

(** X20. When the questionnaire starts the generation, and from then on,
    the answers hold a non-empty string for the role, the location, the
    time zone, the employment type, the domain, the goals, the KPIs, the
    superstar outcomes, the first 90 days and the application process, a
    non-empty array of distinct strings for the benefits, a duration when
    the employment type is "Contract", and nothing for the skills. The
    "Try Again" button of the error state changes nothing: its call of
    [renderQuestion] throws, [currentStep] being past the last question. *)
Theorem questionnaire_answers_at_generation
    (b : Browser) (events : list JDQuestions.Event) :
  let st := JDQuestions.run (JDQuestions.initial b) events in
  JDQuestions.screen st = JDQuestions.Loading
  ∨ JDQuestions.screen st = JDQuestions.Succeeded
  ∨ JDQuestions.screen st = JDQuestions.Failed →
  (∀ k, k ∈ Wizard.text_keys →
        ∃ s, JDQuestions.answers st !! k = Some (JStr s) ∧ s ≠ EmptyString)
  ∧ (∃ items, JDQuestions.answers st !! "benefits" = Some (JArr items)
              ∧ items ≠ [] ∧ NoDup items ∧ Forall (λ x, ∃ s, x = JStr s) items)
  ∧ (JDQuestions.answers st !! "hireType" = Some (JStr "Contract") →
     ∃ s, JDQuestions.answers st !! "duration" = Some (JStr s) ∧ s ≠ EmptyString)
  ∧ JDQuestions.answers st !! "skills" = None
  ∧ JDQuestions.step st JDQuestions.TryAgain = st.
Proof.
  intros st Hscreen. pose proof (run_inv _ events (initial_inv b)) as Hinv.
  fold st in Hinv. pose proof Hinv as [Hskills Hvalues Hprefix Hsc].
  assert (length (filtered (JDQuestions.answers st)) ≤ JDQuestions.currentStep st)%nat
    as Hdone.
  { destruct Hscreen as [Hs|[Hs|Hs]]; by rewrite Hs in Hsc. }
  assert (∀ k, k ∈ keys (JDQuestions.answers st) → k ≠ "skills" → k ≠ "benefits" →
            ∃ s, JDQuestions.answers st !! k = Some (JStr s) ∧ s ≠ EmptyString) as Htext.
  { intros k Hk Hns Hnb.
    destruct (all_answered st k Hinv Hdone Hk Hns) as (q & Hq & <- & Hans).
    destruct (question_kinds q Hq) as (_ & Hmulti & _).
    unfold Wizard.answered in Hans.
    destruct (String.eqb_spec (Views.type q) "multi-select") as [Hm|_]; [|exact Hans].
    apply Hmulti in Hm. contradiction. }
  split; [|split; [|split; [|split; [exact Hskills|]]]].
  - intros k Hk. apply Htext.
    + rewrite keys_cases. unfold Wizard.text_keys in Hk.
      destruct (strict_eq_string "Contract" (JDQuestions.answers st !! "hireType"));
        repeat (apply elem_of_cons in Hk as [-> | Hk]; [member|]);
        by apply elem_of_nil in Hk.
    + intros ->. unfold Wizard.text_keys in Hk.
      repeat (apply elem_of_cons in Hk as [Hk | Hk]; [discriminate Hk|]).
      by apply elem_of_nil in Hk.
    + intros ->. unfold Wizard.text_keys in Hk.
      repeat (apply elem_of_cons in Hk as [Hk | Hk]; [discriminate Hk|]).
      by apply elem_of_nil in Hk.
  - destruct (all_answered st "benefits" Hinv Hdone) as (q & Hq & Hk & Hans);
      [|discriminate|].
    { rewrite keys_cases.
      destruct (strict_eq_string "Contract" (JDQuestions.answers st !! "hireType"));
        member. }
    destruct (question_kinds q Hq) as (_ & Hmulti & _).
    unfold Wizard.answered in Hans. rewrite (proj2 Hmulti Hk) in Hans. simpl in Hans.
    rewrite Hk in Hans. destruct Hans as (items & Hitems & Hne).
    pose proof (Hvalues _ _ Hitems) as Hi. simpl in Hi.
    destruct Hi as (items0 & [= <-] & Hnd & Hstr). by exists items.
  - intros Hcontract. apply Htext; [|discriminate..].
    rewrite keys_cases, Hcontract. simpl. member.
  - unfold JDQuestions.step. destruct Hscreen as [Hs|[Hs|Hs]]; rewrite Hs;
      try reflexivity.
    unfold JDQuestions.show, JDQuestions.renderQuestion. cbv zeta.
    by rewrite (proj2 (lookup_ge_None _ _) Hdone).
Qed.

End Questionnaire.

Example questionnaire_trace :
  let st :=
    @JDQuestions.run Ref.platform (JDQuestions.initial sample_browser)
      [ JDQuestions.Start; JDQuestions.Next " Data Analyst "; JDQuestions.Next "Berlin";
        JDQuestions.Next "CET"; JDQuestions.Next "Full-time";
        JDQuestions.Next "Fintech" ] in
  JDQuestions.currentStep st = 5%nat
  ∧ (∃ l hb, JDQuestions.screen st
             = JDQuestions.Asking (Views.plain "domain" "What industry or domain?" "text")
                 l hb JDQuestions.TextInput)
  ∧ JDQuestions.answers st !! "role" = Some (JStr "Data Analyst")
  ∧ (∃ l hb, JDQuestions.screen
               (@JDQuestions.step Ref.platform st (JDQuestions.Next "Fintech"))
             = JDQuestions.Asking
                 (Views.plain "goals" "What are the 1-year success goals?" "textarea")
                 l hb JDQuestions.TextInput).
Proof. vm_compute. repeat split; by eexists _, _. Qed.

Lemma questionnaire_answers_at_generation_witness :
  JDQuestions.screen
    (@JDQuestions.run Ref.platform (JDQuestions.initial sample_browser) sample_run)
  = JDQuestions.Loading
  ∧ JDQuestions.answers
      (@JDQuestions.run Ref.platform (JDQuestions.initial sample_browser) sample_run)
    !! "skills" = None
  ∧ (∃ s, JDQuestions.answers
            (@JDQuestions.run Ref.platform (JDQuestions.initial sample_browser) sample_run)
          !! "role" = Some (JStr s) ∧ s ≠ EmptyString).
Proof.
  assert (JDQuestions.screen
            (@JDQuestions.run Ref.platform (JDQuestions.initial sample_browser) sample_run)
          = JDQuestions.Loading) as Hloading by (vm_compute; reflexivity).
  split; [exact Hloading|].
  destruct (@questionnaire_answers_at_generation Ref.platform sample_browser sample_run
              (or_introl Hloading)) as (Htext & _ & _ & Hskills & _).
  split; [exact Hskills|]. apply Htext. unfold Wizard.text_keys.
  apply list_elem_of_here.
Defined.

(** ** From the questionnaire to the prompt *)

Section QuestionnairePrompt.
Context `{Platform}.

Lemma answersForAPI_lookup (a : gmap string json) (k : string) :
  a !! "skills" = None → k ≠ "company" → k ≠ "benefits" →
  Generate.answersForAPI a !! k = a !! k.
Proof.
  intros Hskills Hc Hb. unfold Generate.answersForAPI, Generate.joined.
  rewrite (lookup_delete_ne a "company" "skills") by discriminate. rewrite Hskills.
  destruct (delete "company" a !! "benefits") as [[| | | |items|]|];
    rewrite ?lookup_insert_ne by congruence; by apply lookup_delete_ne.
Qed.

Lemma answersForAPI_benefits (a : gmap string json) (items : list json) :
  a !! "skills" = None → a !! "benefits" = Some (JArr items) →
  Generate.answersForAPI a !! "benefits" = Some (JStr (join ", " items)).
Proof.
  intros Hskills Hb. unfold Generate.answersForAPI, Generate.joined.
  rewrite (lookup_delete_ne a "company" "skills") by discriminate. rewrite Hskills.
  rewrite (lookup_delete_ne a "company" "benefits") by discriminate. rewrite Hb.
  apply lookup_insert_eq.
Qed.

Lemma text_truthy (s : string) : s ≠ EmptyString → truthy (JStr s) = true.
Proof. intros Hs. simpl. by apply negb_true_iff, String.eqb_neq. Qed.

Lemma server_text_line (sent a : gmap string json) (label k s : string) :
  sent !! k = a !! k → a !! k = Some (JStr s) → s ≠ EmptyString →
  ProxyServer.line_or_empty (Some (JObj sent)) label k = label +:+ Prompt.text_of a k
  ∧ ProxyServer.line_if (Some (JObj sent)) label k = [label +:+ Prompt.text_of a k].
Proof.
  intros Hsent Hk Hs. unfold ProxyServer.line_or_empty, ProxyServer.line_if,
    ProxyServer.answer, Prompt.text_of, AIService.or_value.
  rewrite Hsent, Hk. cbn [truthy_opt from_option]. rewrite (text_truthy s Hs).
  by split.
Qed.

Lemma prompt_of_answers (st : JDQuestions.State) :
  Wizard.Inv st →
  (length (Views.getFilteredQuestions (JDQuestions.answers st))
   ≤ JDQuestions.currentStep st)%nat →
  ProxyServer.generate_user
    (Some (JObj (<["answers" := JObj (Generate.answersForAPI (JDQuestions.answers st))]>
                (<["model" := JStr "gpt-4o-mini"]> ∅))))
  = Prompt.expected (JDQuestions.answers st).
Proof.
  intros Hinv Hdone. pose proof Hinv as [Hskills Hvalues Hprefix Hsc].
  assert (∀ k, k ∈ Wizard.keys (JDQuestions.answers st) → k ≠ "skills" →
            ∃ q, q ∈ Views.questions ∧ Views.key q = k
                 ∧ Wizard.answered (JDQuestions.answers st) q) as Hall.
  { intros k. by apply all_answered. }
  destruct st as [cs a sc pg].
  cbn [JDQuestions.currentStep JDQuestions.answers JDQuestions.screen] in *.
  assert (∀ k, k ∈ Wizard.text_keys →
            ∃ s, a !! k = Some (JStr s) ∧ s ≠ EmptyString
                 ∧ Generate.answersForAPI a !! k = a !! k) as Htext.
  { intros k Hk.
    assert (k ∈ Wizard.keys a ∧ k ≠ "skills" ∧ k ≠ "benefits" ∧ k ≠ "company")
      as (Hin & Hns & Hnb & Hnc).
    { unfold Wizard.text_keys in Hk. rewrite keys_cases.
      destruct (strict_eq_string "Contract" (a !! "hireType"));
        repeat (apply elem_of_cons in Hk as [-> | Hk];
                [split; [member|repeat split; discriminate]|]);
        by apply elem_of_nil in Hk. }
    destruct (Hall k Hin Hns) as (q & Hq & <- & Hans).
    destruct (question_kinds q Hq) as (_ & Hmulti & _).
    unfold Wizard.answered in Hans.
    destruct (String.eqb_spec (Views.type q) "multi-select") as [Hm|_];
      [apply Hmulti in Hm; contradiction|].
    destruct Hans as (s & Hs & Hne). exists s. split; [exact Hs|]. split; [exact Hne|].
    by apply answersForAPI_lookup. }
  assert (∀ label k, k ∈ Wizard.text_keys →
            ProxyServer.line_or_empty (Some (JObj (Generate.answersForAPI a))) label k
            = label +:+ Prompt.text_of a k
            ∧ ProxyServer.line_if (Some (JObj (Generate.answersForAPI a))) label k
              = [label +:+ Prompt.text_of a k]) as Hline.
  { intros label k Hk. destruct (Htext k Hk) as (s & Hs & Hne & Hsent).
    by eapply server_text_line. }
  assert (ProxyServer.line_if (Some (JObj (Generate.answersForAPI a)))
            "Contract duration: " "duration"
          = Prompt.optional_line "Contract duration: " (Prompt.text_of a "duration"))
    as Hduration.
  { unfold ProxyServer.line_if, ProxyServer.answer, Prompt.optional_line, Prompt.text_of.
    rewrite answersForAPI_lookup by (exact Hskills || discriminate).
    destruct (a !! "duration") as [v|] eqn:Hv; [|reflexivity].
    pose proof (Hvalues _ _ Hv) as Hd. simpl in Hd. destruct Hd as (s & -> & Hne).
    cbn [truthy_opt from_option]. rewrite (text_truthy s Hne).
    apply String.eqb_neq in Hne. by rewrite Hne. }
  assert (ProxyServer.line_if (Some (JObj (Generate.answersForAPI a)))
            "Key skills: " "skills" = []) as Hnoskills.
  { unfold ProxyServer.line_if, ProxyServer.answer.
    rewrite answersForAPI_lookup by (exact Hskills || discriminate).
    by rewrite Hskills. }
  assert (ProxyServer.line_if (Some (JObj (Generate.answersForAPI a)))
            "Benefits and perks: " "benefits"
          = Prompt.optional_line "Benefits and perks: " (Prompt.benefits_of a))
    as Hbenefits.
  { destruct (Hall "benefits") as (q & Hq & Hk & Hans); [|discriminate|].
    { rewrite keys_cases.
      destruct (strict_eq_string "Contract" (a !! "hireType")); member. }
    destruct (question_kinds q Hq) as (_ & Hmulti & _).
    unfold Wizard.answered in Hans. rewrite (proj2 Hmulti Hk) in Hans. simpl in Hans.
    rewrite Hk in Hans. destruct Hans as (items & Hitems & _).
    unfold ProxyServer.line_if, ProxyServer.answer, Prompt.optional_line,
      Prompt.benefits_of.
    rewrite (answersForAPI_benefits a items Hskills Hitems), Hitems.
    cbn [truthy_opt from_option truthy template to_string].
    by destruct (String.eqb (join ", " items) EmptyString). }
  unfold ProxyServer.generate_user, ProxyServer.body_field, Prompt.expected.
  cbv zeta. rewrite lookup_insert_eq.
  rewrite Hduration, Hnoskills, Hbenefits.
  assert (∀ label k, k ∈ Wizard.text_keys →
            ProxyServer.line_or_empty (Some (JObj (Generate.answersForAPI a))) label k
            = label +:+ Prompt.text_of a k) as Hline1 by (intros; by apply Hline).
  assert (∀ label k, k ∈ Wizard.text_keys →
            ProxyServer.line_if (Some (JObj (Generate.answersForAPI a))) label k
            = [label +:+ Prompt.text_of a k]) as Hline2 by (intros; by apply Hline).
  rewrite !Hline1, !Hline2 by (unfold Wizard.text_keys; member).
  reflexivity.
Qed.

(** X21. When the questionnaire starts the generation, the [user] message
    that the proxy builds from the request of [generateViaProxy] has one
    line for each of the role, the location, the time zone, the employment
    type, the domain, the goals, the KPIs, the superstar outcomes, the
    first 90 days and the application process, in that order, each with the
    answer given; a "Benefits and perks" line with the benefits joined by
    [", "]; a "Contract duration" line exactly when a duration was given at
    some time, even if the employment type was changed afterwards; and
    never a "Key skills" or a "Company" line. *)
Theorem questionnaire_prompt
    (b : Browser) (events : list JDQuestions.Event)
    (fetch : AIService.Request → AIService.Response) :
  let st := JDQuestions.run (JDQuestions.initial b) events in
  let sent := JObj (<["answers" := JObj (Generate.answersForAPI (JDQuestions.answers st))]>
                   (<["model" := JStr "gpt-4o-mini"]> ∅)) in
  JDQuestions.screen st = JDQuestions.Loading →
  JSON_parse (JSON_stringify sent) = Some sent →
  ∃ h' request result,
    AIService.generateViaProxy {[ 0%nat := JDQuestions.answers st ]} 0 (JDQuestions.page st)
      fetch = Some (h', request, result)
    ∧ ProxyServer.generate_user (JSON_parse (AIService.body request))
      = Prompt.expected (JDQuestions.answers st).
Proof.
  intros st sent Hloading Hround.
  pose proof (run_inv _ events (initial_inv b)) as Hinv. fold st in Hinv.
  assert (length (Views.getFilteredQuestions (JDQuestions.answers st))
          ≤ JDQuestions.currentStep st)%nat as Hdone.
  { destruct Hinv as [_ _ _ Hsc]. by rewrite Hloading in Hsc. }
  destruct (generateViaProxy_sends {[ 0%nat := JDQuestions.answers st ]} 0
              (JDQuestions.answers st) (JDQuestions.page st) fetch
              (lookup_singleton_eq _ _))
    as (h' & request & result & Hrun & Hbody).
  exists h', request, result. split; [exact Hrun|].
  rewrite Hbody. fold sent. rewrite Hround. by apply prompt_of_answers.
Qed.

End QuestionnairePrompt.

Lemma questionnaire_prompt_witness :
  ∃ h' request result,
    @AIService.generateViaProxy Ref.platform
      {[ 0%nat := JDQuestions.answers
                    (@JDQuestions.run Ref.platform (JDQuestions.initial sample_browser)
                       changed_run) ]}
      0 sample_browser sample_fetch = Some (h', request, result)
    ∧ ProxyServer.generate_user (@JSON_parse Ref.platform (AIService.body request))
      = "Job Role: Data Analyst" +:+ nl +:+ "Location: Berlin" +:+ nl
        +:+ "Time zone: CET" +:+ nl +:+ "Employment type: Full-time" +:+ nl
        +:+ "Contract duration: 6 months" +:+ nl +:+ "Domain preference: Fintech" +:+ nl
        +:+ "1-year success goals: Ship the data platform" +:+ nl
        +:+ "KPIs: Dashboards delivered" +:+ nl
        +:+ "Superstar outcomes: Automated reports" +:+ nl
        +:+ "First 90 days: Know the data" +:+ nl
        +:+ "Benefits and perks: Health insurance, Gym" +:+ nl
        +:+ "Application process: Send a CV".
Proof.
  destruct (@questionnaire_prompt Ref.platform sample_browser changed_run sample_fetch)
    as (h' & request & result & Hrun & Hprompt).
  - vm_compute. reflexivity.
  - vm_compute. reflexivity.
  - exists h', request, result. split; [exact Hrun|].
    rewrite Hprompt. vm_compute. reflexivity.
Defined.
